(** * MedaSync: the appointment scheduling core of [app.py]

    A shallow embedding of the helper functions and request handlers of
    [src/app.py] that allocate identifiers, check availability and
    validate bookings, together with the properties of the design
    document that concern them.

    Conventions of the embedding.
    - Python [str] values are [string]s of 8-bit characters (the ASCII
      fragment of [str]); Python [int]s are [Z] (unbounded, the optional
      limit on the number of digits accepted by [int()] is not modelled).
    - A Python call either returns or raises: the type [result] carries
      the raised exception class.
    - The database is a record of three tables, each a list of rows in
      table order; a [select] is a [filter], [.limit(n)] is [firstn n].
    - [date.today()] is an explicit argument of the handlers. *)

From Stdlib Require Import ZArith List Bool Ascii String Lia Permutation Sorted.
Import ListNotations.
Local Open Scope string_scope.
Local Open Scope Z_scope.

(** ** Exceptions and results *)

Inductive exn : Type :=
| ValueError
| TypeError
| OverflowError
| IntegrityError.

Inductive result (A : Type) : Type :=
| Return (a : A)
| Raise (e : exn).
Arguments Return {A} a.
Arguments Raise {A} e.

Definition bind {A B : Type} (m : result A) (k : A -> result B) : result B :=
  match m with
  | Return a => k a
  | Raise e => Raise e
  end.

Notation "'let*' x ':=' m 'in' k" := (bind m (fun x => k))
  (at level 10, x pattern, m at level 100, k at level 200).

(** [ValueError] unless the optional value is present. *)
Definition or_value_error {A : Type} (o : option A) : result A :=
  match o with
  | Some a => Return a
  | None => Raise ValueError
  end.

(** ** Characters and Python truthiness of strings *)

(** The embedding covers text whose characters are all ASCII. *)
Fixpoint ascii_text (s : string) : bool :=
  match s with
  | EmptyString => true
  | String c s' => (N_of_ascii c <? 128)%N && ascii_text s'
  end.

(** The digits that [\d], [int()] and [strptime] accept, on ASCII text:
    the characters 0 to 9.  In a Python [str] the decimal digits of
    other scripts are digits too; a text that holds such a character is
    outside the embedding. *)
Definition is_digit (c : ascii) : bool :=
  (("0" <=? c) && (c <=? "9"))%char.

Definition digit_value (c : ascii) : Z := Z.of_N (N_of_ascii c) - 48.

Definition digit_char (d : Z) : ascii := ascii_of_N (Z.to_N (48 + d)).

(** C [isspace] in the C locale, used by [int()] on ASCII text:
    tab, line feed, vertical tab, form feed, carriage return, space. *)
Definition is_c_space (c : ascii) : bool :=
  let n := N_of_ascii c in ((9 <=? n) && (n <=? 13) || (n =? 32))%N.

(** Truthiness of a [str]: the empty string is false. *)
Definition truthy (s : string) : bool :=
  match s with
  | EmptyString => false
  | String _ _ => true
  end.

(** Truthiness of a value that is [None] or a [str]. *)
Definition truthy_opt (o : option string) : bool :=
  match o with
  | None => false
  | Some s => truthy s
  end.

(** ** [int(s)] for a string [s] *)

Fixpoint lstrip_space (s : string) : string :=
  match s with
  | String c s' => if is_c_space c then lstrip_space s' else s
  | EmptyString => s
  end.

(** The digit scan of [int()]: digits with single underscores between
    them.  [prev] is the previous character, [acc] the value so far and
    [digits] the number of digits read.  The scan stops at the first
    character that is neither a digit nor an underscore. *)
Fixpoint scan_digits (s : string) (prev : ascii) (acc : Z) (digits : nat)
  : option (Z * nat * string) :=
  let finish := if (prev =? "_")%char then None else Some (acc, digits, s) in
  match s with
  | String c s' =>
      if is_digit c then scan_digits s' c (10 * acc + digit_value c) (S digits)
      else if (c =? "_")%char then
             if (prev =? "_")%char then None else scan_digits s' c acc digits
           else finish
  | EmptyString => finish
  end.

(** An optional sign. *)
Definition strip_sign (s : string) : Z * string :=
  match s with
  | String c r =>
      if (c =? "+")%char then (1, r)
      else if (c =? "-")%char then (-1, r)
      else (1, s)
  | EmptyString => (1, s)
  end.

Definition starts_with_underscore (s : string) : bool :=
  match s with
  | String c _ => (c =? "_")%char
  | EmptyString => false
  end.

Definition py_int (s : string) : option Z :=
  let (sign, s2) := strip_sign (lstrip_space s) in
  if starts_with_underscore s2 then None
  else
    match scan_digits s2 zero 0 0 with
    | None => None
    | Some (v, digits, rest) =>
        if Nat.eqb digits 0 then None
        else match lstrip_space rest with
             | EmptyString => Some (sign * v)
             | String _ _ => None
             end
    end.

(** ** [str(n)] and the format specification [03d] *)

Fixpoint decimal_digits (fuel : nat) (n : Z) (acc : string) : string :=
  match fuel with
  | O => acc
  | S fuel' =>
      let acc' := String (digit_char (n mod 10)) acc in
      if n <? 10 then acc' else decimal_digits fuel' (n / 10) acc'
  end.

(** Decimal digits of a natural number, most significant first. *)
Definition py_str_nat (n : Z) : string :=
  decimal_digits (S (Z.to_nat (Z.log2 n))) n "".

Fixpoint zeros (k : nat) : string :=
  match k with
  | O => ""
  | S k' => String "0" (zeros k')
  end.

Definition zfill (width : nat) (s : string) : string :=
  zeros (width - String.length s) ++ s.

(** [f"{number:03d}"]: sign-aware zero padding to a minimum width of 3. *)
Definition format_03d (number : Z) : string :=
  if number <? 0 then String "-" (zfill 2 (py_str_nat (- number)))
  else zfill 3 (py_str_nat number).

(** ** Identifier allocation *)

(** [last_id[1:]] *)
Definition drop_first (s : string) : string :=
  match s with
  | String _ s' => s'
  | EmptyString => EmptyString
  end.

Definition generate_id (prefix : string) (last_id : option string)
  : result string :=
  let* number :=
    (if truthy_opt last_id then
       match last_id with
       | Some l => let* n := or_value_error (py_int (drop_first l)) in Return (n + 1)
       | None => Return 1
       end
     else Return 1) in
  Return (prefix ++ format_03d number).

(** ** Dates and times

    [datetime.strptime] is modelled for the two formats the program uses,
    following the regular expressions that [_strptime.py] builds for the
    directives:
    - [%Y] is [\d\d\d\d];
    - [%m] is [1[0-2]|0[1-9]|[1-9]];
    - [%d] is [3[0-1]|[1-2]\d|0[1-9]|[1-9]| [1-9]];
    - [%H] is [2[0-3]|[0-1]\d|\d];
    - [%M] is [[0-5]\d|\d];
    - a space of the format is [\s+].
    The expression is matched at the start of the input with ordered
    alternatives and backtracking; text left after the match, a year 0 and
    a day that the month does not have are a [ValueError].

    A matcher lists every way of matching at the head of its input, in
    the order in which the backtracking search tries them. *)

Definition matcher (A : Type) : Type := string -> list (A * string).

Definition mret {A : Type} (a : A) : matcher A := fun s => [(a, s)].

Definition mbind {A B : Type} (m : matcher A) (k : A -> matcher B) : matcher B :=
  fun s => flat_map (fun '(a, rest) => k a rest) (m s).

Definition alt {A : Type} (ms : list (matcher A)) : matcher A :=
  fun s => flat_map (fun m => m s) ms.

Definition in_range (lo hi : ascii) (c : ascii) : bool :=
  ((lo <=? c) && (c <=? hi))%char.

(** One character of the class [p], read as a digit. *)
Definition one (p : ascii -> bool) : matcher Z :=
  fun s =>
    match s with
    | String a rest => if p a then [(digit_value a, rest)] else []
    | EmptyString => []
    end.

(** Two characters of the classes [p1] and [p2], read as two digits. *)
Definition two (p1 p2 : ascii -> bool) : matcher Z :=
  mbind (one p1) (fun a => mbind (one p2) (fun b => mret (10 * a + b))).

Definition lit (c : ascii) : matcher unit :=
  fun s =>
    match s with
    | String a rest => if (a =? c)%char then [(tt, rest)] else []
    | EmptyString => []
    end.

(** [\s] on ASCII text: the characters 9 to 13, 28 to 32. *)
Definition is_re_space (c : ascii) : bool :=
  let n := N_of_ascii c in
  ((9 <=? n) && (n <=? 13) || (28 <=? n) && (n <=? 32))%N.

(** [\s+], greedy: the longest run first. *)
Fixpoint spaces_plus (s : string) : list (unit * string) :=
  match s with
  | String c rest => if is_re_space c then spaces_plus rest ++ [(tt, rest)] else []
  | EmptyString => []
  end.

Definition re_Y : matcher Z :=
  mbind (two is_digit is_digit) (fun hi =>
  mbind (two is_digit is_digit) (fun lo => mret (100 * hi + lo))).

Definition re_m : matcher Z :=
  alt [ two (Ascii.eqb "1") (in_range "0" "2");
        two (Ascii.eqb "0") (in_range "1" "9");
        one (in_range "1" "9") ].

Definition re_d : matcher Z :=
  alt [ two (Ascii.eqb "3") (in_range "0" "1");
        two (in_range "1" "2") is_digit;
        two (Ascii.eqb "0") (in_range "1" "9");
        one (in_range "1" "9");
        mbind (lit " ") (fun _ => one (in_range "1" "9")) ].

Definition re_H : matcher Z :=
  alt [ two (Ascii.eqb "2") (in_range "0" "3");
        two (in_range "0" "1") is_digit;
        one is_digit ].

Definition re_M : matcher Z :=
  alt [ two (in_range "0" "5") is_digit;
        one is_digit ].

(** The result of [re.match]: the first match in search order. *)
Definition first_match {A : Type} (m : matcher A) (s : string)
  : option (A * string) :=
  hd_error (m s).

Definition is_leap (y : Z) : bool :=
  (y mod 4 =? 0) && (negb (y mod 100 =? 0) || (y mod 400 =? 0)).

Definition days_in_month (y m : Z) : Z :=
  if m =? 2 then (if is_leap y then 29 else 28)
  else if (m =? 4) || (m =? 6) || (m =? 9) || (m =? 11) then 30
  else 31.

Definition days_before_year (y : Z) : Z :=
  (y - 1) * 365 + (y - 1) / 4 - (y - 1) / 100 + (y - 1) / 400.

Fixpoint days_before_month_aux (y : Z) (k : nat) : Z :=
  match k with
  | O => 0
  | S k' => days_before_month_aux y k' + days_in_month y (Z.of_nat k)
  end.

Definition days_before_month (y m : Z) : Z :=
  days_before_month_aux y (Z.to_nat (m - 1)).

(** [date(y, m, d).toordinal()]: 0001-01-01 is day 1. *)
Definition ymd2ord (y m d : Z) : Z :=
  days_before_year y + days_before_month y m + d.

Definition MAXORDINAL : Z := 3652059.

(** The [date] constructor, as the ordinal of the day. *)
Definition date_of (y m d : Z) : option Z :=
  if (1 <=? y) && (y <=? 9999) && (1 <=? m) && (m <=? 12)
     && (1 <=? d) && (d <=? days_in_month y m)
  then Some (ymd2ord y m d) else None.

(** A [datetime] with zero seconds is represented by the number of
    minutes from the start of day 0 of the ordinal count; the order of
    [datetime] values is the order of these numbers. *)
Definition datetime_of (y m d hh mm : Z) : option Z :=
  match date_of y m d with
  | Some ord => Some (ord * 1440 + hh * 60 + mm)
  | None => None
  end.

(** [datetime.strptime(s, "%Y-%m-%d %H:%M")] *)
Definition strptime_ymd_hm (s : string) : option Z :=
  let re :=
    mbind re_Y (fun y => mbind (lit "-") (fun _ =>
    mbind re_m (fun m => mbind (lit "-") (fun _ =>
    mbind re_d (fun d => mbind spaces_plus (fun _ =>
    mbind re_H (fun hh => mbind (lit ":") (fun _ =>
    mbind re_M (fun mm => mret (y, m, d, hh, mm)))))))))) in
  match first_match re s with
  | Some ((y, m, d, hh, mm), EmptyString) => datetime_of y m d hh mm
  | _ => None
  end.

(** [datetime.strptime(s, "%Y-%m-%d").date()], as the ordinal of the day. *)
Definition strptime_ymd (s : string) : option Z :=
  let re :=
    mbind re_Y (fun y => mbind (lit "-") (fun _ =>
    mbind re_m (fun m => mbind (lit "-") (fun _ =>
    mbind re_d (fun d => mret (y, m, d)))))) in
  match first_match re s with
  | Some ((y, m, d), EmptyString) => date_of y m d
  | _ => None
  end.

(** [dt + timedelta(minutes=duration)]: [OverflowError] when the
    [timedelta] has more than 999999999 days or the sum leaves the years
    1 to 9999. *)
Definition add_minutes (dt : Z) (duration : Z) : result Z :=
  if 999999999 <? Z.abs (duration / 1440) then Raise OverflowError
  else
    let r := dt + duration in
    if (1 <=? r / 1440) && (r / 1440 <=? MAXORDINAL) then Return r
    else Raise OverflowError.

(** ** The database (models.py) *)

Module Patient.
Record t : Type := mk {
  id : string;
  name : string;
  surname : string;
  date_of_birth : string;
  gender : string;
  email : string;
  country_code : string;
  contact_number : string
}.
End Patient.

Module Doctor.
Record t : Type := mk {
  id : string;
  name : string;
  surname : string;
  specialization : string;
  email : string;
  country_code : string;
  contact_number : string
}.
End Doctor.

Module Appointment.
Record t : Type := mk {
  id : string;
  date : string;
  time : string;
  duration : Z;
  diagnosis : string;
  patient_id : string;
  doctor_id : string
}.
End Appointment.

Record database : Type := mkdb {
  patients : list Patient.t;
  doctors : list Doctor.t;
  appointments : list Appointment.t
}.

(** ** Availability (app.py, lines 75 to 122) *)

(** The interval of a stored appointment: [existing_start] and
    [existing_end]. *)
Definition existing_interval (appointment : Appointment.t) : result (Z * Z) :=
  let* existing_start :=
    or_value_error
      (strptime_ymd_hm
         (Appointment.date appointment ++ " " ++ Appointment.time appointment)) in
  let* existing_end := add_minutes existing_start (Appointment.duration appointment) in
  Return (existing_start, existing_end).

(** [exclude_appt_id and appointment.id == exclude_appt_id] *)
Definition excluded (exclude_appt_id : option string) (appointment : Appointment.t)
  : bool :=
  match exclude_appt_id with
  | Some e => truthy e && (Appointment.id appointment =? e)%string
  | None => false
  end.

(** The loop over the fetched appointments; its body is the same in
    [is_doctor_available] and [is_patient_available]. *)
Fixpoint no_overlap (appt_datetime appt_end : Z) (exclude_appt_id : option string)
  (fetched : list Appointment.t) : result bool :=
  match fetched with
  | [] => Return true
  | appointment :: rest =>
      if excluded exclude_appt_id appointment then
        no_overlap appt_datetime appt_end exclude_appt_id rest
      else
        let* (existing_start, existing_end) := existing_interval appointment in
        if (appt_datetime <? existing_end) && (appt_end >? existing_start)
        then Return false
        else no_overlap appt_datetime appt_end exclude_appt_id rest
  end.

(** The candidate interval: [appt_datetime] and [appt_end]. *)
Definition candidate_interval (appt_date appt_time : string) (duration : Z)
  : result (Z * Z) :=
  let* appt_datetime :=
    or_value_error (strptime_ymd_hm (appt_date ++ " " ++ appt_time)) in
  let* appt_end := add_minutes appt_datetime duration in
  Return (appt_datetime, appt_end).

(** The rows that the query of [is_doctor_available] fetches. *)
Definition doctor_appointments_on (db : database) (doctor_id appt_date : string)
  : list Appointment.t :=
  filter (fun a => (Appointment.doctor_id a =? doctor_id)%string
                   && (Appointment.date a =? appt_date)%string)
         (appointments db).

(** The rows that the [where] clause of [is_patient_available] selects. *)
Definition patient_rows_on (db : database) (patient_id appt_date : string)
  : list Appointment.t :=
  filter (fun a => (Appointment.patient_id a =? patient_id)%string
                   && (Appointment.date a =? appt_date)%string)
         (appointments db).

(** The same query with its [.limit(100)]. *)
Definition patient_appointments_on (db : database) (patient_id appt_date : string)
  : list Appointment.t :=
  firstn 100 (patient_rows_on db patient_id appt_date).

Definition is_doctor_available (db : database) (doctor_id appt_date appt_time : string)
  (duration : Z) (exclude_appt_id : option string) : result bool :=
  let* (appt_datetime, appt_end) := candidate_interval appt_date appt_time duration in
  no_overlap appt_datetime appt_end exclude_appt_id
    (doctor_appointments_on db doctor_id appt_date).

Definition is_patient_available (db : database) (patient_id appt_date appt_time : string)
  (duration : Z) (exclude_appt_id : option string) : result bool :=
  let* (appt_datetime, appt_end) := candidate_interval appt_date appt_time duration in
  no_overlap appt_datetime appt_end exclude_appt_id
    (patient_appointments_on db patient_id appt_date).

(** ** The advisory endpoint [check_availability] (app.py, lines 190 to 232) *)

(** The values that the [duration] entry of the request data can hold:
    a string (form data, JSON strings), a JSON integer, a boolean, a
    float ([PyFloat m e] is [m * 2^e]; JSON as Python reads it also has
    infinities and NaN), or an array or object. *)
Inductive pyval : Type :=
| PyStr (s : string)
| PyInt (n : Z)
| PyBool (b : bool)
| PyFloat (m e : Z)
| PyInf
| PyNaN
| PyContainer.

(** [int(v)] *)
Definition int_of (v : pyval) : result Z :=
  match v with
  | PyStr s => or_value_error (py_int s)
  | PyInt n => Return n
  | PyBool b => Return (if b then 1 else 0)
  | PyFloat m e => Return (if 0 <=? e then m * 2 ^ e else Z.quot m (2 ^ (- e)))
  | PyInf => Raise OverflowError
  | PyNaN => Raise ValueError
  | PyContainer => Raise TypeError
  end.

(** [int(duration) if duration is not None else 30] *)
Definition duration_or_default (duration : option pyval) : result Z :=
  match duration with
  | Some v => int_of v
  | None => Return 30
  end.

Inductive json_reply : Type :=
| ErrorReply (error message : string) (status : Z)
| AvailabilityReply (doctor_available patient_available : bool).

(** [try: ok = check except Exception: ok = False] *)
Definition unavailable_on_error (check : result bool) : bool :=
  match check with
  | Return ok => ok
  | Raise _ => false
  end.

(** [doctor_ok]: [True] unless a doctor id is given and the check fails. *)
Definition doctor_ok (db : database) (doctor_id : option string)
  (date_str time_str : string) (dur : Z) : bool :=
  match doctor_id with
  | Some doctor_id =>
      if truthy doctor_id then
        unavailable_on_error (is_doctor_available db doctor_id date_str time_str dur None)
      else true
  | None => true
  end.

(** [patient_ok]: [True] unless a patient id is given and the check fails. *)
Definition patient_ok (db : database) (patient_id : option string)
  (date_str time_str : string) (dur : Z) : bool :=
  match patient_id with
  | Some patient_id =>
      if truthy patient_id then
        unavailable_on_error (is_patient_available db patient_id date_str time_str dur None)
      else true
  | None => true
  end.

Definition check_availability (db : database)
  (doctor_id patient_id date_str time_str : option string) (duration : option pyval)
  : result json_reply :=
  match date_str, time_str with
  | Some date_str, Some time_str =>
      if negb (truthy date_str) || negb (truthy time_str) then
        Return (ErrorReply "missing_date_or_time" "Date and time are required" 400)
      else
        match duration_or_default duration with
        | Raise TypeError | Raise ValueError =>
            Return (ErrorReply "invalid_duration" "Duration must be an integer" 400)
        | Raise e => Raise e
        | Return dur =>
            Return (AvailabilityReply
                      (doctor_ok db doctor_id date_str time_str dur)
                      (patient_ok db patient_id date_str time_str dur))
        end
  | _, _ => Return (ErrorReply "missing_date_or_time" "Date and time are required" 400)
  end.

(** ** Booking and rescheduling (app.py, lines 739 to 884) *)

(** The fields of the posted form. *)
Module Form.
Record t : Type := mk {
  date : string;
  time : string;
  duration : string;
  diagnosis : string;
  patient_id : string;
  doctor_id : string
}.
End Form.

(** What a handler answers: the form rendered again after
    [flash(message, category)], or a redirect to the list of appointments
    after [flash(message, category)]. *)
Inductive response : Type :=
| RenderForm (message category : string)
| RedirectAppointments (message category : string).

(** [re.match(r'^\d{2}:\d{2}$', time_str)]; [$] also matches before a
    final line feed. *)
Definition match_hh_mm (time_str : string) : bool :=
  match time_str with
  | String h1 (String h2 (String ":" (String m1 (String m2 rest)))) =>
      is_digit h1 && is_digit h2 && is_digit m1 && is_digit m2
      && match rest with
         | EmptyString => true
         | String c EmptyString => (c =? "010")%char
         | _ => false
         end
  | _ => false
  end.

(** [select(...).where(id == key)] followed by [scalar_one_or_none()];
    [id] is the primary key of each table. *)
Definition get_patient (db : database) (key : string) : option Patient.t :=
  find (fun p => (Patient.id p =? key)%string) (patients db).

Definition get_doctor (db : database) (key : string) : option Doctor.t :=
  find (fun d => (Doctor.id d =? key)%string) (doctors db).

Definition get_appointment (db : database) (key : string) : option Appointment.t :=
  find (fun a => (Appointment.id a =? key)%string) (appointments db).

(** [select(Appointment).order_by(Appointment.id.desc()).limit(1)]
    followed by [first()]: the row with the greatest id in the order of
    strings. *)
Definition last_appointment (db : database) : option Appointment.t :=
  fold_left
    (fun best a =>
       match best with
       | None => Some a
       | Some b => if (Appointment.id b <? Appointment.id a)%string then Some a else best
       end)
    (appointments db) None.

(** [session.add(row)] and [commit()]: the primary key must be new. *)
Definition insert_appointment (db : database) (row : Appointment.t) : result database :=
  match get_appointment db (Appointment.id row) with
  | Some _ => Raise IntegrityError
  | None => Return (mkdb (patients db) (doctors db) (appointments db ++ [row]))
  end.

(** [update(Appointment).where(Appointment.id == key).values(...)]; the
    store (SQLite as the program configures it) does not check the
    foreign keys [patient_id] and [doctor_id]. *)
Definition update_appointment (db : database) (key : string) (form : Form.t) (duration : Z)
  : database :=
  mkdb (patients db) (doctors db)
    (map (fun a =>
            if (Appointment.id a =? key)%string then
              Appointment.mk (Appointment.id a) (Form.date form) (Form.time form)
                duration (Form.diagnosis form) (Form.patient_id form) (Form.doctor_id form)
            else a)
         (appointments db)).

(** [add_appointment] on a POST request; [today] is the ordinal of
    [date.today()]. *)
Definition add_appointment (today : Z) (db : database) (form : Form.t)
  : result (response * database) :=
  let date_str := Form.date form in
  let time_str := Form.time form in
  let* duration := or_value_error (py_int (Form.duration form)) in
  let patient_id := Form.patient_id form in
  let doctor_id := Form.doctor_id form in
  match get_patient db patient_id with
  | None => Return (RenderForm "Selected patient does not exist" "error", db)
  | Some _ =>
  match get_doctor db doctor_id with
  | None => Return (RenderForm "Selected doctor does not exist" "error", db)
  | Some _ =>
  let* appointment_date := or_value_error (strptime_ymd date_str) in
  if appointment_date <? today then
    Return (RenderForm "Cannot book appointments in the past" "error", db)
  else if (duration <=? 0) || (duration >? 240) then
    Return (RenderForm "Duration must be between 1 and 240 minutes" "error", db)
  else if negb (match_hh_mm time_str) then
    Return (RenderForm "Time must be in HH:MM format" "error", db)
  else
    let* available := is_doctor_available db doctor_id date_str time_str duration None in
    if negb available then
      Return (RenderForm
                "Doctor is not available at this time. Please choose another time."
                "error", db)
    else
      let* appointment_id :=
        generate_id "A" (option_map Appointment.id (last_appointment db)) in
      let new_appointment :=
        Appointment.mk appointment_id date_str time_str duration
          (Form.diagnosis form) patient_id doctor_id in
      let* db' := insert_appointment db new_appointment in
      Return (RedirectAppointments
                ("Appointment " ++ appointment_id ++ " booked successfully")
                "success", db')
  end end.

(** [edit_appointment] on a POST request. *)
Definition edit_appointment (today : Z) (db : database) (appointment_id : string)
  (form : Form.t) : result (response * database) :=
  match get_appointment db appointment_id with
  | None => Return (RedirectAppointments "Appointment not found" "error", db)
  | Some appt =>
      let date_str := Form.date form in
      let time_str := Form.time form in
      let* duration := or_value_error (py_int (Form.duration form)) in
      let patient_id := Form.patient_id form in
      let doctor_id := Form.doctor_id form in
      let* appointment_date := or_value_error (strptime_ymd date_str) in
      if appointment_date <? today then
        Return (RenderForm "Cannot set appointment date in the past" "error", db)
      else if (duration <=? 0) || (duration >? 240) then
        Return (RenderForm "Duration must be between 1 and 240 minutes" "error", db)
      else
        let* doctor_free :=
          is_doctor_available db doctor_id date_str time_str duration
            (Some appointment_id) in
        if negb doctor_free then
          Return (RenderForm "Doctor is not available at this time" "error", db)
        else
          let* patient_free :=
            is_patient_available db patient_id date_str time_str duration
              (Some appointment_id) in
          if negb patient_free then
            Return (RenderForm "Patient is not available at this time" "error", db)
          else
            Return (RedirectAppointments
                      ("Appointment " ++ appointment_id ++ " updated successfully")
                      "success",
                    update_appointment db appointment_id form duration)
  end.

(** ** The vocabulary of the design document *)

(** The reasons of a rejected booking. *)
Inductive reason : Type :=
| PatientNotFound
| DoctorNotFound
| PastDate
| InvalidDuration
| InvalidTimeFormat
| DoctorUnavailable
| PatientUnavailable.

(** The reason that a flashed error message stands for. *)
Definition reason_of_message (message : string) : option reason :=
  if (message =? "Selected patient does not exist")%string then Some PatientNotFound
  else if (message =? "Selected doctor does not exist")%string then Some DoctorNotFound
  else if (message =? "Cannot book appointments in the past")%string
          || (message =? "Cannot set appointment date in the past")%string
       then Some PastDate
  else if (message =? "Duration must be between 1 and 240 minutes")%string
       then Some InvalidDuration
  else if (message =? "Time must be in HH:MM format")%string then Some InvalidTimeFormat
  else if (message =? "Doctor is not available at this time. Please choose another time.")%string
          || (message =? "Doctor is not available at this time")%string
       then Some DoctorUnavailable
  else if (message =? "Patient is not available at this time")%string
       then Some PatientUnavailable
  else None.

(** A request is rejected with reason [r] when the handler flashes an
    error that stands for [r], renders the form again and leaves the
    database as it was. *)
Definition rejected_with (r : reason) (db : database)
  (answer : result (response * database)) : Prop :=
  exists message,
    answer = Return (RenderForm message "error", db)
    /\ reason_of_message message = Some r.

(** A request is accepted when the handler redirects with a success
    message; [db'] is the database after the commit. *)
Definition accepted (db' : database) (answer : result (response * database)) : Prop :=
  exists message, answer = Return (RedirectAppointments message "success", db').

(** Width of the [id] columns: [db.String(4)]. *)
Definition id_column_width : nat := 4.

(** A decimal numeral: one or more digits. *)
Fixpoint all_digits (s : string) : bool :=
  match s with
  | EmptyString => true
  | String c s' => is_digit c && all_digits s'
  end.

Definition decimal_numeral (s : string) : bool :=
  truthy s && all_digits s.

Fixpoint digits_value_from (acc : Z) (s : string) : Z :=
  match s with
  | EmptyString => acc
  | String c s' => digits_value_from (10 * acc + digit_value c) s'
  end.

(** The number that a decimal numeral denotes. *)
Definition digits_value (s : string) : Z := digits_value_from 0 s.

(** The first character of a string, if any. *)
Definition first_char (s : string) : option ascii :=
  match s with
  | EmptyString => None
  | String c _ => Some c
  end.

(** The characters that can occur in a text that [int()] accepts. *)
Definition int_char (c : ascii) : bool :=
  is_digit c || is_c_space c || (c =? "+")%char || (c =? "-")%char || (c =? "_")%char.

Fixpoint all_int_chars (s : string) : bool :=
  match s with
  | EmptyString => true
  | String c s' => int_char c && all_int_chars s'
  end.

(** What the design document asks of the allocator for the prefix
    [prefix] and the greatest existing id [prefix ++ numeral]: the
    answer is the prefix followed by the numeral of the next number,
    padded with zeros to three digits. *)
Definition next_id_after (prefix numeral : string) : Prop :=
  exists s,
    generate_id prefix (Some (prefix ++ numeral)) = Return (prefix ++ s)
    /\ decimal_numeral s = true
    /\ digits_value s = digits_value numeral + 1
    /\ (3 <= String.length s)%nat
    /\ ((3 < String.length s)%nat -> first_char s <> Some "0"%char).

(** Half-open overlap of a candidate interval with an existing one:
    [candidateStart < existingEnd AND candidateEnd > existingStart]. *)
Definition overlaps (candidate existing : Z * Z) : Prop :=
  fst candidate < snd existing /\ snd candidate > fst existing.

(** Some appointment of [fetched], other than the one whose id is the
    exclusion id, overlaps the candidate. *)
Definition conflict (candidate : Z * Z) (exclude_appt_id : option string)
  (fetched : list Appointment.t) : Prop :=
  exists appointment existing,
    In appointment fetched
    /\ Some (Appointment.id appointment) <> exclude_appt_id
    /\ existing_interval appointment = Return existing
    /\ overlaps candidate existing.

(** The candidate interval from [candidate_start] to [candidate_end]
    overlaps the stored appointment [a]: the appointment starts at the
    minute that its date and time denote and lasts for its duration, and
    [candidateStart < existingEnd AND candidateEnd > existingStart]. *)
Definition overlaps_row (candidate_start candidate_end : Z) (a : Appointment.t) : Prop :=
  exists existing_start,
    strptime_ymd_hm (Appointment.date a ++ " " ++ Appointment.time a)
    = Some existing_start
    /\ candidate_start < existing_start + Appointment.duration a
    /\ candidate_end > existing_start.

(** A stored appointment is well formed when its id is not empty and its
    date, time and duration give an interval. *)
Definition well_formed_row (appointment : Appointment.t) : Prop :=
  truthy (Appointment.id appointment) = true
  /\ exists existing, existing_interval appointment = Return existing.

(** The checks of [add_appointment] that come before the allocation of
    the id all pass, for the duration [duration]. *)
Definition passes_validation (today : Z) (db : database) (form : Form.t)
  (duration : Z) : Prop :=
  py_int (Form.duration form) = Some duration
  /\ get_patient db (Form.patient_id form) <> None
  /\ get_doctor db (Form.doctor_id form) <> None
  /\ (exists day, strptime_ymd (Form.date form) = Some day /\ today <= day)
  /\ 1 <= duration <= 240
  /\ match_hh_mm (Form.time form) = true
  /\ is_doctor_available db (Form.doctor_id form) (Form.date form) (Form.time form)
       duration None = Return true.

(** ** Sample data *)

Definition anna : Patient.t :=
  Patient.mk "P001" "Anna" "Nangolo" "1990-05-17" "Female" "anna@example.org"
    "+264" "812345678".

Definition ben : Patient.t :=
  Patient.mk "P002" "Ben" "Moyo" "1984-11-02" "Male" "ben@example.org"
    "+263" "771234567".

Definition dr_hamutenya : Doctor.t :=
  Doctor.mk "D001" "Selma" "Hamutenya" "Cardiology" "selma@example.org"
    "+264" "811111111".

Definition dr_dlamini : Doctor.t :=
  Doctor.mk "D002" "Sipho" "Dlamini" "Pediatrics" "sipho@example.org"
    "+27" "821111111".

(** Anna sees Dr Hamutenya on 2024-01-05 from 09:00 to 09:30. *)
Definition A001 : Appointment.t :=
  Appointment.mk "A001" "2024-01-05" "09:00" 30 "check-up" "P001" "D001".

Definition clinic : database :=
  mkdb [anna; ben] [dr_hamutenya; dr_dlamini] [A001].

(** 2024-01-02 *)
Definition a_tuesday : Z := ymd2ord 2024 1 2.

(** The same clinic when the only stored appointment has an id that does
    not end in a number. *)
Definition clinic_with_odd_id : database :=
  mkdb [anna; ben] [dr_hamutenya; dr_dlamini]
    [Appointment.mk "A00x" "2024-01-05" "09:00" 30 "check-up" "P001" "D001"].




(** ** Contact validation (app.py, lines 21 to 33 and 44 to 73) *)

(** [COUNTRY_CODES], with the [code] and [name] of each entry (the
    [flag] entry is an emoji that no function reads). *)
Definition COUNTRY_CODES : list (string * string) :=
  [ ("+264", "Namibia"); ("+27", "South Africa"); ("+263", "Zimbabwe");
    ("+267", "Botswana"); ("+260", "Zambia"); ("+258", "Mozambique");
    ("+256", "Uganda"); ("+254", "Kenya"); ("+255", "Tanzania");
    ("+234", "Nigeria") ].

(** [re.sub(r'[^\d]', '', s)] *)
Fixpoint strip_non_digits (s : string) : string :=
  match s with
  | EmptyString => EmptyString
  | String c s' =>
      if is_digit c then String c (strip_non_digits s') else strip_non_digits s'
  end.

(** The text after the leading digits. *)
Fixpoint after_digits (s : string) : string :=
  match s with
  | String c s' => if is_digit c then after_digits s' else s
  | EmptyString => s
  end.

(** [re.match(r'^\d+$', s)]: one digit or more, then the end of the text
    or a final line feed. *)
Definition match_digits (s : string) : bool :=
  match s with
  | String c _ =>
      is_digit c
      && match after_digits s with
         | EmptyString => true
         | String c' EmptyString => (c' =? "010")%char
         | _ => false
         end
  | EmptyString => false
  end.

Definition validate_phone_number (phone_number : string) : bool :=
  if negb (truthy phone_number) then false
  else
    let clean_number := strip_non_digits phone_number in
    if (String.length clean_number <? 7)%nat || (15 <? String.length clean_number)%nat
    then false
    else if negb (match_digits clean_number) then false
    else true.

Definition validate_country_code (country_code : string) : bool :=
  if negb (truthy country_code) then false
  else
    let valid_codes := map fst COUNTRY_CODES in
    existsb (String.eqb country_code) valid_codes.

Definition format_phone_number (phone_number : string) : string :=
  if negb (truthy phone_number) then ""
  else strip_non_digits phone_number.

(** ** Time slots (app.py, lines 127 to 133) *)

(** [f"{n:02d}"] *)
Definition format_02d (number : Z) : string :=
  if number <? 0 then String "-" (zfill 1 (py_str_nat (- number)))
  else zfill 2 (py_str_nat number).

Definition get_time_slots : list string :=
  flat_map
    (fun hour => map (fun minute => format_02d hour ++ ":" ++ format_02d minute) [0; 30])
    (map Z.of_nat (seq 8 10)).

(** ** Users and the route guards (models.py, lines 8 to 13; app.py,
    lines 135 to 143 and 167 to 187) *)

(** [created_at] is kept as a number of seconds. *)
Module User.
Record t : Type := mk {
  id : Z;
  username : string;
  password_hash : string;
  is_admin : bool;
  created_at : Z
}.
End User.

(** What a handler outside the booking forms answers: a template
    rendered or a redirect to an endpoint, after at most one
    [flash(message, category)]. *)
Inductive reply : Type :=
| Rendered (template : string) (flashed : option (string * string))
| Redirected (endpoint : string) (flashed : option (string * string)).

(** [is_admin()]; [session] is the value of [session['user_id']], if
    the key is present. *)
Definition is_admin (users : list User.t) (session : option Z) : bool :=
  match session with
  | None => false
  | Some user_id =>
      match find (fun u => User.id u =? user_id) users with
      | Some user => User.is_admin user
      | None => false
      end
  end.

(** The decorator [login_required] around a handler [f] that works on a
    store of type [S]. *)
Definition login_required {S : Type} (session : option Z) (store : S)
  (f : result (reply * S)) : result (reply * S) :=
  match session with
  | None => Return (Redirected "login" None, store)
  | Some _ => f
  end.

(** The decorator [admin_required]. *)
Definition admin_required {S : Type} (users : list User.t) (session : option Z)
  (store : S) (f : result (reply * S)) : result (reply * S) :=
  match session with
  | None => Return (Redirected "login" None, store)
  | Some _ =>
      if negb (is_admin users session) then
        Return (Redirected "index" (Some ("Admin access required", "error")), store)
      else f
  end.

(** [delete_user], inside its guard; the store is the table of users. *)
Definition delete_user (users : list User.t) (user_id : Z)
  : result (reply * list User.t) :=
  match find (fun u => User.id u =? user_id) users with
  | None => Return (Redirected "users" (Some ("User not found", "error")), users)
  | Some user =>
      if (User.username user =? "admin")%string then
        Return (Redirected "users" (Some ("Cannot delete admin user", "error")), users)
      else
        Return (Redirected "users" (Some ("User deleted successfully", "success")),
                filter (fun u => negb (User.id u =? User.id user)) users)
  end.

Definition route_delete_user (session : option Z) (users : list User.t) (user_id : Z)
  : result (reply * list User.t) :=
  admin_required users session users (delete_user users user_id).

(** ** Patients and doctors (app.py, lines 428 to 540 and 609 to 706) *)

Module PatientForm.
Record t : Type := mk {
  name : string;
  surname : string;
  date_of_birth : string;
  gender : string;
  email : string;
  country_code : string;
  contact_number : string
}.
End PatientForm.

Module DoctorForm.
Record t : Type := mk {
  name : string;
  surname : string;
  specialization : string;
  email : string;
  country_code : string;
  contact_number : string
}.
End DoctorForm.

(** The row with the greatest id in the order of strings, as
    [order_by(id.desc()).limit(1)] followed by [first()] gives it. *)
Definition last_by {A : Type} (key : A -> string) (rows : list A) : option A :=
  fold_left
    (fun best a =>
       match best with
       | None => Some a
       | Some b => if (key b <? key a)%string then Some a else best
       end)
    rows None.

Definition insert_patient (db : database) (row : Patient.t) : result database :=
  match get_patient db (Patient.id row) with
  | Some _ => Raise IntegrityError
  | None => Return (mkdb (patients db ++ [row]) (doctors db) (appointments db))
  end.

Definition insert_doctor (db : database) (row : Doctor.t) : result database :=
  match get_doctor db (Doctor.id row) with
  | Some _ => Raise IntegrityError
  | None => Return (mkdb (patients db) (doctors db ++ [row]) (appointments db))
  end.

(** [add_patient] on a POST request. *)
Definition add_patient (today : Z) (db : database) (form : PatientForm.t)
  : result (reply * database) :=
  let country_code := PatientForm.country_code form in
  let contact_number := PatientForm.contact_number form in
  if negb (validate_country_code country_code) then
    Return (Rendered "add_patient.html"
              (Some ("Please select a valid country code", "error")), db)
  else if negb (validate_phone_number contact_number) then
    Return (Rendered "add_patient.html"
              (Some ("Phone number must contain 7-15 digits only (e.g., 812345678)",
                     "error")), db)
  else
    let formatted_number := format_phone_number contact_number in
    let* dob := or_value_error (strptime_ymd (PatientForm.date_of_birth form)) in
    if dob >? today then
      Return (Rendered "add_patient.html"
                (Some ("Date of birth cannot be in the future", "error")), db)
    else
      let* patient_id :=
        generate_id "P" (option_map Patient.id (last_by Patient.id (patients db))) in
      let new_patient :=
        Patient.mk patient_id (PatientForm.name form) (PatientForm.surname form)
          (PatientForm.date_of_birth form) (PatientForm.gender form)
          (PatientForm.email form) country_code formatted_number in
      let* db' := insert_patient db new_patient in
      Return (Redirected "patients"
                (Some ("Patient " ++ patient_id ++ " added successfully", "success")),
              db').

(** [edit_patient] on a POST request; the changes made to the loaded row
    reach the table only with [commit()]. *)
Definition edit_patient (today : Z) (db : database) (patient_id : string)
  (form : PatientForm.t) : result (reply * database) :=
  match get_patient db patient_id with
  | None => Return (Redirected "patients" (Some ("Patient not found", "error")), db)
  | Some patient =>
      let contact_number := PatientForm.contact_number form in
      if negb (validate_phone_number contact_number) then
        Return (Rendered "edit_patient.html"
                  (Some ("Phone number must contain 7-15 digits only (e.g., 812345678)",
                         "error")), db)
      else
        let* dob := or_value_error (strptime_ymd (PatientForm.date_of_birth form)) in
        if dob >? today then
          Return (Rendered "edit_patient.html"
                    (Some ("Date of birth cannot be in the future", "error")), db)
        else
          let updated :=
            Patient.mk (Patient.id patient) (PatientForm.name form)
              (PatientForm.surname form) (PatientForm.date_of_birth form)
              (PatientForm.gender form) (PatientForm.email form)
              (PatientForm.country_code form) (format_phone_number contact_number) in
          Return (Redirected "view_patient"
                    (Some ("Patient updated successfully", "success")),
                  mkdb (map (fun p => if (Patient.id p =? Patient.id patient)%string
                                      then updated else p) (patients db))
                       (doctors db) (appointments db))
  end.

(** [delete_patient], inside its guard. *)
Definition delete_patient (db : database) (patient_id : string)
  : result (reply * database) :=
  match get_patient db patient_id with
  | None => Return (Redirected "patients" (Some ("Patient not found", "error")), db)
  | Some patient =>
      Return (Redirected "patients"
                (Some ("Patient and their appointments deleted successfully", "success")),
              mkdb (filter (fun p => negb (Patient.id p =? Patient.id patient)%string)
                      (patients db))
                   (doctors db)
                   (filter (fun a => negb (Appointment.patient_id a =? patient_id)%string)
                      (appointments db)))
  end.

Definition route_delete_patient (users : list User.t) (session : option Z)
  (db : database) (patient_id : string) : result (reply * database) :=
  admin_required users session db (delete_patient db patient_id).

(** [add_doctor] on a POST request. *)
Definition add_doctor (db : database) (form : DoctorForm.t)
  : result (reply * database) :=
  let country_code := DoctorForm.country_code form in
  let contact_number := DoctorForm.contact_number form in
  if negb (validate_country_code country_code) then
    Return (Rendered "add_doctor.html"
              (Some ("Please select a valid country code", "error")), db)
  else if negb (validate_phone_number contact_number) then
    Return (Rendered "add_doctor.html"
              (Some ("Phone number must contain 7-15 digits only (e.g., 812345678)",
                     "error")), db)
  else
    let formatted_number := format_phone_number contact_number in
    let* doctor_id :=
      generate_id "D" (option_map Doctor.id (last_by Doctor.id (doctors db))) in
    let new_doctor :=
      Doctor.mk doctor_id (DoctorForm.name form) (DoctorForm.surname form)
        (DoctorForm.specialization form) (DoctorForm.email form) country_code
        formatted_number in
    let* db' := insert_doctor db new_doctor in
    Return (Redirected "doctors"
              (Some ("Doctor " ++ doctor_id ++ " added successfully", "success")),
            db').

(** [edit_doctor] on a POST request. *)
Definition edit_doctor (db : database) (doctor_id : string) (form : DoctorForm.t)
  : result (reply * database) :=
  match get_doctor db doctor_id with
  | None => Return (Redirected "doctors" (Some ("Doctor not found", "error")), db)
  | Some doctor =>
      let contact_number := DoctorForm.contact_number form in
      if negb (validate_phone_number contact_number) then
        Return (Rendered "edit_doctor.html"
                  (Some ("Phone number must contain 7-15 digits only (e.g., 812345678)",
                         "error")), db)
      else
        let updated :=
          Doctor.mk (Doctor.id doctor) (DoctorForm.name form) (DoctorForm.surname form)
            (DoctorForm.specialization form) (DoctorForm.email form)
            (DoctorForm.country_code form) (format_phone_number contact_number) in
        Return (Redirected "view_doctor"
                  (Some ("Doctor updated successfully", "success")),
                mkdb (patients db)
                     (map (fun d => if (Doctor.id d =? Doctor.id doctor)%string
                                    then updated else d) (doctors db))
                     (appointments db))
  end.

(** [delete_doctor], inside its guard. *)
Definition delete_doctor (db : database) (doctor_id : string)
  : result (reply * database) :=
  match get_doctor db doctor_id with
  | None => Return (Redirected "doctors" (Some ("Doctor not found", "error")), db)
  | Some doctor =>
      Return (Redirected "doctors"
                (Some ("Doctor and their appointments deleted successfully", "success")),
              mkdb (patients db)
                   (filter (fun d => negb (Doctor.id d =? Doctor.id doctor)%string)
                      (doctors db))
                   (filter (fun a => negb (Appointment.doctor_id a =? doctor_id)%string)
                      (appointments db)))
  end.

Definition route_delete_doctor (users : list User.t) (session : option Z)
  (db : database) (doctor_id : string) : result (reply * database) :=
  admin_required users session db (delete_doctor db doctor_id).

(** ** Deleting an appointment (app.py, lines 813 to 826) *)

Definition delete_appointment (db : database) (appointment_id : string)
  : result (reply * database) :=
  match get_appointment db appointment_id with
  | None =>
      Return (Redirected "appointments" (Some ("Appointment not found", "error")), db)
  | Some appointment =>
      Return (Redirected "appointments"
                (Some ("Appointment deleted successfully", "success")),
              mkdb (patients db) (doctors db)
                   (filter (fun a => negb (Appointment.id a
                                           =? Appointment.id appointment)%string)
                      (appointments db)))
  end.

(** The two users that [create_admin_user] sets up, with stand-ins for
    the password hashes. *)
Definition sample_users : list User.t :=
  [ User.mk 1 "admin" "hash-of-admin123" true 1704153600;
    User.mk 2 "user" "hash-of-user123" false 1704153600 ].

(** ** The lists of a patient and of a doctor (app.py, lines 386 to 426
    and 567 to 607) *)

(** [order_by(Appointment.date.desc(), Appointment.time.desc())] with
    dates and times compared as text: [a] may stand before [b]. *)
Definition comes_before (a b : Appointment.t) : bool :=
  match String.compare (Appointment.date b) (Appointment.date a) with
  | Lt => true
  | Gt => false
  | Eq => (Appointment.time b <=? Appointment.time a)%string
  end.

(** The rows in that order; rows with the same date and time keep the
    order of the table. *)
Fixpoint insert_row (a : Appointment.t) (sorted : list Appointment.t)
  : list Appointment.t :=
  match sorted with
  | [] => [a]
  | b :: rest => if comes_before a b then a :: sorted else b :: insert_row a rest
  end.

Definition newest_first (rows : list Appointment.t) : list Appointment.t :=
  fold_right insert_row [] rows.

Record listing : Type := mk_listing {
  all_appointments : list Appointment.t;
  upcoming_appointments : list Appointment.t;
  past_appointments : list Appointment.t
}.

(** The three lists for the rows that [mine] selects; [today] is
    [date.today().strftime("%Y-%m-%d")]. *)
Definition appointment_lists (today : string) (mine : Appointment.t -> bool)
  (rows : list Appointment.t) : listing :=
  mk_listing
    (newest_first (filter mine rows))
    (newest_first
       (filter (fun a => mine a && (today <=? Appointment.date a)%string) rows))
    (newest_first
       (filter (fun a => mine a && (Appointment.date a <? today)%string) rows)).

(** [view_patient]: a redirect with a message when the patient is not
    found, the lists otherwise. *)
Definition view_patient (today : string) (db : database) (patient_id : string)
  : reply + listing :=
  match get_patient db patient_id with
  | None => inl (Redirected "patients" (Some ("Patient not found", "error")))
  | Some _ =>
      inr (appointment_lists today
             (fun a => (Appointment.patient_id a =? patient_id)%string)
             (appointments db))
  end.

(** [view_doctor] *)
Definition view_doctor (today : string) (db : database) (doctor_id : string)
  : reply + listing :=
  match get_doctor db doctor_id with
  | None => inl (Redirected "doctors" (Some ("Doctor not found", "error")))
  | Some _ =>
      inr (appointment_lists today
             (fun a => (Appointment.doctor_id a =? doctor_id)%string)
             (appointments db))
  end.

(** ** The dashboard (app.py, lines 234 to 279) *)

(** [order_by(Appointment.date, Appointment.time)] with dates and times
    compared as text: [a] may stand before [b]. *)
Definition comes_first (a b : Appointment.t) : bool :=
  match String.compare (Appointment.date a) (Appointment.date b) with
  | Lt => true
  | Gt => false
  | Eq => (Appointment.time a <=? Appointment.time b)%string
  end.

Fixpoint insert_ascending (a : Appointment.t) (sorted : list Appointment.t)
  : list Appointment.t :=
  match sorted with
  | [] => [a]
  | b :: rest =>
      if comes_first a b then a :: sorted else b :: insert_ascending a rest
  end.

(** The rows in that order; rows with the same date and time keep the
    order of the table. *)
Definition oldest_first (rows : list Appointment.t) : list Appointment.t :=
  fold_right insert_ascending [] rows.

(** What [index] hands to the template [dashboard.html]. *)
Module Dashboard.
Record t : Type := mk {
  username : string;
  patients_count : nat;
  doctors_count : nat;
  today_appointments : list Appointment.t;
  upcoming_appointments : list Appointment.t;
  is_admin : bool
}.
End Dashboard.

(** [index]: the answer and the session after it; [today] is
    [date.today().strftime("%Y-%m-%d")]. *)
Definition index (today : string) (users : list User.t) (session : option Z)
  (db : database) : (reply + Dashboard.t) * option Z :=
  match session with
  | None => (inl (Redirected "login" None), session)
  | Some user_id =>
      match find (fun u => User.id u =? user_id) users with
      | None =>
          (inl (Redirected "login"
                  (Some ("User not found. Please login again.", "error"))),
           None)
      | Some user =>
          (inr (Dashboard.mk
                  (User.username user)
                  (List.length (patients db))
                  (List.length (doctors db))
                  (filter (fun a => (Appointment.date a =? today)%string)
                     (appointments db))
                  (firstn 10
                     (oldest_first
                        (filter (fun a => (today <=? Appointment.date a)%string)
                           (appointments db))))
                  (is_admin users session)),
           session)
      end
  end.

(** ** Vocabulary for the properties of these handlers *)

(** The number of digits in a text. *)
Fixpoint count_digits (s : string) : nat :=
  match s with
  | EmptyString => 0
  | String c s' => (if is_digit c then 1 else 0) + count_digits s'
  end.

(** Every appointment refers to a stored patient and a stored doctor. *)
Definition references_exist (db : database) : Prop :=
  forall a, In a (appointments db) ->
            get_patient db (Appointment.patient_id a) <> None
            /\ get_doctor db (Appointment.doctor_id a) <> None.

(** An id of the documented shape: one letter and three digits. *)
Definition short_id (letter : ascii) (s : string) : Prop :=
  exists numeral,
    s = String letter numeral /\ String.length numeral = 3%nat
    /\ all_digits numeral = true.

(** The number that an id of the documented shape carries. *)
Definition id_number (s : string) : Z := digits_value (drop_first s).

(** The stored appointments [a] and [b] overlap: [a] starts at the
    minute that its date and time denote, lasts for its duration, and
    that interval overlaps [b]. *)
Definition rows_overlap (a b : Appointment.t) : Prop :=
  exists start,
    strptime_ymd_hm (Appointment.date a ++ " " ++ Appointment.time a) = Some start
    /\ overlaps_row start (start + Appointment.duration a) b.

(** Ids are unique, and no two appointments of a doctor that are stored
    with the same date text overlap. *)
Definition doctor_schedule_consistent (db : database) : Prop :=
  NoDup (map Appointment.id (appointments db))
  /\ forall a b,
      In a (appointments db) -> In b (appointments db) ->
      Appointment.id a <> Appointment.id b ->
      Appointment.doctor_id a = Appointment.doctor_id b ->
      Appointment.date a = Appointment.date b ->
      ~ rows_overlap a b.

(** No two appointments of a doctor on the same day of the calendar
    overlap. *)
Definition doctor_days_consistent (db : database) : Prop :=
  forall a b day,
    In a (appointments db) -> In b (appointments db) ->
    Appointment.id a <> Appointment.id b ->
    Appointment.doctor_id a = Appointment.doctor_id b ->
    strptime_ymd (Appointment.date a) = Some day ->
    strptime_ymd (Appointment.date b) = Some day ->
    ~ rows_overlap a b.

(** The appointments dated today, those dated later, those not dated
    before today, and a list in which the appointments of today stand
    before all the others; dates are compared as text. *)
Definition on_today (today : string) (a : Appointment.t) : bool :=
  (Appointment.date a =? today)%string.

Definition later (today : string) (a : Appointment.t) : bool :=
  negb (on_today today a).

Definition not_past (today : string) (a : Appointment.t) : bool :=
  (today <=? Appointment.date a)%string.

Definition today_first (today : string) (l : list Appointment.t) : Prop :=
  l = (filter (on_today today) l ++ filter (later today) l)%list.

(** A date written as [strftime("%Y-%m-%d")] writes it: four digits, two
    digits and two digits, all of them among the characters 0 to 9, with
    hyphens between them. *)
Definition canonical_date (s : string) : bool :=
  match s with
  | String y1 (String y2 (String y3 (String y4 (String h1
      (String m1 (String m2 (String h2 (String d1 (String d2 EmptyString))))))))) =>
      is_digit y1 && is_digit y2 && is_digit y3 && is_digit y4
      && (h1 =? "-")%char && is_digit m1 && is_digit m2
      && (h2 =? "-")%char && is_digit d1 && is_digit d2
  | _ => false
  end.

(** A time of day written as two digits, a colon and two digits, all
    digits among the characters 0 to 9, with the hour up to 23 and the
    minute up to 59: the minute of the day. *)
Definition clock_time (time_str : string) : option Z :=
  match time_str with
  | String h1 (String h2 (String c (String m1 (String m2 EmptyString)))) =>
      let hh := 10 * digit_value h1 + digit_value h2 in
      let mm := 10 * digit_value m1 + digit_value m2 in
      if is_digit h1 && is_digit h2 && (c =? ":")%char && is_digit m1 && is_digit m2
         && (hh <=? 23) && (mm <=? 59)
      then Some (hh * 60 + mm)
      else None
  | _ => None
  end.

(** Every stored appointment has its date in that form. *)
Definition dates_canonical (db : database) : Prop :=
  forall a, In a (appointments db) -> canonical_date (Appointment.date a) = true.

(** * Properties *)

(** ** Digits *)

Lemma is_digit_cases (c : ascii) :
  is_digit c = true ->
  In c ["0"; "1"; "2"; "3"; "4"; "5"; "6"; "7"; "8"; "9"]%char.
Proof.
  destruct c as [b0 b1 b2 b3 b4 b5 b6 b7].
  destruct b0, b1, b2, b3, b4, b5, b6, b7; intro H;
    solve [ discriminate H | simpl; auto 12 ].
Qed.

Lemma digit_value_range (c : ascii) :
  is_digit c = true -> 0 <= digit_value c <= 9.
Proof.
  intro H. apply is_digit_cases in H. simpl in H.
  repeat (destruct H as [H | H]; [subst c; vm_compute; split; discriminate |]).
  contradiction.
Qed.

Lemma digit_char_spec (d : Z) :
  0 <= d <= 9 -> is_digit (digit_char d) = true /\ digit_value (digit_char d) = d.
Proof.
  intro H.
  assert (E : d = 0 \/ d = 1 \/ d = 2 \/ d = 3 \/ d = 4 \/ d = 5 \/ d = 6
              \/ d = 7 \/ d = 8 \/ d = 9) by lia.
  repeat (destruct E as [E | E]; [subst d; split; reflexivity |]).
  subst d; split; reflexivity.
Qed.

Lemma digit_char_nonzero (d : Z) :
  1 <= d <= 9 -> digit_char d <> "0"%char.
Proof.
  intros H E.
  assert (V : digit_value (digit_char d) = d) by (apply digit_char_spec; lia).
  rewrite E in V. vm_compute in V. lia.
Qed.

Lemma digits_value_from_range (s : string) :
  forall acc, 0 <= acc -> all_digits s = true -> 0 <= digits_value_from acc s.
Proof.
  induction s as [| c s IH]; intros acc Hacc Hs;
    cbn [all_digits digits_value_from] in *.
  - exact Hacc.
  - apply andb_true_iff in Hs as [Hc Hs].
    apply IH; [| exact Hs].
    pose proof (digit_value_range c Hc). lia.
Qed.

Lemma digits_value_nonneg (s : string) :
  all_digits s = true -> 0 <= digits_value s.
Proof. intro H. apply digits_value_from_range; [lia | exact H]. Qed.

Lemma digits_value_from_app (s t : string) :
  forall acc, digits_value_from acc (s ++ t) = digits_value_from (digits_value_from acc s) t.
Proof.
  induction s as [| c s IH]; intro acc; simpl; [reflexivity | apply IH].
Qed.

Lemma all_digits_app (s t : string) :
  all_digits (s ++ t) = all_digits s && all_digits t.
Proof.
  induction s as [| c s IH]; simpl; [reflexivity |].
  rewrite IH. apply andb_assoc.
Qed.

Lemma length_app (s t : string) :
  String.length (s ++ t) = (String.length s + String.length t)%nat.
Proof. induction s as [| c s IH]; simpl; [reflexivity | now rewrite IH]. Qed.

(** ** [int()] on a decimal numeral *)

Lemma scan_digits_numeral (s : string) :
  forall prev acc digits,
    all_digits s = true ->
    prev <> "_"%char ->
    scan_digits s prev acc digits
    = Some (digits_value_from acc s, (digits + String.length s)%nat, EmptyString).
Proof.
  induction s as [| c s IH]; intros prev acc digits Hs Hprev;
    cbn [all_digits digits_value_from scan_digits String.length] in *.
  - apply Ascii.eqb_neq in Hprev. rewrite Hprev.
    now rewrite Nat.add_0_r.
  - apply andb_true_iff in Hs as [Hc Hs]. rewrite Hc.
    rewrite IH; [| exact Hs |].
    + now rewrite Nat.add_succ_r.
    + intro E. subst c. discriminate Hc.
Qed.

Lemma digit_is_plain (c : ascii) :
  is_digit c = true ->
  is_c_space c = false /\ (c =? "+")%char = false /\ (c =? "-")%char = false
  /\ (c =? "_")%char = false.
Proof.
  intro H. apply is_digit_cases in H. simpl in H.
  repeat (destruct H as [H | H]; [subst c; repeat split; reflexivity |]).
  contradiction.
Qed.

Lemma py_int_numeral (s : string) :
  decimal_numeral s = true -> py_int s = Some (digits_value s).
Proof.
  unfold decimal_numeral. intro H. apply andb_true_iff in H as [Hne Hs].
  destruct s as [| c s]; [discriminate Hne |].
  pose proof Hs as Hall. cbn [all_digits] in Hs. apply andb_true_iff in Hs as [Hc _].
  destruct (digit_is_plain c Hc) as (Hsp & Hplus & Hminus & Hunder).
  unfold py_int, digits_value.
  cbn [lstrip_space strip_sign starts_with_underscore].
  rewrite Hsp. cbn [strip_sign starts_with_underscore].
  rewrite Hplus, Hminus. cbn [starts_with_underscore]. rewrite Hunder.
  rewrite (scan_digits_numeral (String c s) zero 0 0%nat Hall) by discriminate.
  cbn [Nat.add String.length Nat.eqb lstrip_space].
  now destruct (digits_value_from 0 (String c s)).
Qed.

(** ** [str()] of a natural number and the format [03d] *)

Lemma append_assoc (s t u : string) : (s ++ t) ++ u = s ++ (t ++ u).
Proof. induction s as [| c s IH]; simpl; [reflexivity | now rewrite IH]. Qed.

Lemma decimal_digits_acc (fuel : nat) :
  forall n acc, decimal_digits fuel n acc = decimal_digits fuel n "" ++ acc.
Proof.
  induction fuel as [| fuel IH]; intros n acc; cbn [decimal_digits].
  - reflexivity.
  - destruct (n <? 10); [reflexivity |].
    rewrite IH, (IH _ (String _ "")), append_assoc. reflexivity.
Qed.

(** With enough fuel the digits are those of [n]: they denote [n], the
    first one is not 0 unless [n] is 0, and there are more than [k] of
    them when [n] is at least [10^k]. *)
Lemma decimal_digits_spec (fuel : nat) :
  forall n, 0 <= n < 2 ^ Z.of_nat (S fuel) ->
    let s := decimal_digits (S fuel) n "" in
    all_digits s = true
    /\ digits_value s = n
    /\ (1 <= n -> exists d r, s = String (digit_char d) r /\ 1 <= d <= 9)
    /\ (forall k, 10 ^ Z.of_nat k <= n -> (k < String.length s)%nat)
    /\ (1 <= String.length s)%nat.
Proof.
  induction fuel as [| fuel IH]; intros n Hn.
  - assert (Hlt : (n <? 10) = true) by (apply Z.ltb_lt; change (2 ^ Z.of_nat 1) with 2 in Hn; lia).
    cbn [decimal_digits]. rewrite Hlt. cbn zeta.
    assert (Hm : n mod 10 = n) by (apply Z.mod_small; apply Z.ltb_lt in Hlt; lia).
    rewrite Hm.
    destruct (digit_char_spec n) as [Hd Hv]; [apply Z.ltb_lt in Hlt; lia |].
    repeat split.
    + cbn [all_digits]. now rewrite Hd.
    + unfold digits_value. cbn [digits_value_from]. lia.
    + intro H1. exists n, "". split; [reflexivity | apply Z.ltb_lt in Hlt; lia].
    + intros k Hk. destruct k as [| k]; [cbn; lia |].
      exfalso. apply Z.ltb_lt in Hlt.
      assert (10 ^ 1 <= 10 ^ Z.of_nat (S k)) by (apply Z.pow_le_mono_r; lia).
      change (10 ^ 1) with 10 in *. lia.
    + cbn. lia.
  - cbn zeta. remember (S fuel) as f eqn:Ef.
    cbn [decimal_digits].
    destruct (n <? 10) eqn:Hlt.
    + apply Z.ltb_lt in Hlt.
      assert (Hm : n mod 10 = n) by (apply Z.mod_small; lia).
      rewrite Hm.
      destruct (digit_char_spec n) as [Hd Hv]; [lia |].
      repeat split.
      * cbn [all_digits]. now rewrite Hd.
      * unfold digits_value. cbn [digits_value_from]. lia.
      * intro H1. exists n, "". split; [reflexivity | lia].
      * intros k Hk. destruct k as [| k]; [cbn; lia |].
        exfalso.
        assert (10 ^ 1 <= 10 ^ Z.of_nat (S k)) by (apply Z.pow_le_mono_r; lia).
        change (10 ^ 1) with 10 in *. lia.
      * cbn. lia.
    + apply Z.ltb_ge in Hlt.
      assert (Hq : 0 <= n / 10 < 2 ^ Z.of_nat f).
      { split; [apply Z.div_pos; lia |].
        apply Z.div_lt_upper_bound; [lia |].
        replace (Z.of_nat (S f)) with (Z.succ (Z.of_nat f)) in Hn by lia.
        rewrite Z.pow_succ_r in Hn by lia.
        assert (0 < 2 ^ Z.of_nat f) by (apply Z.pow_pos_nonneg; lia). lia. }
      assert (Hq1 : 1 <= n / 10) by (apply Z.div_le_lower_bound; lia).
      subst f. specialize (IH (n / 10) Hq). cbn zeta in IH.
      destruct IH as (Hall & Hval & Hhead & Hlen & Hpos).
      rewrite decimal_digits_acc.
      set (body := decimal_digits (S fuel) (n / 10) "") in *.
      destruct (digit_char_spec (n mod 10)) as [Hd Hv];
        [pose proof (Z.mod_pos_bound n 10); lia |].
      repeat split.
      * rewrite all_digits_app, Hall. cbn [all_digits]. now rewrite Hd.
      * unfold digits_value in *. rewrite digits_value_from_app, Hval.
        cbn [digits_value_from]. rewrite Hv.
        pose proof (Z.div_mod n 10). lia.
      * intros _. destruct (Hhead Hq1) as (d & r & Er & Hdr).
        exists d, (r ++ String (digit_char (n mod 10)) ""). split; [| exact Hdr].
        rewrite Er. reflexivity.
      * intros k Hk. rewrite length_app. cbn [String.length].
        destruct k as [| k]; [lia |].
        assert (k < String.length body)%nat; [| lia].
        apply Hlen. apply Z.div_le_lower_bound; [lia |].
        replace (Z.of_nat (S k)) with (Z.succ (Z.of_nat k)) in Hk by lia.
        rewrite Z.pow_succ_r in Hk by lia. exact Hk.
      * rewrite length_app. lia.
Qed.

Lemma py_str_nat_spec (n : Z) :
  0 <= n ->
  let s := py_str_nat n in
  all_digits s = true
  /\ digits_value s = n
  /\ (1 <= n -> exists d r, s = String (digit_char d) r /\ 1 <= d <= 9)
  /\ (forall k, 10 ^ Z.of_nat k <= n -> (k < String.length s)%nat)
  /\ (1 <= String.length s)%nat.
Proof.
  intro Hn. unfold py_str_nat. apply decimal_digits_spec.
  split; [exact Hn |].
  replace (Z.of_nat (S (Z.to_nat (Z.log2 n)))) with (Z.succ (Z.log2 n))
    by (pose proof (Z.log2_nonneg n); lia).
  destruct (Z.eq_dec n 0) as [-> | Hnz]; [reflexivity |].
  apply Z.log2_spec. lia.
Qed.

Lemma all_digits_zeros (k : nat) : all_digits (zeros k) = true.
Proof. induction k as [| k IH]; [reflexivity | exact IH]. Qed.

Lemma length_zeros (k : nat) : String.length (zeros k) = k.
Proof. induction k as [| k IH]; [reflexivity | cbn; now rewrite IH]. Qed.

Lemma digits_value_from_zeros (k : nat) (s : string) :
  digits_value_from 0 (zeros k ++ s) = digits_value_from 0 s.
Proof. induction k as [| k IH]; [reflexivity | exact IH]. Qed.

Lemma truthy_length (s : string) : (1 <= String.length s)%nat -> truthy s = true.
Proof. destruct s; cbn; [lia | reflexivity]. Qed.

(** The format [03d] of a natural number [n] is the decimal numeral of
    [n] of at least three digits that has no more digits than that
    unless it needs them. *)
Lemma format_03d_spec (n : Z) :
  0 <= n ->
  let s := format_03d n in
  decimal_numeral s = true
  /\ digits_value s = n
  /\ (3 <= String.length s)%nat
  /\ ((3 < String.length s)%nat -> s = py_str_nat n /\ first_char s <> Some "0"%char)
  /\ (1000 <= n -> s = py_str_nat n /\ (3 < String.length s)%nat).
Proof.
  intro Hn. cbn zeta. unfold format_03d.
  assert (Hneg : (n <? 0) = false) by (apply Z.ltb_ge; exact Hn).
  rewrite Hneg. unfold zfill.
  destruct (py_str_nat_spec n Hn) as (Hall & Hval & Hhead & Hlen & Hpos).
  set (body := py_str_nat n) in *.
  assert (Hlong : (3 <= String.length body)%nat -> zeros (3 - String.length body) ++ body = body).
  { intro H. replace (3 - String.length body)%nat with 0%nat by lia. reflexivity. }
  assert (Htotal : (3 <= String.length (zeros (3 - String.length body) ++ body))%nat).
  { rewrite length_app, length_zeros. lia. }
  repeat split.
  - unfold decimal_numeral. rewrite all_digits_app, all_digits_zeros, Hall.
    rewrite truthy_length by lia. reflexivity.
  - unfold digits_value in *. now rewrite digits_value_from_zeros.
  - exact Htotal.
  - apply Hlong. rewrite length_app, length_zeros in H. lia.
  - rewrite length_app, length_zeros in H.
    rewrite Hlong by lia.
    assert (H1 : 1 <= n).
    { destruct (Z.eq_dec n 0) as [E | E]; [| lia].
      exfalso. unfold body in H. rewrite E in H. cbn in H. lia. }
    destruct (Hhead H1) as (d & r & Er & Hd). rewrite Er. cbn.
    intro E. injection E as E. now apply (digit_char_nonzero d).
  - apply Hlong. specialize (Hlen 3%nat H). lia.
  - assert (3 < String.length body)%nat by (apply Hlen; exact H).
    rewrite Hlong; lia.
Qed.

(** ** What [int()] accepts *)

Lemma lstrip_space_chars (s : string) :
  all_int_chars (lstrip_space s) = true -> all_int_chars s = true.
Proof.
  induction s as [| c s IH]; cbn [lstrip_space]; [trivial |].
  destruct (is_c_space c) eqn:Hc; [| trivial].
  intro H. cbn [all_int_chars]. rewrite (IH H).
  unfold int_char. rewrite Hc. now rewrite orb_true_r.
Qed.

Lemma lstrip_space_empty_chars (s : string) :
  lstrip_space s = "" -> all_int_chars s = true.
Proof.
  intro H. apply lstrip_space_chars. now rewrite H.
Qed.

Lemma strip_sign_chars (s : string) :
  all_int_chars (snd (strip_sign s)) = true -> all_int_chars s = true.
Proof.
  destruct s as [| c s]; cbn [strip_sign]; [trivial |].
  destruct (c =? "+")%char eqn:Hp; [| destruct (c =? "-")%char eqn:Hm]; cbn [snd];
    trivial; intro H; cbn [all_int_chars]; rewrite H; unfold int_char;
    rewrite ?Hp, ?Hm, ?orb_true_r; reflexivity.
Qed.

Lemma scan_digits_chars (s : string) :
  forall prev acc digits v digits' rest,
    scan_digits s prev acc digits = Some (v, digits', rest) ->
    all_int_chars rest = true -> all_int_chars s = true.
Proof.
  induction s as [| c s IH]; intros prev acc digits v digits' rest;
    cbn [scan_digits].
  - destruct (prev =? "_")%char; [discriminate |].
    intros [= _ _ <-]. trivial.
  - destruct (is_digit c) eqn:Hd.
    + intros Hscan Hrest. cbn [all_int_chars].
      rewrite (IH _ _ _ _ _ _ Hscan Hrest). unfold int_char. now rewrite Hd.
    + destruct (c =? "_")%char eqn:Hu.
      * destruct (prev =? "_")%char; [discriminate |].
        intros Hscan Hrest. cbn [all_int_chars].
        rewrite (IH _ _ _ _ _ _ Hscan Hrest). unfold int_char.
        rewrite Hu. now rewrite !orb_true_r.
      * destruct (prev =? "_")%char; [discriminate |].
        intros [= _ _ <-]. trivial.
Qed.

(** A text that [int()] accepts is not empty and holds nothing but
    digits, signs, underscores and white space. *)
Lemma py_int_chars (s : string) (v : Z) :
  py_int s = Some v -> truthy s = true /\ all_int_chars s = true.
Proof.
  intro H. split.
  - destruct s; [discriminate H | reflexivity].
  - unfold py_int in H.
    apply lstrip_space_chars, strip_sign_chars.
    destruct (strip_sign (lstrip_space s)) as [sign s2]. cbn [snd].
    destruct (starts_with_underscore s2); [discriminate |].
    destruct (scan_digits s2 zero 0 0) as [[[v' digits] rest] |] eqn:Hscan;
      [| discriminate].
    destruct (Nat.eqb digits 0); [discriminate |].
    destruct (lstrip_space rest) eqn:Hrest; [| discriminate].
    eapply scan_digits_chars; [exact Hscan |].
    now apply lstrip_space_empty_chars.
Qed.

(** ** The identifier allocator *)

Lemma generate_id_numeral (prefix : string) (c : ascii) (numeral : string) :
  decimal_numeral numeral = true ->
  generate_id prefix (Some (String c numeral))
  = Return (prefix ++ format_03d (digits_value numeral + 1)).
Proof.
  intro H. unfold generate_id.
  cbn [truthy_opt truthy drop_first].
  rewrite (py_int_numeral numeral H). reflexivity.
Qed.

Example generate_id_P007 : generate_id "P" (Some "P007") = Return "P008".
Proof. reflexivity. Qed.

Example generate_id_first : generate_id "P" None = Return "P001".
Proof. reflexivity. Qed.

Example generate_id_A999 : generate_id "A" (Some "A999") = Return "A1000".
Proof. reflexivity. Qed.

(** C5, as amended.  For every prefix of one character and every
    greatest existing id made of that prefix and a decimal numeral of
    value n, [generate_id] returns the prefix followed by the numeral of
    n + 1 padded with zeros to three digits; without an existing id it
    returns the prefix followed by 001, whatever the prefix. *)
Theorem generate_id_next (c : ascii) (numeral : string) :
  decimal_numeral numeral = true ->
  next_id_after (String c "") numeral
  /\ forall prefix, generate_id prefix None = Return (prefix ++ "001").
Proof.
  intro H. split; [| reflexivity].
  unfold decimal_numeral in H. pose proof H as Hnum.
  apply andb_true_iff in H as [_ Hall].
  assert (Hn : 0 <= digits_value numeral + 1)
    by (pose proof (digits_value_nonneg numeral Hall); lia).
  destruct (format_03d_spec _ Hn) as (Hd & Hv & Hl & Hlong & _).
  exists (format_03d (digits_value numeral + 1)).
  repeat split; trivial.
  - change (String c "" ++ numeral) with (String c numeral).
    now apply generate_id_numeral.
  - intro H3. now apply Hlong.
Qed.

Lemma generate_id_next_P007 :
  next_id_after "P" "007"
  /\ forall prefix, generate_id prefix None = Return (prefix ++ "001").
Proof. apply (generate_id_next "P" "007"). reflexivity. Defined.

(** C5 as the design document states it fails for a prefix of two
    letters: [last_id[1:]] removes one character only, so the text given
    to [int()] still starts with the second letter. *)
Lemma generate_id_two_letter_prefix :
  decimal_numeral "007" = true
  /\ generate_id "AP" (Some ("AP" ++ "007")) = Raise ValueError
  /\ ~ next_id_after "AP" "007".
Proof.
  split; [reflexivity |]. split; [reflexivity |].
  intros (s & H & _). discriminate H.
Qed.

(** C10.  When the number after the first character of the greatest
    existing id is n with n + 1 >= 1000, [generate_id] returns the prefix
    followed by the plain decimal numeral of n + 1: it denotes n + 1, has
    no leading zero and more than three digits, so that with a prefix the
    id is longer than the four characters of the id columns. *)
Theorem generate_id_beyond_999 (prefix : string) (c : ascii) (numeral : string) :
  decimal_numeral numeral = true ->
  1000 <= digits_value numeral + 1 ->
  exists s,
    generate_id prefix (Some (String c numeral)) = Return (prefix ++ s)
    /\ s = py_str_nat (digits_value numeral + 1)
    /\ all_digits s = true
    /\ digits_value s = digits_value numeral + 1
    /\ first_char s <> Some "0"%char
    /\ (3 < String.length s)%nat
    /\ (truthy prefix = true -> (id_column_width < String.length (prefix ++ s))%nat).
Proof.
  intros H Hbig.
  assert (Hn : 0 <= digits_value numeral + 1) by lia.
  destruct (format_03d_spec _ Hn) as (Hd & Hv & Hl & Hlong & Hplain).
  destruct (Hplain Hbig) as [E Hlen].
  exists (format_03d (digits_value numeral + 1)).
  unfold decimal_numeral in Hd. apply andb_true_iff in Hd as [_ Hd].
  repeat split; trivial.
  - now apply generate_id_numeral.
  - now apply Hlong.
  - intro Hp. rewrite length_app. unfold id_column_width.
    destruct prefix; [discriminate Hp | cbn [String.length]; lia].
Qed.

Lemma generate_id_beyond_A999 :
  exists s,
    generate_id "A" (Some "A999") = Return ("A" ++ s)
    /\ s = py_str_nat (digits_value "999" + 1)
    /\ all_digits s = true
    /\ digits_value s = digits_value "999" + 1
    /\ first_char s <> Some "0"%char
    /\ (3 < String.length s)%nat
    /\ (truthy "A" = true -> (id_column_width < String.length ("A" ++ s))%nat).
Proof.
  apply (generate_id_beyond_999 "A" "A" "999"); [reflexivity | vm_compute; discriminate].
Defined.

(** ** The availability check *)

Lemma In_firstn {A : Type} (n : nat) (l : list A) (x : A) :
  In x (firstn n l) -> In x l.
Proof.
  intro H. rewrite <- (firstn_skipn n l). apply in_or_app. now left.
Qed.

Lemma overlaps_test (cs ce es ee : Z) :
  (cs <? ee) && (ce >? es) = true <-> overlaps (cs, ce) (es, ee).
Proof.
  unfold overlaps. cbn [fst snd].
  rewrite andb_true_iff, Z.gtb_ltb, !Z.ltb_lt. lia.
Qed.

Section Loop.

Variables (appt_datetime appt_end : Z) (exclude_appt_id : option string).

Lemma excluded_iff (a : Appointment.t) :
  truthy (Appointment.id a) = true ->
  excluded exclude_appt_id a = true <-> Some (Appointment.id a) = exclude_appt_id.
Proof.
  intro Hid. unfold excluded. destruct exclude_appt_id as [e |].
  - rewrite andb_true_iff, String.eqb_eq. split.
    + intros [_ E]. now rewrite E.
    + intros [= E]. split; [now rewrite <- E | exact E].
  - split; discriminate.
Qed.

(** On well-formed rows the loop returns. *)
Lemma no_overlap_returns (fetched : list Appointment.t) :
  (forall a, In a fetched -> well_formed_row a) ->
  exists b, no_overlap appt_datetime appt_end exclude_appt_id fetched = Return b.
Proof.
  induction fetched as [| a rest IH]; intro Hwf; cbn [no_overlap].
  - now exists true.
  - assert (Hrest : forall x, In x rest -> well_formed_row x)
      by (intros x Hx; apply Hwf; now right).
    destruct (excluded exclude_appt_id a); [now apply IH |].
    destruct (Hwf a (or_introl eq_refl)) as [_ [[es ee] E]].
    rewrite E. cbn [bind].
    destruct ((appt_datetime <? ee) && (appt_end >? es));
      [now exists false | now apply IH].
Qed.

(** It returns [False] exactly when a row that is not excluded
    overlaps the candidate. *)
Lemma no_overlap_false_iff (fetched : list Appointment.t) :
  (forall a, In a fetched -> well_formed_row a) ->
  no_overlap appt_datetime appt_end exclude_appt_id fetched = Return false
  <-> conflict (appt_datetime, appt_end) exclude_appt_id fetched.
Proof.
  induction fetched as [| a rest IH]; intro Hwf; cbn [no_overlap].
  - split; [discriminate |]. intros (x & _ & [] & _).
  - assert (Hrest : forall x, In x rest -> well_formed_row x)
      by (intros x Hx; apply Hwf; now right).
    specialize (IH Hrest).
    destruct (Hwf a (or_introl eq_refl)) as [Hid [[es ee] E]].
    pose proof (excluded_iff a Hid) as Hex.
    destruct (excluded exclude_appt_id a) eqn:Hx.
    + rewrite IH. split.
      * intros (x & iv & Hin & Hrestx). exists x, iv. split; [now right | exact Hrestx].
      * intros (x & iv & [<- | Hin] & Hne & Hrestx).
        -- exfalso. apply Hne. now apply Hex.
        -- now exists x, iv.
    + rewrite E. cbn [bind].
      destruct ((appt_datetime <? ee) && (appt_end >? es)) eqn:Htest.
      * split; [| reflexivity]. intros _. exists a, (es, ee).
        repeat split; [now left | | exact E | | ]; try (apply overlaps_test in Htest; apply Htest).
        intro Heq. apply Hex in Heq. discriminate Heq.
      * rewrite IH. split.
        -- intros (x & iv & Hin & Hrestx). exists x, iv. split; [now right | exact Hrestx].
        -- intros (x & iv & [<- | Hin] & Hne & Hiv & Hov).
           ++ exfalso. rewrite E in Hiv. injection Hiv as <-.
              apply overlaps_test in Hov. congruence.
           ++ now exists x, iv.
Qed.

Lemma no_overlap_true_iff (fetched : list Appointment.t) :
  (forall a, In a fetched -> well_formed_row a) ->
  no_overlap appt_datetime appt_end exclude_appt_id fetched = Return true
  <-> ~ conflict (appt_datetime, appt_end) exclude_appt_id fetched.
Proof.
  intro Hwf. rewrite <- (no_overlap_false_iff fetched Hwf).
  destruct (no_overlap_returns fetched Hwf) as [[|] ->];
    split; congruence.
Qed.

End Loop.

Lemma doctor_appointments_on_In (db : database) (doctor_id appt_date : string)
  (a : Appointment.t) :
  In a (doctor_appointments_on db doctor_id appt_date) <->
  In a (appointments db)
  /\ Appointment.doctor_id a = doctor_id /\ Appointment.date a = appt_date.
Proof.
  unfold doctor_appointments_on.
  now rewrite filter_In, andb_true_iff, !String.eqb_eq.
Qed.

Lemma patient_rows_on_In (db : database) (patient_id appt_date : string)
  (a : Appointment.t) :
  In a (patient_rows_on db patient_id appt_date) <->
  In a (appointments db)
  /\ Appointment.patient_id a = patient_id /\ Appointment.date a = appt_date.
Proof.
  unfold patient_rows_on.
  now rewrite filter_In, andb_true_iff, !String.eqb_eq.
Qed.

Example back_to_back :
  is_doctor_available clinic "D001" "2024-01-05" "09:30" 30 None = Return true
  /\ is_doctor_available clinic "D001" "2024-01-05" "08:30" 30 None = Return true
  /\ is_doctor_available clinic "D001" "2024-01-05" "09:15" 30 None = Return false
  /\ is_doctor_available clinic "D001" "2024-01-05" "09:15" 30 (Some "A001") = Return true.
Proof. repeat split; reflexivity. Qed.

Lemma add_minutes_value (dt duration stop : Z) :
  add_minutes dt duration = Return stop -> stop = dt + duration.
Proof.
  unfold add_minutes.
  destruct (999999999 <? Z.abs (duration / 1440)); [discriminate |].
  cbv zeta.
  destruct ((1 <=? (dt + duration) / 1440) && ((dt + duration) / 1440 <=? MAXORDINAL));
    [| discriminate].
  now intros [= <-].
Qed.

(** The interval that the loop computes for a stored appointment. *)
Lemma existing_interval_inv (a : Appointment.t) (existing : Z * Z) :
  existing_interval a = Return existing <->
  strptime_ymd_hm (Appointment.date a ++ " " ++ Appointment.time a)
  = Some (fst existing)
  /\ add_minutes (fst existing) (Appointment.duration a) = Return (snd existing).
Proof.
  unfold existing_interval. destruct existing as [es ee]. cbn [fst snd].
  destruct (strptime_ymd_hm _) as [start |]; cbn [or_value_error bind].
  - destruct (add_minutes start (Appointment.duration a)) as [stop |] eqn:E;
      cbn [bind].
    + split.
      * intros [= <- <-]. now split.
      * intros [[= <-] H]. rewrite E in H. now injection H as <-.
    + split; [discriminate |]. intros [[= <-] H]. rewrite E in H. discriminate H.
  - split; [discriminate | intros [H _]; discriminate H].
Qed.

(** Among rows that can be read, a conflict is an overlap with a row. *)
Lemma conflict_overlaps_row (cs ce : Z) (exclude_appt_id : option string)
  (fetched : list Appointment.t) :
  (forall a, In a fetched ->
     exists s, strptime_ymd_hm (Appointment.date a ++ " " ++ Appointment.time a) = Some s
               /\ add_minutes s (Appointment.duration a)
                  = Return (s + Appointment.duration a)) ->
  conflict (cs, ce) exclude_appt_id fetched
  <-> exists a, In a fetched /\ Some (Appointment.id a) <> exclude_appt_id
                /\ overlaps_row cs ce a.
Proof.
  intro Hread. unfold conflict, overlaps_row, overlaps. split.
  - intros (a & [es ee] & Hin & Hne & Hiv & Hov). cbn [fst snd] in Hov.
    apply existing_interval_inv in Hiv as [Hs He]. cbn [fst snd] in Hs, He.
    apply add_minutes_value in He. subst ee.
    exists a. repeat split; trivial. exists es. repeat split; [exact Hs | lia | lia].
  - intros (a & Hin & Hne & es & Hs & Hlt & Hgt).
    destruct (Hread a Hin) as (s & Hs' & Hadd).
    rewrite Hs in Hs'. injection Hs' as <-.
    exists a, (es, es + Appointment.duration a). repeat split; trivial.
    apply existing_interval_inv. now split.
Qed.

(** C1.  Suppose the candidate date and time denote the minute
    [candidate_start], the candidate lasts until
    [candidate_start + duration], and every stored appointment of that
    date has an id and a date, time and duration that can be read.  Then
    [is_doctor_available] returns [False] if and only if some stored
    appointment of the doctor with that date, other than the one whose id
    is the exclusion id, starts before the candidate ends and ends
    (at its start plus its duration) after the candidate starts, and
    [True] otherwise; [is_patient_available] does the same over the first
    hundred stored appointments of the patient with that date.  A
    candidate that starts where an appointment ends, or ends where it
    starts, does not overlap it. *)
Theorem availability_iff_no_conflict (db : database)
  (doctor_id patient_id appt_date appt_time : string) (duration : Z)
  (exclude_appt_id : option string) (candidate_start : Z) :
  strptime_ymd_hm (appt_date ++ " " ++ appt_time) = Some candidate_start ->
  add_minutes candidate_start duration = Return (candidate_start + duration) ->
  (forall a, In a (appointments db) -> Appointment.date a = appt_date ->
             truthy (Appointment.id a) = true
             /\ exists s,
                 strptime_ymd_hm (Appointment.date a ++ " " ++ Appointment.time a)
                 = Some s
                 /\ add_minutes s (Appointment.duration a)
                    = Return (s + Appointment.duration a)) ->
  (is_doctor_available db doctor_id appt_date appt_time duration exclude_appt_id
   = Return false
   <-> exists a,
        In a (appointments db)
        /\ Appointment.doctor_id a = doctor_id /\ Appointment.date a = appt_date
        /\ Some (Appointment.id a) <> exclude_appt_id
        /\ overlaps_row candidate_start (candidate_start + duration) a)
  /\ (is_doctor_available db doctor_id appt_date appt_time duration exclude_appt_id
      = Return true
      <-> forall a,
           In a (appointments db) ->
           Appointment.doctor_id a = doctor_id -> Appointment.date a = appt_date ->
           Some (Appointment.id a) <> exclude_appt_id ->
           ~ overlaps_row candidate_start (candidate_start + duration) a)
  /\ (is_patient_available db patient_id appt_date appt_time duration exclude_appt_id
      = Return false
      <-> exists a,
           In a (firstn 100
                   (filter (fun a => (Appointment.patient_id a =? patient_id)%string
                                     && (Appointment.date a =? appt_date)%string)
                      (appointments db)))
           /\ Some (Appointment.id a) <> exclude_appt_id
           /\ overlaps_row candidate_start (candidate_start + duration) a)
  /\ (is_patient_available db patient_id appt_date appt_time duration exclude_appt_id
      = Return true
      <-> forall a,
           In a (firstn 100
                   (filter (fun a => (Appointment.patient_id a =? patient_id)%string
                                     && (Appointment.date a =? appt_date)%string)
                      (appointments db))) ->
           Some (Appointment.id a) <> exclude_appt_id ->
           ~ overlaps_row candidate_start (candidate_start + duration) a)
  /\ (forall a existing_start,
        strptime_ymd_hm (Appointment.date a ++ " " ++ Appointment.time a)
        = Some existing_start ->
        candidate_start = existing_start + Appointment.duration a
        \/ candidate_start + duration = existing_start ->
        ~ overlaps_row candidate_start (candidate_start + duration) a).
Proof.
  intros Hstart Hend Hrows.
  set (ce := candidate_start + duration) in *.
  assert (Hcand : candidate_interval appt_date appt_time duration
                  = Return (candidate_start, ce)).
  { unfold candidate_interval. rewrite Hstart. cbn [or_value_error bind].
    now rewrite Hend. }
  assert (Hwf : forall a, In a (appointments db) -> Appointment.date a = appt_date ->
                          well_formed_row a).
  { intros a Ha Hd. destruct (Hrows a Ha Hd) as (Hid & s & Hs & Hadd).
    split; [exact Hid |]. exists (s, s + Appointment.duration a).
    unfold existing_interval. rewrite Hs. cbn [or_value_error bind].
    now rewrite Hadd. }
  assert (Hfetch : forall a,
             In a (doctor_appointments_on db doctor_id appt_date)
             <-> In a (appointments db)
                 /\ Appointment.doctor_id a = doctor_id
                 /\ Appointment.date a = appt_date).
  { intro a. unfold doctor_appointments_on.
    now rewrite filter_In, andb_true_iff, !String.eqb_eq. }
  assert (Hdoc : forall a, In a (doctor_appointments_on db doctor_id appt_date) ->
                           In a (appointments db) /\ Appointment.date a = appt_date).
  { intros a Ha. apply Hfetch in Ha as (Hin & _ & Hd). now split. }
  assert (Hpat : forall a, In a (patient_appointments_on db patient_id appt_date) ->
                           In a (appointments db) /\ Appointment.date a = appt_date).
  { intros a Ha. unfold patient_appointments_on, patient_rows_on in Ha.
    apply In_firstn in Ha.
    rewrite filter_In, andb_true_iff, !String.eqb_eq in Ha. tauto. }
  assert (Hdoc_false :
            no_overlap candidate_start ce exclude_appt_id
              (doctor_appointments_on db doctor_id appt_date) = Return false
            <-> exists a,
                 In a (appointments db)
                 /\ Appointment.doctor_id a = doctor_id /\ Appointment.date a = appt_date
                 /\ Some (Appointment.id a) <> exclude_appt_id
                 /\ overlaps_row candidate_start ce a).
  { rewrite no_overlap_false_iff
      by (intros a Ha; destruct (Hdoc a Ha); now apply Hwf).
    rewrite conflict_overlaps_row
      by (intros a Ha; destruct (Hdoc a Ha) as [Hin Hd];
          destruct (Hrows a Hin Hd) as (_ & H); exact H).
    split.
    - intros (a & Ha & Hne & Hov). apply Hfetch in Ha.
      exists a. tauto.
    - intros (a & Ha & Hd & Hdate & Hne & Hov). exists a.
      split; [apply Hfetch; tauto | tauto]. }
  assert (Hpat_false :
            no_overlap candidate_start ce exclude_appt_id
              (patient_appointments_on db patient_id appt_date) = Return false
            <-> exists a,
                 In a (patient_appointments_on db patient_id appt_date)
                 /\ Some (Appointment.id a) <> exclude_appt_id
                 /\ overlaps_row candidate_start ce a).
  { rewrite no_overlap_false_iff
      by (intros a Ha; destruct (Hpat a Ha); now apply Hwf).
    apply conflict_overlaps_row.
    intros a Ha. destruct (Hpat a Ha) as [Hin Hd].
    destruct (Hrows a Hin Hd) as (_ & H). exact H. }
  assert (Hdoc_ret : exists b,
             no_overlap candidate_start ce exclude_appt_id
               (doctor_appointments_on db doctor_id appt_date) = Return b)
    by (apply no_overlap_returns; intros a Ha; destruct (Hdoc a Ha); now apply Hwf).
  assert (Hpat_ret : exists b,
             no_overlap candidate_start ce exclude_appt_id
               (patient_appointments_on db patient_id appt_date) = Return b)
    by (apply no_overlap_returns; intros a Ha; destruct (Hpat a Ha); now apply Hwf).
  unfold is_doctor_available, is_patient_available. rewrite Hcand. cbn [bind].
  change (firstn 100
            (filter (fun a => (Appointment.patient_id a =? patient_id)%string
                              && (Appointment.date a =? appt_date)%string)
               (appointments db)))
    with (patient_appointments_on db patient_id appt_date).
  split; [exact Hdoc_false |]. split.
  { destruct Hdoc_ret as [[|] Hb]; rewrite Hb in *.
    - split; [| reflexivity]. intros _ a Ha Hd Hdate Hne Hov.
      assert (Hfalse : Return true = Return false :> result bool)
        by (apply Hdoc_false; exists a; tauto).
      discriminate Hfalse.
    - split; [discriminate |]. intro Hnone. exfalso.
      destruct (proj1 Hdoc_false eq_refl) as (a & Ha & Hd & Hdate & Hne & Hov).
      now apply (Hnone a). }
  split; [exact Hpat_false |]. split.
  { destruct Hpat_ret as [[|] Hb]; rewrite Hb in *.
    - split; [| reflexivity]. intros _ a Ha Hne Hov.
      assert (Hfalse : Return true = Return false :> result bool)
        by (apply Hpat_false; exists a; tauto).
      discriminate Hfalse.
    - split; [discriminate |]. intro Hnone. exfalso.
      destruct (proj1 Hpat_false eq_refl) as (a & Ha & Hne & Hov).
      now apply (Hnone a). }
  intros a es Hs Htouch (es' & Hs' & Hlt & Hgt).
  rewrite Hs in Hs'. injection Hs' as <-. lia.
Qed.

(** Anna sees Dr Hamutenya on 2024-01-05 from 09:00 to 09:30: the doctor
    is free at 09:30 and at 08:30 for half an hour, not at 09:15, and at
    09:15 again when that appointment is the one being moved. *)
Lemma availability_at_half_past_nine :
  strptime_ymd_hm ("2024-01-05" ++ " " ++ "09:30") = Some 1064002170
  /\ strptime_ymd_hm ("2024-01-05" ++ " " ++ "09:15") = Some 1064002155
  /\ is_doctor_available clinic "D001" "2024-01-05" "09:30" 30 None = Return true
  /\ is_doctor_available clinic "D001" "2024-01-05" "08:30" 30 None = Return true
  /\ (forall a, In a (appointments clinic) ->
                Appointment.doctor_id a = "D001" -> Appointment.date a = "2024-01-05" ->
                ~ overlaps_row 1064002170 (1064002170 + 30) a)
  /\ is_doctor_available clinic "D001" "2024-01-05" "09:15" 30 None = Return false
  /\ is_patient_available clinic "P001" "2024-01-05" "09:15" 30 None = Return false
  /\ is_doctor_available clinic "D001" "2024-01-05" "09:15" 30 (Some "A001")
     = Return true.
Proof.
  assert (Hrows : forall a, In a (appointments clinic) ->
                            Appointment.date a = "2024-01-05" ->
                            truthy (Appointment.id a) = true
                            /\ exists s,
                                strptime_ymd_hm
                                  (Appointment.date a ++ " " ++ Appointment.time a)
                                = Some s
                                /\ add_minutes s (Appointment.duration a)
                                   = Return (s + Appointment.duration a)).
  { intros a [<- | []] _. split; [reflexivity |]. exists 1064002140.
    split; reflexivity. }
  assert (Hbusy : overlaps_row 1064002155 (1064002155 + 30) A001).
  { exists 1064002140. split; [reflexivity |]. cbn [Appointment.duration A001]. lia. }
  split; [reflexivity |]. split; [reflexivity |].
  split; [reflexivity |]. split; [reflexivity |].
  split; [| split; [| split]].
  - intros a Ha Hd Hdate.
    apply (proj1 (proj1 (proj2 (availability_iff_no_conflict clinic "D001" "P001"
                                  "2024-01-05" "09:30" 30 None 1064002170
                                  eq_refl eq_refl Hrows))) eq_refl a Ha Hd Hdate).
    discriminate.
  - apply (proj1 (availability_iff_no_conflict clinic "D001" "P001"
                    "2024-01-05" "09:15" 30 None 1064002155
                    eq_refl eq_refl Hrows)).
    exists A001. repeat split; [now left | discriminate | exact Hbusy].
  - apply (proj1 (proj2 (proj2 (availability_iff_no_conflict clinic "D001" "P001"
                                  "2024-01-05" "09:15" 30 None 1064002155
                                  eq_refl eq_refl Hrows)))).
    exists A001. repeat split; [now left | discriminate | exact Hbusy].
  - apply (proj2 (proj1 (proj2 (availability_iff_no_conflict clinic "D001" "P001"
                                  "2024-01-05" "09:15" 30 (Some "A001") 1064002155
                                  eq_refl eq_refl Hrows)))).
    intros a [<- | []] _ _ Hne. now contradiction Hne.
Defined.

(** ** The cap on the patient query *)

Lemma excluded_id (exclude_appt_id : option string) (a : Appointment.t) :
  excluded exclude_appt_id a = true -> Some (Appointment.id a) = exclude_appt_id.
Proof.
  unfold excluded. destruct exclude_appt_id as [e |]; [| discriminate].
  rewrite andb_true_iff, String.eqb_eq. now intros [_ ->].
Qed.




(** ** The handlers *)

(** One step of the case analysis of a handler that returned. *)
Ltac handler_step H :=
  match type of H with
  | bind ?m _ = Return _ =>
      let E := fresh "E" in
      destruct m eqn:E; cbn [bind] in H; [| discriminate H]
  | (if ?b then _ else _) = Return _ =>
      let E := fresh "E" in destruct b eqn:E
  | match ?x with _ => _ end = Return _ =>
      let E := fresh "E" in destruct x eqn:E
  end.

(** A booking that returns either renders the form again with an error
    and leaves the database alone, or has seen the doctor available,
    obtained an id from the allocator and inserted the new row. *)
Lemma add_appointment_inv (today : Z) (db : database) (form : Form.t)
  (answer : response * database) :
  add_appointment today db form = Return answer ->
  (exists message, answer = (RenderForm message "error", db))
  \/ (exists duration appointment_id db',
        is_doctor_available db (Form.doctor_id form) (Form.date form) (Form.time form)
          duration None = Return true
        /\ generate_id "A" (option_map Appointment.id (last_appointment db))
           = Return appointment_id
        /\ insert_appointment db
             (Appointment.mk appointment_id (Form.date form) (Form.time form) duration
                (Form.diagnosis form) (Form.patient_id form) (Form.doctor_id form))
           = Return db'
        /\ answer = (RedirectAppointments
                       ("Appointment " ++ appointment_id ++ " booked successfully")
                       "success", db')).
Proof.
  unfold add_appointment. intro H.
  repeat handler_step H;
    try (injection H as <-; left; eexists; reflexivity).
  injection H as <-. right.
  match goal with a : bool |- _ => destruct a; [| discriminate] end.
  eauto 7.
Qed.

(** A rescheduling that returns either finds no appointment, or renders
    the form again with an error, or has seen doctor and patient
    available; the first two leave the database alone. *)
Lemma edit_appointment_inv (today : Z) (db : database) (key : string) (form : Form.t)
  (answer : response * database) :
  edit_appointment today db key form = Return answer ->
  answer = (RedirectAppointments "Appointment not found" "error", db)
  \/ (exists message, answer = (RenderForm message "error", db))
  \/ (exists duration,
        is_doctor_available db (Form.doctor_id form) (Form.date form) (Form.time form)
          duration (Some key) = Return true
        /\ is_patient_available db (Form.patient_id form) (Form.date form)
             (Form.time form) duration (Some key) = Return true
        /\ answer = (RedirectAppointments
                       ("Appointment " ++ key ++ " updated successfully") "success",
                     update_appointment db key form duration)).
Proof.
  unfold edit_appointment. intro H.
  repeat handler_step H;
    try (injection H as <-; auto; right; left; eexists; reflexivity).
  injection H as <-. right. right.
  repeat match goal with a : bool |- _ => destruct a; [| discriminate] end.
  eauto.
Qed.

(** ** Stored appointments stay well formed *)

Lemma truthy_app (s t : string) : truthy t = true -> truthy (s ++ t) = true.
Proof. destruct s; [trivial | reflexivity]. Qed.

(** An allocated id is never empty. *)
Lemma generate_id_nonempty (prefix : string) (last_id : option string) (new_id : string) :
  generate_id prefix last_id = Return new_id -> truthy new_id = true.
Proof.
  unfold generate_id.
  destruct (if truthy_opt last_id then _ else _) as [number |]; [| discriminate].
  cbn [bind]. intros [= <-]. apply truthy_app.
  destruct (Z.ltb_spec number 0) as [Hneg | Hpos].
  - unfold format_03d. apply Z.ltb_lt in Hneg. now rewrite Hneg.
  - destruct (format_03d_spec number Hpos) as (Hd & _).
    unfold decimal_numeral in Hd. now apply andb_true_iff in Hd as [Hd _].
Qed.

Lemma available_gives_interval (db : database) (doctor_id date_str time_str : string)
  (duration : Z) (exclude_appt_id : option string) (b : bool)
  (row_id diagnosis patient_id row_doctor : string) :
  is_doctor_available db doctor_id date_str time_str duration exclude_appt_id = Return b ->
  exists existing,
    existing_interval
      (Appointment.mk row_id date_str time_str duration diagnosis patient_id row_doctor)
    = Return existing.
Proof.
  unfold is_doctor_available, existing_interval, candidate_interval.
  cbn [Appointment.date Appointment.time Appointment.duration].
  destruct (or_value_error _) as [start |]; [| discriminate]. cbn [bind].
  destruct (add_minutes start duration) as [stop |]; [| discriminate]. cbn [bind].
  intros _. now exists (start, stop).
Qed.

(** Booking keeps every stored appointment well formed. *)
Lemma add_appointment_well_formed (today : Z) (db db' : database) (form : Form.t) :
  (forall a, In a (appointments db) -> well_formed_row a) ->
  accepted db' (add_appointment today db form) ->
  forall a, In a (appointments db') -> well_formed_row a.
Proof.
  intros Hwf (message & H) a Ha.
  apply add_appointment_inv in H as [(m & Hm) | (d & i & db'' & Hfree & Hgen & Hins & E)];
    [discriminate Hm |].
  injection E as _ <-.
  unfold insert_appointment in Hins.
  destruct (get_appointment db _); [discriminate |].
  injection Hins as <-. cbn [appointments] in Ha.
  apply in_app_or in Ha as [Ha | [<- | []]]; [now apply Hwf |].
  split.
  - cbn [Appointment.id]. now apply generate_id_nonempty in Hgen.
  - eapply available_gives_interval. exact Hfree.
Qed.

(** Rescheduling keeps every stored appointment well formed. *)
Lemma edit_appointment_well_formed (today : Z) (db db' : database) (key : string)
  (form : Form.t) :
  (forall a, In a (appointments db) -> well_formed_row a) ->
  accepted db' (edit_appointment today db key form) ->
  forall a, In a (appointments db') -> well_formed_row a.
Proof.
  intros Hwf (message & H) a Ha.
  apply edit_appointment_inv in H as [Hnf | [(m & Hm) | (d & Hfree & _ & E)]];
    [discriminate Hnf | discriminate Hm |].
  injection E as _ ->.
  unfold update_appointment in Ha. cbn [appointments] in Ha.
  apply in_map_iff in Ha as (old & <- & Hold).
  destruct (Appointment.id old =? key)%string; [| now apply Hwf].
  split.
  - cbn [Appointment.id]. now apply (Hwf old).
  - eapply available_gives_interval. exact Hfree.
Qed.

Lemma add_appointment_allocates (today : Z) (db : database) (form : Form.t)
  (duration : Z) :
  passes_validation today db form duration ->
  add_appointment today db form
  = (let* appointment_id :=
       generate_id "A" (option_map Appointment.id (last_appointment db)) in
     let* db' :=
       insert_appointment db
         (Appointment.mk appointment_id (Form.date form) (Form.time form) duration
            (Form.diagnosis form) (Form.patient_id form) (Form.doctor_id form)) in
     Return (RedirectAppointments
               ("Appointment " ++ appointment_id ++ " booked successfully")
               "success", db')).
Proof.
  intros (Hdur & Hp & Hd & (day & Hday & Htoday) & Hrange & Htime & Hfree).
  unfold add_appointment. rewrite Hdur. cbn [or_value_error bind].
  destruct (get_patient db (Form.patient_id form)); [| congruence].
  destruct (get_doctor db (Form.doctor_id form)); [| congruence].
  rewrite Hday. cbn [or_value_error bind].
  replace (day <? today) with false by (symmetry; apply Z.ltb_ge; lia).
  replace (duration <=? 0) with false by (symmetry; apply Z.leb_gt; lia).
  replace (duration >? 240) with false
    by (symmetry; rewrite Z.gtb_ltb; apply Z.ltb_ge; lia).
  rewrite Htime, Hfree. reflexivity.
Qed.

(** C6, as amended.  For a greatest existing id that is not empty,
    [generate_id] raises [ValueError], and returns no id, exactly when
    [int()] rejects the text after the first character.  That is never
    the case for a decimal numeral, and always when the text is empty or
    holds a character that is not a digit, a sign, an underscore or white
    space.  The booking handler does not turn the exception into a
    rejection: a booking that passes validation then raises
    [ValueError], and no booking is accepted. *)
Theorem generate_id_malformed (prefix last_id : string) :
  truthy last_id = true ->
  (generate_id prefix (Some last_id) = Raise ValueError
   <-> py_int (drop_first last_id) = None)
  /\ ((forall new_id, generate_id prefix (Some last_id) <> Return new_id)
      <-> py_int (drop_first last_id) = None)
  /\ (drop_first last_id = "" \/ all_int_chars (drop_first last_id) = false ->
      py_int (drop_first last_id) = None)
  /\ (decimal_numeral (drop_first last_id) = true ->
      py_int (drop_first last_id) = Some (digits_value (drop_first last_id)))
  /\ (py_int (drop_first last_id) = None ->
      forall today db form a,
        last_appointment db = Some a -> Appointment.id a = last_id ->
        (forall duration, passes_validation today db form duration ->
                          add_appointment today db form = Raise ValueError)
        /\ (forall db', ~ accepted db' (add_appointment today db form))).
Proof.
  intros Hid.
  assert (Hgen : forall p, generate_id p (Some last_id)
                           = match py_int (drop_first last_id) with
                             | Some n => Return (p ++ format_03d (n + 1))
                             | None => Raise ValueError
                             end).
  { intro p. unfold generate_id. cbn [truthy_opt]. rewrite Hid.
    now destruct (py_int (drop_first last_id)). }
  split; [| split; [split |]; [| | split; [| split]]].
  - rewrite Hgen. now destruct (py_int (drop_first last_id)).
  - intro H. rewrite Hgen in H.
    destruct (py_int (drop_first last_id)) as [n |]; [| reflexivity].
    now contradiction (H (prefix ++ format_03d (n + 1))).
  - intros H new_id. rewrite Hgen, H. discriminate.
  - intro Hbad.
    destruct (py_int (drop_first last_id)) as [v |] eqn:E; [| reflexivity].
    apply py_int_chars in E as [Hne Hall].
    destruct Hbad as [Hbad | Hbad]; [rewrite Hbad in Hne; discriminate | congruence].
  - apply py_int_numeral.
  - intros Hint today db form a Hlast Ha. split.
    + intros duration Hpass.
      rewrite (add_appointment_allocates _ _ _ _ Hpass), Hlast.
      cbn [option_map]. rewrite Ha, Hgen, Hint. reflexivity.
    + intros db' (message & Hacc).
      apply add_appointment_inv in Hacc as [(m & Hm) | (d & i & db'' & _ & Hgen' & _ & _)].
      * discriminate Hm.
      * rewrite Hlast in Hgen'. cbn [option_map] in Hgen'.
        rewrite Ha, Hgen, Hint in Hgen'. discriminate Hgen'.
Qed.

Lemma generate_id_malformed_A00x :
  generate_id "A" (Some "A00x") = Raise ValueError
  /\ generate_id "A" (Some "A1+2") = Raise ValueError
  /\ generate_id "A" (Some "A7_") = Raise ValueError
  /\ generate_id "A" (Some "A+") = Raise ValueError
  /\ generate_id "A" (Some "A") = Raise ValueError.
Proof.
  repeat apply conj.
  - apply (proj1 (generate_id_malformed "A" "A00x" eq_refl)). reflexivity.
  - apply (proj1 (generate_id_malformed "A" "A1+2" eq_refl)). reflexivity.
  - apply (proj1 (generate_id_malformed "A" "A7_" eq_refl)). reflexivity.
  - apply (proj1 (generate_id_malformed "A" "A+" eq_refl)). reflexivity.
  - apply (proj1 (generate_id_malformed "A" "A" eq_refl)). reflexivity.
Defined.

(** C6 as the design document states it fails: the error of the
    allocator is a [ValueError] that leaves the booking handler, not a
    rejection; and a text such as [+7], which is not a decimal numeral,
    is accepted by [int()] and yields an id. *)
Lemma generate_id_error_is_raw :
  decimal_numeral (drop_first "A00x") = false
  /\ generate_id "A" (Some "A00x") = Raise ValueError
  /\ passes_validation a_tuesday clinic_with_odd_id
       (Form.mk "2024-01-05" "10:00" "30" "flu" "P002" "D001") 30
  /\ add_appointment a_tuesday clinic_with_odd_id
       (Form.mk "2024-01-05" "10:00" "30" "flu" "P002" "D001")
     = Raise ValueError
  /\ (forall r, ~ rejected_with r clinic_with_odd_id
                    (add_appointment a_tuesday clinic_with_odd_id
                       (Form.mk "2024-01-05" "10:00" "30" "flu" "P002" "D001")))
  /\ decimal_numeral (drop_first "P+7") = false
  /\ generate_id "P" (Some "P+7") = Return "P008".
Proof.
  repeat apply conj; try reflexivity.
  - discriminate.
  - discriminate.
  - exists 738890. split; [reflexivity | vm_compute; discriminate].
  - vm_compute; discriminate.
  - vm_compute; discriminate.
  - intros r (message & H & _). discriminate H.
Qed.

(** ** The advisory endpoint *)

Lemma candidate_interval_malformed (appt_date appt_time : string) (duration : Z) :
  strptime_ymd_hm (appt_date ++ " " ++ appt_time) = None ->
  candidate_interval appt_date appt_time duration = Raise ValueError.
Proof. intro H. unfold candidate_interval. now rewrite H. Qed.

(** C7, as amended.  When date and time are not empty, their combination
    is rejected by [strptime] and the duration is absent or converts to
    an integer, [check_availability] answers [doctor_available = False]
    if a doctor id is supplied and [patient_available = False] if a
    patient id is supplied (and [True] for an id that is not supplied),
    where the availability checks themselves raise [ValueError] and no
    booking or rescheduling with that date and time is accepted. *)
Theorem check_availability_malformed (db : database)
  (doctor_id patient_id : option string) (date_str time_str : string)
  (duration : option pyval) (dur : Z) :
  truthy date_str = true ->
  truthy time_str = true ->
  strptime_ymd_hm (date_str ++ " " ++ time_str) = None ->
  duration_or_default duration = Return dur ->
  check_availability db doctor_id patient_id (Some date_str) (Some time_str) duration
  = Return (AvailabilityReply (negb (truthy_opt doctor_id))
                              (negb (truthy_opt patient_id)))
  /\ (forall id d exclude_appt_id,
        is_doctor_available db id date_str time_str d exclude_appt_id
        = Raise ValueError)
  /\ (forall id d exclude_appt_id,
        is_patient_available db id date_str time_str d exclude_appt_id
        = Raise ValueError)
  /\ (forall today form db',
        Form.date form = date_str -> Form.time form = time_str ->
        ~ accepted db' (add_appointment today db form))
  /\ (forall today key form db',
        Form.date form = date_str -> Form.time form = time_str ->
        ~ accepted db' (edit_appointment today db key form)).
Proof.
  intros Hd Ht Hbad Hdur.
  assert (Hdoc : forall id d e,
             is_doctor_available db id date_str time_str d e = Raise ValueError).
  { intros. unfold is_doctor_available.
    now rewrite candidate_interval_malformed. }
  assert (Hpat : forall id d e,
             is_patient_available db id date_str time_str d e = Raise ValueError).
  { intros. unfold is_patient_available.
    now rewrite candidate_interval_malformed. }
  repeat apply conj; trivial.
  - unfold check_availability. rewrite Hd, Ht, Hdur. cbn [negb orb].
    unfold doctor_ok, patient_ok. do 2 f_equal.
    + destruct doctor_id as [i |]; [| reflexivity]. cbn [truthy_opt].
      destruct (truthy i); [| reflexivity]. now rewrite Hdoc.
    + destruct patient_id as [i |]; [| reflexivity]. cbn [truthy_opt].
      destruct (truthy i); [| reflexivity]. now rewrite Hpat.
  - intros today form db' <- <- (message & H).
    apply add_appointment_inv in H as [(m & Hm) | (d & i & db'' & Hfree & _ & _)].
    + discriminate Hm.
    + rewrite Hdoc in Hfree. discriminate Hfree.
  - intros today key form db' <- <- (message & H).
    apply edit_appointment_inv in H as [Hnf | [(m & Hm) | (d & Hfree & _)]].
    + discriminate Hnf.
    + discriminate Hm.
    + rewrite Hdoc in Hfree. discriminate Hfree.
Qed.

Lemma check_availability_malformed_at_clinic :
  truthy "2024-13-05" = true
  /\ truthy "09:00" = true
  /\ strptime_ymd_hm ("2024-13-05" ++ " " ++ "09:00") = None
  /\ duration_or_default None = Return 30
  /\ check_availability clinic (Some "D002") None (Some "2024-13-05") (Some "09:00") None
     = Return (AvailabilityReply false true).
Proof.
  repeat (split; [reflexivity |]).
  apply (check_availability_malformed clinic (Some "D002") None "2024-13-05" "09:00"
           None 30); reflexivity.
Defined.

(** C7 as the design document states it fails when no doctor id is
    supplied: the doctor is then reported available whatever the date
    is; it also fails when the duration is not an integer, which is
    answered with an error before any check. *)
Lemma check_availability_without_doctor :
  strptime_ymd_hm ("2024-13-05" ++ " " ++ "09:00") = None
  /\ check_availability clinic None None (Some "2024-13-05") (Some "09:00") None
     = Return (AvailabilityReply true true)
  /\ check_availability clinic (Some "") (Some "P001") (Some "2024-13-05")
       (Some "09:00") None
     = Return (AvailabilityReply true false)
  /\ check_availability clinic (Some "D001") (Some "P001") (Some "2024-13-05")
       (Some "09:00") (Some (PyStr "half an hour"))
     = Return (ErrorReply "invalid_duration" "Duration must be an integer" 400).
Proof. repeat split; reflexivity. Qed.

(** C9.  Without a duration [check_availability] behaves as with the
    integer 30: it never answers [invalid_duration], and with a date and
    a time it answers with the results of the two checks made for 30
    minutes: [doctor_available] is true exactly when
    [is_doctor_available] returns [True] for that doctor, date, time and
    30 minutes (and it is true when no doctor id is given), and likewise
    for the patient.  The answer [invalid_duration] is given only for a
    duration that is present and that [int()] rejects with [TypeError] or
    [ValueError], and it is given for each of these when date and time
    are present. *)
Theorem check_availability_default_duration (db : database)
  (doctor_id patient_id date_str time_str : option string) :
  check_availability db doctor_id patient_id date_str time_str None
  = check_availability db doctor_id patient_id date_str time_str (Some (PyInt 30))
  /\ (forall message status,
        check_availability db doctor_id patient_id date_str time_str None
        <> Return (ErrorReply "invalid_duration" message status))
  /\ (forall d t,
        date_str = Some d -> time_str = Some t ->
        truthy d = true -> truthy t = true ->
        exists doctor_available patient_available,
          check_availability db doctor_id patient_id date_str time_str None
          = Return (AvailabilityReply doctor_available patient_available)
          /\ (forall doctor,
                doctor_id = Some doctor -> truthy doctor = true ->
                (doctor_available = true
                 <-> is_doctor_available db doctor d t 30 None = Return true))
          /\ (truthy_opt doctor_id = false -> doctor_available = true)
          /\ (forall patient,
                patient_id = Some patient -> truthy patient = true ->
                (patient_available = true
                 <-> is_patient_available db patient d t 30 None = Return true))
          /\ (truthy_opt patient_id = false -> patient_available = true))
  /\ (forall duration message status,
        check_availability db doctor_id patient_id date_str time_str duration
        = Return (ErrorReply "invalid_duration" message status) ->
        exists v, duration = Some v
                  /\ (int_of v = Raise TypeError \/ int_of v = Raise ValueError))
  /\ (forall d t v,
        date_str = Some d -> time_str = Some t ->
        truthy d = true -> truthy t = true ->
        int_of v = Raise TypeError \/ int_of v = Raise ValueError ->
        check_availability db doctor_id patient_id date_str time_str (Some v)
        = Return (ErrorReply "invalid_duration" "Duration must be an integer" 400)).
Proof.
  repeat apply conj.
  - reflexivity.
  - intros message status. unfold check_availability.
    destruct date_str as [d |], time_str as [t |]; try discriminate.
    cbn [duration_or_default].
    destruct (negb (truthy d) || negb (truthy t)); discriminate.
  - intros d t -> -> Hd Ht.
    exists (doctor_ok db doctor_id d t 30), (patient_ok db patient_id d t 30).
    split; [unfold check_availability; now rewrite Hd, Ht |].
    repeat apply conj.
    + intros doctor -> Hdoc. unfold doctor_ok. rewrite Hdoc.
      destruct (is_doctor_available db doctor d t 30 None) as [[|] | e];
        cbn [unavailable_on_error]; split; congruence.
    + unfold doctor_ok. destruct doctor_id as [doctor |]; cbn [truthy_opt]; [| trivial].
      now intros ->.
    + intros patient -> Hpat. unfold patient_ok. rewrite Hpat.
      destruct (is_patient_available db patient d t 30 None) as [[|] | e];
        cbn [unavailable_on_error]; split; congruence.
    + unfold patient_ok. destruct patient_id as [patient |]; cbn [truthy_opt]; [| trivial].
      now intros ->.
  - intros duration message status. unfold check_availability.
    destruct date_str as [d |], time_str as [t |]; try discriminate.
    destruct (negb (truthy d) || negb (truthy t)); [discriminate |].
    destruct duration as [v |]; [| discriminate].
    cbn [duration_or_default].
    destruct (int_of v) as [n | []] eqn:E; try discriminate; eauto.
  - intros d t v -> -> Hd Ht Hv. unfold check_availability.
    rewrite Hd, Ht. cbn [negb orb duration_or_default].
    now destruct Hv as [-> | ->].
Qed.

Lemma check_availability_default_at_clinic :
  check_availability clinic (Some "D001") (Some "P002") (Some "2024-01-05")
    (Some "08:45") None
  = Return (AvailabilityReply false true)
  /\ is_doctor_available clinic "D001" "2024-01-05" "08:45" 30 None = Return false
  /\ is_doctor_available clinic "D001" "2024-01-05" "08:45" 15 None = Return true
  /\ check_availability clinic (Some "D001") (Some "P002") (Some "2024-01-05")
       (Some "08:45") (Some (PyStr "soon"))
     = Return (ErrorReply "invalid_duration" "Duration must be an integer" 400).
Proof.
  destruct (check_availability_default_duration clinic (Some "D001") (Some "P002")
              (Some "2024-01-05") (Some "08:45")) as (_ & _ & Hdef & _ & Hbad).
  destruct (Hdef "2024-01-05" "08:45" eq_refl eq_refl eq_refl eq_refl)
    as (doctor_available & patient_available & Hreply & Hdoc & _ & Hpat & _).
  specialize (Hdoc "D001" eq_refl eq_refl). specialize (Hpat "P002" eq_refl eq_refl).
  split; [| split; [reflexivity | split; [reflexivity |]]].
  - rewrite Hreply.
    destruct doctor_available.
    + destruct Hdoc as [Hdoc _]. specialize (Hdoc eq_refl). discriminate Hdoc.
    + destruct patient_available; [reflexivity |].
      destruct Hpat as [_ Hpat]. specialize (Hpat eq_refl). discriminate Hpat.
  - apply (Hbad "2024-01-05" "08:45"); try reflexivity. right. reflexivity.
Defined.

(** ** Where booking and rescheduling differ *)

(** The reasons that [add_appointment] can give. *)
Lemma add_appointment_reasons (today : Z) (db : database) (form : Form.t) (r : reason) :
  rejected_with r db (add_appointment today db form) ->
  r <> PatientUnavailable.
Proof.
  unfold rejected_with, add_appointment. intros (message & H & Hr).
  repeat handler_step H; try discriminate H;
    injection H as <-; vm_compute in Hr; congruence.
Qed.

(** The reasons that [edit_appointment] can give. *)
Lemma edit_appointment_reasons (today : Z) (db : database) (key : string)
  (form : Form.t) (r : reason) :
  rejected_with r db (edit_appointment today db key form) ->
  r = PastDate \/ r = InvalidDuration \/ r = DoctorUnavailable \/ r = PatientUnavailable.
Proof.
  unfold rejected_with, edit_appointment. intros (message & H & Hr).
  repeat handler_step H; try discriminate H;
    injection H as <-; vm_compute in Hr; injection Hr as <-; auto.
Qed.

(** C2 at a failing input.  Anna (P001) is with Dr Hamutenya from 09:00
    to 09:30; a booking for Anna with Dr Dlamini at 09:00 is accepted as
    A002 although [is_patient_available] answers [False] for it.  No
    booking is ever rejected for the patient being unavailable; a
    rescheduling to the same slot is. *)
Theorem create_skips_patient_check :
  is_patient_available clinic "P001" "2024-01-05" "09:00" 30 None = Return false
  /\ add_appointment a_tuesday clinic
       (Form.mk "2024-01-05" "09:00" "30" "flu" "P001" "D002")
     = Return (RedirectAppointments "Appointment A002 booked successfully" "success",
               mkdb [anna; ben] [dr_hamutenya; dr_dlamini]
                 [A001;
                  Appointment.mk "A002" "2024-01-05" "09:00" 30 "flu" "P001" "D002"])
  /\ (forall today db form,
        ~ rejected_with PatientUnavailable db (add_appointment today db form))
  /\ rejected_with PatientUnavailable
       (mkdb [anna; ben] [dr_hamutenya; dr_dlamini]
          [A001; Appointment.mk "A002" "2024-01-06" "09:00" 30 "flu" "P001" "D002"])
       (edit_appointment a_tuesday
          (mkdb [anna; ben] [dr_hamutenya; dr_dlamini]
             [A001; Appointment.mk "A002" "2024-01-06" "09:00" 30 "flu" "P001" "D002"])
          "A002" (Form.mk "2024-01-05" "09:00" "30" "flu" "P001" "D002")).
Proof.
  repeat apply conj.
  - reflexivity.
  - reflexivity.
  - intros today db form H. now apply add_appointment_reasons in H.
  - eexists. split; reflexivity.
Qed.

(** C3 at a failing input.  Rescheduling A001 to the time [9:15], which
    does not match HH:MM, is accepted and stored as it is; a time that
    [strptime] rejects makes the handler raise [ValueError].  No
    rescheduling is ever rejected for the format of the time; a booking
    with the same time is. *)
Theorem update_skips_time_format :
  match_hh_mm "9:15" = false
  /\ edit_appointment a_tuesday clinic "A001"
       (Form.mk "2024-01-05" "9:15" "30" "flu" "P001" "D001")
     = Return (RedirectAppointments "Appointment A001 updated successfully" "success",
               mkdb [anna; ben] [dr_hamutenya; dr_dlamini]
                 [Appointment.mk "A001" "2024-01-05" "9:15" 30 "flu" "P001" "D001"])
  /\ edit_appointment a_tuesday clinic "A001"
       (Form.mk "2024-01-05" "half past nine" "30" "flu" "P001" "D001")
     = Raise ValueError
  /\ (forall today db key form,
        ~ rejected_with InvalidTimeFormat db (edit_appointment today db key form))
  /\ rejected_with InvalidTimeFormat clinic
       (add_appointment a_tuesday clinic
          (Form.mk "2024-01-05" "9:15" "30" "flu" "P002" "D002")).
Proof.
  repeat apply conj.
  - reflexivity.
  - reflexivity.
  - reflexivity.
  - intros today db key form H.
    apply edit_appointment_reasons in H as [H | [H | [H | H]]]; discriminate H.
  - eexists. split; reflexivity.
Qed.

(** C4 at a failing input.  Rescheduling A001 with the patient P999 and
    the doctor D999, which do not exist, is accepted, and the stored
    appointment then refers to them.  No rescheduling is ever rejected
    for a missing patient or doctor; a booking with the same ids is. *)
Theorem update_skips_existence_checks :
  get_patient clinic "P999" = None
  /\ get_doctor clinic "D999" = None
  /\ edit_appointment a_tuesday clinic "A001"
       (Form.mk "2024-01-05" "09:15" "30" "flu" "P999" "D999")
     = Return (RedirectAppointments "Appointment A001 updated successfully" "success",
               mkdb [anna; ben] [dr_hamutenya; dr_dlamini]
                 [Appointment.mk "A001" "2024-01-05" "09:15" 30 "flu" "P999" "D999"])
  /\ (forall today db key form,
        ~ rejected_with PatientNotFound db (edit_appointment today db key form)
        /\ ~ rejected_with DoctorNotFound db (edit_appointment today db key form))
  /\ rejected_with PatientNotFound clinic
       (add_appointment a_tuesday clinic
          (Form.mk "2024-01-05" "09:15" "30" "flu" "P999" "D999"))
  /\ rejected_with DoctorNotFound clinic
       (add_appointment a_tuesday clinic
          (Form.mk "2024-01-05" "09:15" "30" "flu" "P001" "D999")).
Proof.
  repeat apply conj; try reflexivity.
  - intros today db key form.
    split; intro H;
      apply edit_appointment_reasons in H as [H | [H | [H | H]]]; discriminate H.
  - eexists. split; reflexivity.
  - eexists. split; reflexivity.
Qed.

(** * Further properties of the code *)

(** ** Contact validation *)

Lemma strip_non_digits_all_digits (s : string) :
  all_digits (strip_non_digits s) = true.
Proof.
  induction s as [| c s IH]; cbn [strip_non_digits]; [reflexivity |].
  destruct (is_digit c) eqn:Hc; [| exact IH].
  cbn [all_digits]. now rewrite Hc.
Qed.

Lemma strip_non_digits_length (s : string) :
  String.length (strip_non_digits s) = count_digits s.
Proof.
  induction s as [| c s IH]; cbn [strip_non_digits count_digits]; [reflexivity |].
  destruct (is_digit c); cbn [String.length]; lia.
Qed.

Lemma strip_non_digits_fixed (s : string) :
  all_digits s = true -> strip_non_digits s = s.
Proof.
  induction s as [| c s IH]; cbn [strip_non_digits all_digits]; [reflexivity |].
  intro H. apply andb_true_iff in H as [Hc Hs]. rewrite Hc. now rewrite IH.
Qed.

Lemma after_digits_all_digits (s : string) :
  all_digits s = true -> after_digits s = "".
Proof.
  induction s as [| c s IH]; cbn [after_digits all_digits]; [reflexivity |].
  intro H. apply andb_true_iff in H as [Hc Hs]. rewrite Hc. now apply IH.
Qed.

Lemma match_digits_numeral (s : string) :
  all_digits s = true -> (1 <= String.length s)%nat -> match_digits s = true.
Proof.
  intros Hall Hlen. unfold match_digits.
  rewrite (after_digits_all_digits s Hall).
  destruct s as [| c s]; [cbn in Hlen; lia |].
  cbn [all_digits] in Hall. apply andb_true_iff in Hall as [Hc _].
  now rewrite Hc.
Qed.

(** The function as a test on the number of digits. *)
Lemma validate_phone_number_eq (phone_number : string) :
  validate_phone_number phone_number
  = ((7 <=? count_digits phone_number) && (count_digits phone_number <=? 15))%nat.
Proof.
  unfold validate_phone_number.
  destruct phone_number as [| c s]; cbn [truthy negb]; [reflexivity |].
  remember (String c s) as p eqn:Ep. clear Ep.
  rewrite strip_non_digits_length.
  destruct (Nat.ltb_spec (count_digits p) 7) as [Hlo | Hlo]; cbn [orb].
  - symmetry. apply andb_false_iff. left. apply Nat.leb_gt. exact Hlo.
  - destruct (Nat.ltb_spec 15 (count_digits p)) as [Hhi | Hhi].
    + symmetry. apply andb_false_iff. right. apply Nat.leb_gt. exact Hhi.
    + rewrite match_digits_numeral.
      * cbn [negb]. symmetry. apply andb_true_iff. split; now apply Nat.leb_le.
      * apply strip_non_digits_all_digits.
      * rewrite strip_non_digits_length. lia.
Qed.

Lemma valid_phone_bounds (phone_number : string) :
  validate_phone_number phone_number = true ->
  (7 <= count_digits phone_number <= 15)%nat.
Proof.
  rewrite validate_phone_number_eq, andb_true_iff, !Nat.leb_le. trivial.
Qed.

Lemma bounds_valid_phone (phone_number : string) :
  (7 <= count_digits phone_number <= 15)%nat ->
  validate_phone_number phone_number = true.
Proof.
  rewrite validate_phone_number_eq, andb_true_iff, !Nat.leb_le. trivial.
Qed.

(** X1.  A phone number is valid exactly when the number of its digits
    (the characters that [\d] matches) is between 7 and 15, whatever
    other characters stand between them; an empty text is not valid, and
    the second test of the function, that the cleaned text is made of
    digits, never rejects anything. *)
Theorem validate_phone_number_iff (phone_number : string) :
  (validate_phone_number phone_number = true
   <-> (7 <= count_digits phone_number <= 15)%nat)
  /\ validate_phone_number "" = false
  /\ (validate_phone_number phone_number = true ->
      match_digits (strip_non_digits phone_number) = true).
Proof.
  split; [| split].
  - rewrite validate_phone_number_eq, andb_true_iff, !Nat.leb_le. reflexivity.
  - reflexivity.
  - intro H. apply valid_phone_bounds in H.
    apply match_digits_numeral.
    + apply strip_non_digits_all_digits.
    + rewrite strip_non_digits_length. lia.
Qed.

Lemma count_digits_strip (s : string) :
  count_digits (strip_non_digits s) = count_digits s.
Proof.
  induction s as [| c s IH]; cbn [strip_non_digits count_digits]; [reflexivity |].
  destruct (is_digit c) eqn:Hc; [| exact IH].
  cbn [count_digits]. rewrite Hc. now rewrite IH.
Qed.

Lemma format_phone_number_strip (s : string) :
  format_phone_number s = strip_non_digits s.
Proof. now destruct s. Qed.

(** X2.  The stored form of a phone number holds digits only, as many as
    the input has; formatting it again changes nothing, and the stored
    form is valid exactly when the input is. *)
Theorem format_phone_number_spec (phone_number : string) :
  all_digits (format_phone_number phone_number) = true
  /\ String.length (format_phone_number phone_number) = count_digits phone_number
  /\ format_phone_number (format_phone_number phone_number)
     = format_phone_number phone_number
  /\ validate_phone_number (format_phone_number phone_number)
     = validate_phone_number phone_number.
Proof.
  rewrite !format_phone_number_strip.
  repeat apply conj.
  - apply strip_non_digits_all_digits.
  - apply strip_non_digits_length.
  - apply strip_non_digits_fixed, strip_non_digits_all_digits.
  - now rewrite !validate_phone_number_eq, count_digits_strip.
Qed.

(** What is stored for a valid contact number. *)
Lemma stored_phone_number (phone_number : string) :
  validate_phone_number phone_number = true ->
  all_digits (format_phone_number phone_number) = true
  /\ (7 <= String.length (format_phone_number phone_number) <= 15)%nat.
Proof.
  intro H. apply valid_phone_bounds in H.
  rewrite format_phone_number_strip, strip_non_digits_length.
  split; [apply strip_non_digits_all_digits | exact H].
Qed.

(** ** Patients and doctors *)

Lemma find_app_fresh {A : Type} (f : A -> bool) (l : list A) (x : A) :
  find f l = None -> f x = true -> find f (l ++ [x]) = Some x.
Proof.
  induction l as [| y l IH]; cbn [find app]; intros Hnone Hx.
  - now rewrite Hx.
  - destruct (f y); [discriminate | now apply IH].
Qed.

Lemma find_app_old {A : Type} (f : A -> bool) (l : list A) (x : A) :
  f x = false -> find f (l ++ [x]) = find f l.
Proof.
  intro Hx. induction l as [| y l IH]; cbn [find app].
  - now rewrite Hx.
  - now destruct (f y).
Qed.

(** Replacing the rows that [same] selects by a row that [same] selects
    and [f] selects as well. *)
Lemma find_map_replace {A : Type} (f same : A -> bool) (l : list A) (old new : A) :
  (forall y, same y = true -> f y = f new) ->
  f new = true ->
  find f l = Some old -> same old = true ->
  find f (map (fun y => if same y then new else y) l) = Some new.
Proof.
  intros Hsame Hnew.
  induction l as [| y l IH]; cbn [find map]; [discriminate |].
  intros Hfind Hold.
  destruct (same y) eqn:Hy.
  - now rewrite Hnew.
  - destruct (f y) eqn:Hfy.
    + injection Hfind as <-. congruence.
    + now apply IH.
Qed.

Lemma find_map_other {A : Type} (f same : A -> bool) (l : list A) (new : A) :
  (forall y, same y = true -> f y = false) ->
  f new = false ->
  find f (map (fun y => if same y then new else y) l) = find f l.
Proof.
  intros Hsame Hnew.
  induction l as [| y l IH]; cbn [find map]; [reflexivity |].
  destruct (same y) eqn:Hy.
  - rewrite Hnew, (Hsame y Hy). exact IH.
  - destruct (f y); [reflexivity | exact IH].
Qed.

(** X3.  When [add_patient] answers with a success, the new patient is
    the former table with one row added at the end: its id comes from
    the allocator and was not in use, its country code is one of the ten
    of [COUNTRY_CODES], its contact number is stored as 7 to 15 digits
    and nothing else, its date of birth is a date not after today, and
    looking the id up gives the row. *)
Theorem add_patient_stores_valid_row (today : Z) (db db' : database)
  (form : PatientForm.t) (endpoint message : string) :
  add_patient today db form = Return (Redirected endpoint (Some (message, "success")), db') ->
  exists patient_id dob,
    let row :=
      Patient.mk patient_id (PatientForm.name form) (PatientForm.surname form)
        (PatientForm.date_of_birth form) (PatientForm.gender form)
        (PatientForm.email form) (PatientForm.country_code form)
        (format_phone_number (PatientForm.contact_number form)) in
    db' = mkdb (patients db ++ [row]) (doctors db) (appointments db)
    /\ generate_id "P" (option_map Patient.id (last_by Patient.id (patients db)))
       = Return patient_id
    /\ get_patient db patient_id = None
    /\ get_patient db' patient_id = Some row
    /\ In (PatientForm.country_code form) (map fst COUNTRY_CODES)
    /\ all_digits (Patient.contact_number row) = true
    /\ (7 <= String.length (Patient.contact_number row) <= 15)%nat
    /\ strptime_ymd (PatientForm.date_of_birth form) = Some dob
    /\ dob <= today.
Proof.
  unfold add_patient. intro H.
  destruct (validate_country_code (PatientForm.country_code form)) eqn:Hcc;
    cbn [negb] in H; [| discriminate H].
  destruct (validate_phone_number (PatientForm.contact_number form)) eqn:Hph;
    cbn [negb] in H; [| discriminate H].
  destruct (strptime_ymd (PatientForm.date_of_birth form)) as [dob |] eqn:Hdob;
    cbn [or_value_error bind] in H; [| discriminate H].
  destruct (dob >? today) eqn:Hfuture; [discriminate H |].
  destruct (generate_id "P" _) as [patient_id |] eqn:Hgen; cbn [bind] in H;
    [| discriminate H].
  unfold insert_patient in H. cbn [Patient.id] in H.
  destruct (get_patient db patient_id) eqn:Hfresh; cbn [bind] in H; [discriminate H |].
  injection H as _ _ <-.
  exists patient_id, dob. cbn zeta.
  destruct (stored_phone_number _ Hph) as [Hdig Hlen].
  repeat apply conj; trivial; try apply Hlen.
  - unfold get_patient. cbn [patients].
    apply find_app_fresh; [exact Hfresh | cbn [Patient.id]; apply String.eqb_refl].
  - unfold validate_country_code in Hcc.
    destruct (negb (truthy (PatientForm.country_code form))); [discriminate |].
    apply existsb_exists in Hcc as (code & Hin & Heq).
    apply String.eqb_eq in Heq. now subst code.
  - rewrite Z.gtb_ltb in Hfuture. apply Z.ltb_ge in Hfuture. exact Hfuture.
Qed.

(** X4.  The same for [add_doctor], which has no date to check. *)
Theorem add_doctor_stores_valid_row (db db' : database) (form : DoctorForm.t)
  (endpoint message : string) :
  add_doctor db form = Return (Redirected endpoint (Some (message, "success")), db') ->
  exists doctor_id,
    let row :=
      Doctor.mk doctor_id (DoctorForm.name form) (DoctorForm.surname form)
        (DoctorForm.specialization form) (DoctorForm.email form)
        (DoctorForm.country_code form)
        (format_phone_number (DoctorForm.contact_number form)) in
    db' = mkdb (patients db) (doctors db ++ [row]) (appointments db)
    /\ generate_id "D" (option_map Doctor.id (last_by Doctor.id (doctors db)))
       = Return doctor_id
    /\ get_doctor db doctor_id = None
    /\ get_doctor db' doctor_id = Some row
    /\ In (DoctorForm.country_code form) (map fst COUNTRY_CODES)
    /\ all_digits (Doctor.contact_number row) = true
    /\ (7 <= String.length (Doctor.contact_number row) <= 15)%nat.
Proof.
  unfold add_doctor. intro H.
  destruct (validate_country_code (DoctorForm.country_code form)) eqn:Hcc;
    cbn [negb] in H; [| discriminate H].
  destruct (validate_phone_number (DoctorForm.contact_number form)) eqn:Hph;
    cbn [negb] in H; [| discriminate H].
  destruct (generate_id "D" _) as [doctor_id |] eqn:Hgen; cbn [bind] in H;
    [| discriminate H].
  unfold insert_doctor in H. cbn [Doctor.id] in H.
  destruct (get_doctor db doctor_id) eqn:Hfresh; cbn [bind] in H; [discriminate H |].
  injection H as _ _ <-.
  exists doctor_id. cbn zeta.
  destruct (stored_phone_number _ Hph) as [Hdig Hlen].
  repeat apply conj; trivial; try apply Hlen.
  - unfold get_doctor. cbn [doctors].
    apply find_app_fresh; [exact Hfresh | cbn [Doctor.id]; apply String.eqb_refl].
  - unfold validate_country_code in Hcc.
    destruct (negb (truthy (DoctorForm.country_code form))); [discriminate |].
    apply existsb_exists in Hcc as (code & Hin & Heq).
    apply String.eqb_eq in Heq. now subst code.
Qed.

Lemma add_patient_at_clinic :
  add_patient a_tuesday clinic
    (PatientForm.mk "Carla" "Bock" "2000-02-29" "Female" "carla@example.org" "+27"
       "+27 (82) 555-0101")
  = Return (Redirected "patients" (Some ("Patient P003 added successfully", "success")),
            mkdb [anna; ben;
                  Patient.mk "P003" "Carla" "Bock" "2000-02-29" "Female"
                    "carla@example.org" "+27" "27825550101"]
              [dr_hamutenya; dr_dlamini] [A001])
  /\ exists patient_id dob,
      generate_id "P" (option_map Patient.id (last_by Patient.id (patients clinic)))
      = Return patient_id
      /\ strptime_ymd "2000-02-29" = Some dob /\ dob <= a_tuesday.
Proof.
  split; [reflexivity |].
  destruct (add_patient_stores_valid_row a_tuesday clinic _
              (PatientForm.mk "Carla" "Bock" "2000-02-29" "Female" "carla@example.org"
                 "+27" "+27 (82) 555-0101") _ _ eq_refl)
    as (patient_id & dob & _ & Hgen & _ & _ & _ & _ & _ & Hdob & Hle).
  now exists patient_id, dob.
Defined.

Lemma add_doctor_at_clinic :
  add_doctor clinic
    (DoctorForm.mk "Tendai" "Ncube" "Neurology" "tendai@example.org" "+263"
       "77 123 4567")
  = Return (Redirected "doctors" (Some ("Doctor D003 added successfully", "success")),
            mkdb [anna; ben]
              [dr_hamutenya; dr_dlamini;
               Doctor.mk "D003" "Tendai" "Ncube" "Neurology" "tendai@example.org"
                 "+263" "771234567"] [A001])
  /\ exists doctor_id,
      generate_id "D" (option_map Doctor.id (last_by Doctor.id (doctors clinic)))
      = Return doctor_id.
Proof.
  split; [reflexivity |].
  destruct (add_doctor_stores_valid_row clinic _
              (DoctorForm.mk "Tendai" "Ncube" "Neurology" "tendai@example.org" "+263"
                 "77 123 4567") _ _ eq_refl)
    as (doctor_id & _ & Hgen & _).
  now exists doctor_id.
Defined.

Lemma get_patient_id (db : database) (key : string) (p : Patient.t) :
  get_patient db key = Some p -> Patient.id p = key /\ In p (patients db).
Proof.
  unfold get_patient. intro H. apply find_some in H as [Hin Heq].
  now apply String.eqb_eq in Heq.
Qed.

Lemma get_doctor_id (db : database) (key : string) (d : Doctor.t) :
  get_doctor db key = Some d -> Doctor.id d = key /\ In d (doctors db).
Proof.
  unfold get_doctor. intro H. apply find_some in H as [Hin Heq].
  now apply String.eqb_eq in Heq.
Qed.

Lemma get_appointment_id (db : database) (key : string) (a : Appointment.t) :
  get_appointment db key = Some a -> Appointment.id a = key /\ In a (appointments db).
Proof.
  unfold get_appointment. intro H. apply find_some in H as [Hin Heq].
  now apply String.eqb_eq in Heq.
Qed.

Lemma eqb_neq_sym (a b : string) : a <> b -> (b =? a)%string = false.
Proof. intro H. apply String.eqb_neq. congruence. Qed.

(** X5.  [edit_patient] answers with a success exactly when the patient
    exists, the contact number holds 7 to 15 digits and the date of
    birth is a date not after today; the country code takes no part in
    it, unlike in [add_patient]. *)
Theorem edit_patient_accepts_iff (today : Z) (db : database) (patient_id : string)
  (form : PatientForm.t) :
  (exists endpoint message db',
      edit_patient today db patient_id form
      = Return (Redirected endpoint (Some (message, "success")), db'))
  <-> (get_patient db patient_id <> None
       /\ (7 <= count_digits (PatientForm.contact_number form) <= 15)%nat
       /\ exists dob, strptime_ymd (PatientForm.date_of_birth form) = Some dob
                      /\ dob <= today).
Proof.
  unfold edit_patient.
  assert (Hph : validate_phone_number (PatientForm.contact_number form) = true
                <-> (7 <= count_digits (PatientForm.contact_number form) <= 15)%nat)
    by (split; [apply valid_phone_bounds | apply bounds_valid_phone]).
  rewrite <- Hph. clear Hph.
  destruct (get_patient db patient_id) as [patient |].
  - destruct (validate_phone_number (PatientForm.contact_number form)); cbn [negb].
    + destruct (strptime_ymd (PatientForm.date_of_birth form)) as [dob |];
        cbn [or_value_error bind].
      * destruct (dob >? today) eqn:Hfuture.
        -- rewrite Z.gtb_ltb in Hfuture. apply Z.ltb_lt in Hfuture. split.
           ++ intros (e & m & d & H). discriminate H.
           ++ intros (_ & _ & dob' & [= <-] & Hle). lia.
        -- rewrite Z.gtb_ltb in Hfuture. apply Z.ltb_ge in Hfuture. split.
           ++ intros _. repeat split; [discriminate | now exists dob].
           ++ intros _. eauto.
      * split.
        -- intros (e & m & d & H). discriminate H.
        -- intros (_ & _ & dob' & Hd & _). discriminate Hd.
    + split.
      * intros (e & m & d & H). discriminate H.
      * intros (_ & Hv & _). discriminate Hv.
  - split.
    + intros (e & m & d & H). discriminate H.
    + intros (Hn & _). now contradiction Hn.
Qed.

(** X6.  After a successful [edit_patient] the patient of that id holds
    the fields of the form, with the contact number reduced to its
    digits; every other id is looked up as before, and the number of
    patients, the doctors and the appointments are unchanged. *)
Theorem edit_patient_replaces_row (today : Z) (db db' : database) (patient_id : string)
  (form : PatientForm.t) (endpoint message : string) :
  edit_patient today db patient_id form
  = Return (Redirected endpoint (Some (message, "success")), db') ->
  get_patient db' patient_id
  = Some (Patient.mk patient_id (PatientForm.name form) (PatientForm.surname form)
            (PatientForm.date_of_birth form) (PatientForm.gender form)
            (PatientForm.email form) (PatientForm.country_code form)
            (format_phone_number (PatientForm.contact_number form)))
  /\ (forall other, other <> patient_id -> get_patient db' other = get_patient db other)
  /\ List.length (patients db') = List.length (patients db)
  /\ doctors db' = doctors db
  /\ appointments db' = appointments db.
Proof.
  unfold edit_patient. intro H.
  destruct (get_patient db patient_id) as [patient |] eqn:Hget; [| discriminate H].
  destruct (validate_phone_number (PatientForm.contact_number form));
    cbn [negb] in H; [| discriminate H].
  destruct (strptime_ymd (PatientForm.date_of_birth form)) as [dob |];
    cbn [or_value_error bind] in H; [| discriminate H].
  destruct (dob >? today); [discriminate H |].
  injection H as _ _ <-.
  destruct (get_patient_id _ _ _ Hget) as [Hid Hin]. rewrite Hid.
  repeat apply conj; try reflexivity.
  - unfold get_patient in *. cbn [patients].
    apply (find_map_replace _ _ _ patient).
    + intros y Hy. apply String.eqb_eq in Hy. cbn [Patient.id]. now rewrite Hy.
    + cbn [Patient.id]. apply String.eqb_refl.
    + exact Hget.
    + rewrite Hid. apply String.eqb_refl.
  - intros other Hother. unfold get_patient. cbn [patients].
    apply find_map_other.
    + intros y Hy. apply String.eqb_eq in Hy. rewrite Hy. now apply eqb_neq_sym.
    + cbn [Patient.id]. now apply eqb_neq_sym.
  - cbn [patients]. apply length_map.
Qed.

Lemma edit_patient_at_clinic :
  edit_patient a_tuesday clinic "P002"
    (PatientForm.mk "Ben" "Moyo" "1984-11-02" "Male" "ben@example.org" "no code"
       "077-123-4567")
  = Return (Redirected "view_patient" (Some ("Patient updated successfully", "success")),
            mkdb [anna;
                  Patient.mk "P002" "Ben" "Moyo" "1984-11-02" "Male" "ben@example.org"
                    "no code" "0771234567"]
              [dr_hamutenya; dr_dlamini] [A001])
  /\ get_patient
       (mkdb [anna;
              Patient.mk "P002" "Ben" "Moyo" "1984-11-02" "Male" "ben@example.org"
                "no code" "0771234567"]
          [dr_hamutenya; dr_dlamini] [A001]) "P001"
     = get_patient clinic "P001".
Proof.
  split; [reflexivity |].
  apply (edit_patient_replaces_row a_tuesday clinic _ "P002"
           (PatientForm.mk "Ben" "Moyo" "1984-11-02" "Male" "ben@example.org" "no code"
              "077-123-4567") _ _ eq_refl).
  discriminate.
Defined.

(** X7.  [edit_doctor] answers with a success exactly when the doctor
    exists and the contact number holds 7 to 15 digits; then the doctor
    of that id holds the fields of the form, every other id is looked up
    as before, and patients and appointments are unchanged. *)
Theorem edit_doctor_spec (db : database) (doctor_id : string) (form : DoctorForm.t) :
  ((exists endpoint message db',
       edit_doctor db doctor_id form
       = Return (Redirected endpoint (Some (message, "success")), db'))
   <-> (get_doctor db doctor_id <> None
        /\ (7 <= count_digits (DoctorForm.contact_number form) <= 15)%nat))
  /\ (forall endpoint message db',
        edit_doctor db doctor_id form
        = Return (Redirected endpoint (Some (message, "success")), db') ->
        get_doctor db' doctor_id
        = Some (Doctor.mk doctor_id (DoctorForm.name form) (DoctorForm.surname form)
                  (DoctorForm.specialization form) (DoctorForm.email form)
                  (DoctorForm.country_code form)
                  (format_phone_number (DoctorForm.contact_number form)))
        /\ (forall other, other <> doctor_id -> get_doctor db' other = get_doctor db other)
        /\ patients db' = patients db
        /\ appointments db' = appointments db).
Proof.
  unfold edit_doctor.
  assert (Hph : validate_phone_number (DoctorForm.contact_number form) = true
                <-> (7 <= count_digits (DoctorForm.contact_number form) <= 15)%nat)
    by (split; [apply valid_phone_bounds | apply bounds_valid_phone]).
  rewrite <- Hph. clear Hph.
  destruct (get_doctor db doctor_id) as [doctor |] eqn:Hget.
  - destruct (get_doctor_id _ _ _ Hget) as [Hid Hin].
    destruct (validate_phone_number (DoctorForm.contact_number form)); cbn [negb].
    + split.
      * split; [intros _; split; [discriminate | reflexivity] | eauto].
      * intros endpoint message db' [= _ _ <-]. rewrite Hid.
        repeat apply conj; try reflexivity.
        -- unfold get_doctor in *. cbn [doctors].
           apply (find_map_replace _ _ _ doctor).
           ++ intros y Hy. apply String.eqb_eq in Hy. cbn [Doctor.id]. now rewrite Hy.
           ++ cbn [Doctor.id]. apply String.eqb_refl.
           ++ exact Hget.
           ++ rewrite Hid. apply String.eqb_refl.
        -- intros other Hother. unfold get_doctor. cbn [doctors].
           apply find_map_other.
           ++ intros y Hy. apply String.eqb_eq in Hy. rewrite Hy. now apply eqb_neq_sym.
           ++ cbn [Doctor.id]. now apply eqb_neq_sym.
    + split.
      * split; [intros (e & m & d & H); discriminate H | intros (_ & Hv); discriminate Hv].
      * intros endpoint message db' H. discriminate H.
  - split.
    + split; [intros (e & m & d & H); discriminate H | intros (Hn & _); now contradiction Hn].
    + intros endpoint message db' H. discriminate H.
Qed.

Lemma edit_doctor_at_clinic :
  edit_doctor clinic "D002"
    (DoctorForm.mk "Sipho" "Dlamini" "Neurology" "sipho@example.org" "+27" "82 111 1111")
  = Return (Redirected "view_doctor" (Some ("Doctor updated successfully", "success")),
            mkdb [anna; ben]
              [dr_hamutenya;
               Doctor.mk "D002" "Sipho" "Dlamini" "Neurology" "sipho@example.org" "+27"
                 "821111111"] [A001])
  /\ get_doctor
       (mkdb [anna; ben]
          [dr_hamutenya;
           Doctor.mk "D002" "Sipho" "Dlamini" "Neurology" "sipho@example.org" "+27"
             "821111111"] [A001]) "D001"
     = get_doctor clinic "D001".
Proof.
  split; [reflexivity |].
  apply (proj2 (edit_doctor_spec clinic "D002"
                  (DoctorForm.mk "Sipho" "Dlamini" "Neurology" "sipho@example.org" "+27"
                     "82 111 1111")) _ _ _ eq_refl).
  discriminate.
Defined.

(** ** Deleting *)

Lemma find_filter_key {A : Type} (key : A -> string) (k removed : string) (l : list A) :
  find (fun a => (key a =? k)%string)
       (filter (fun a => negb (key a =? removed)%string) l)
  = if (k =? removed)%string then None else find (fun a => (key a =? k)%string) l.
Proof.
  induction l as [| a l IH]; cbn [find filter].
  - now destruct (k =? removed)%string.
  - destruct (key a =? removed)%string eqn:Hr; cbn [negb find].
    + rewrite IH. apply String.eqb_eq in Hr.
      destruct (k =? removed)%string eqn:Hk; [reflexivity |].
      rewrite Hr. rewrite String.eqb_sym, Hk. reflexivity.
    + destruct (key a =? k)%string eqn:Hk.
      * apply String.eqb_eq in Hk. rewrite <- Hk, Hr. reflexivity.
      * exact IH.
Qed.

Lemma find_none_key {A : Type} (key : A -> string) (k : string) (l : list A) :
  find (fun a => (key a =? k)%string) l = None ->
  forall a, In a l -> key a <> k.
Proof.
  intros H a Ha E. apply (find_none _ _ H) in Ha. cbn in Ha.
  apply String.eqb_neq in Ha. contradiction.
Qed.

Lemma filter_none_key {A : Type} (key : A -> string) (k : string) (l : list A) :
  (forall a, In a l -> key a <> k) ->
  filter (fun a => negb (key a =? k)%string) l = l.
Proof.
  induction l as [| a l IH]; intro H; cbn [filter]; [reflexivity |].
  assert (Ha : (key a =? k)%string = false)
    by (apply String.eqb_neq, H; now left).
  rewrite Ha. cbn [negb]. f_equal. apply IH. intros x Hx. apply H. now right.
Qed.

(** Whether the appointment was there or not, the table afterwards is
    the table without the rows of that id. *)
Lemma delete_appointment_table (db db' : database) (appointment_id : string) (r : reply) :
  delete_appointment db appointment_id = Return (r, db') ->
  db' = mkdb (patients db) (doctors db)
          (filter (fun a => negb (Appointment.id a =? appointment_id)%string)
             (appointments db)).
Proof.
  unfold delete_appointment.
  destruct (get_appointment db appointment_id) as [appointment |] eqn:Hget;
    intros [= _ <-].
  - destruct (get_appointment_id _ _ _ Hget) as [-> _]. reflexivity.
  - rewrite filter_none_key; [now destruct db |].
    now apply find_none_key.
Qed.

(** X8.  After [delete_appointment] no appointment has the id, every
    other id is looked up as before, the rows that remain are those of
    other ids, patients and doctors are untouched, and deleting the same
    id again answers that the appointment is not found and changes
    nothing; an id that was not there is answered the same way. *)
Theorem delete_appointment_spec (db db' : database) (appointment_id : string)
  (r : reply) :
  delete_appointment db appointment_id = Return (r, db') ->
  get_appointment db' appointment_id = None
  /\ (forall other, other <> appointment_id ->
                    get_appointment db' other = get_appointment db other)
  /\ (forall a, In a (appointments db')
                <-> In a (appointments db) /\ Appointment.id a <> appointment_id)
  /\ patients db' = patients db
  /\ doctors db' = doctors db
  /\ (get_appointment db appointment_id = None ->
      db' = db
      /\ r = Redirected "appointments" (Some ("Appointment not found", "error")))
  /\ delete_appointment db' appointment_id
     = Return (Redirected "appointments" (Some ("Appointment not found", "error")), db').
Proof.
  intro H. pose proof (delete_appointment_table _ _ _ _ H) as Htable.
  assert (Hgone : get_appointment db' appointment_id = None).
  { rewrite Htable. unfold get_appointment. cbn [appointments].
    rewrite find_filter_key. now rewrite String.eqb_refl. }
  repeat apply conj.
  - exact Hgone.
  - intros other Hother. rewrite Htable. unfold get_appointment. cbn [appointments].
    rewrite find_filter_key.
    now rewrite (proj2 (String.eqb_neq other appointment_id) Hother).
  - intro a. rewrite Htable. cbn [appointments].
    rewrite filter_In, negb_true_iff, String.eqb_neq. reflexivity.
  - now rewrite Htable.
  - now rewrite Htable.
  - intro Hnone. unfold delete_appointment in H. rewrite Hnone in H.
    now injection H as <- <-.
  - unfold delete_appointment. now rewrite Hgone.
Qed.

Lemma delete_appointment_at_clinic :
  delete_appointment clinic "A001"
  = Return (Redirected "appointments"
              (Some ("Appointment deleted successfully", "success")),
            mkdb [anna; ben] [dr_hamutenya; dr_dlamini] [])
  /\ get_appointment (mkdb [anna; ben] [dr_hamutenya; dr_dlamini] []) "A001" = None.
Proof.
  split; [reflexivity |].
  apply (delete_appointment_spec clinic _ "A001" _ eq_refl).
Defined.

Lemma filter_comm {A : Type} (p q : A -> bool) (l : list A) :
  filter p (filter q l) = filter q (filter p l).
Proof.
  induction l as [| a l IH]; cbn [filter]; [reflexivity |].
  destruct (p a) eqn:Hp, (q a) eqn:Hq; cbn [filter]; rewrite ?Hp, ?Hq, IH; reflexivity.
Qed.

Lemma capped_after_filter {A : Type} (keep : A -> bool) (rows : list A) (cap : nat) :
  (List.length rows <= cap)%nat -> (List.length (filter keep rows) <= cap)%nat.
Proof.
  revert cap. induction rows as [| row rows IH]; intros cap Hcap; cbn [filter].
  - exact Hcap.
  - cbn [List.length] in Hcap. destruct (keep row); cbn [List.length].
    + destruct cap as [| cap]; [lia |]. apply le_n_S, IH. lia.
    + apply IH. lia.
Qed.

(** Going through the rows without those of id [key] is going through
    all of them with [key] as the exclusion id. *)
Lemma no_overlap_filter_excluded (cs ce : Z) (key : string) (l : list Appointment.t) :
  truthy key = true ->
  no_overlap cs ce None (filter (fun a => negb (Appointment.id a =? key)%string) l)
  = no_overlap cs ce (Some key) l.
Proof.
  intro Hkey. induction l as [| a l IH]; cbn [filter no_overlap]; [reflexivity |].
  assert (Hx : excluded (Some key) a = (Appointment.id a =? key)%string)
    by (unfold excluded; now rewrite Hkey).
  rewrite Hx.
  destruct (Appointment.id a =? key)%string; cbn [negb]; [exact IH |].
  cbn [no_overlap excluded]. now rewrite IH.
Qed.

(** X9.  Deleting an appointment frees for its doctor exactly what
    passing its id as the exclusion id frees: the doctor check on the
    table after the deletion answers as the check with the exclusion on
    the table before.  The patient check does so too when the patient
    has at most 100 appointments on the date. *)
Theorem delete_appointment_frees_slot (db db' : database) (appointment_id : string)
  (r : reply) :
  delete_appointment db appointment_id = Return (r, db') ->
  truthy appointment_id = true ->
  (forall doctor_id appt_date appt_time duration,
      is_doctor_available db' doctor_id appt_date appt_time duration None
      = is_doctor_available db doctor_id appt_date appt_time duration
          (Some appointment_id))
  /\ (forall patient_id appt_date appt_time duration,
        (List.length (patient_rows_on db patient_id appt_date) <= 100)%nat ->
        is_patient_available db' patient_id appt_date appt_time duration None
        = is_patient_available db patient_id appt_date appt_time duration
            (Some appointment_id)).
Proof.
  intros H Hkey. apply delete_appointment_table in H. subst db'. split.
  - intros doctor_id appt_date appt_time duration.
    unfold is_doctor_available, doctor_appointments_on. cbn [appointments].
    destruct (candidate_interval appt_date appt_time duration) as [[cs ce] |];
      cbn [bind]; [| reflexivity].
    rewrite filter_comm. now apply no_overlap_filter_excluded.
  - intros patient_id appt_date appt_time duration Hcap.
    unfold is_patient_available, patient_appointments_on, patient_rows_on in *.
    cbn [appointments].
    destruct (candidate_interval appt_date appt_time duration) as [[cs ce] |];
      cbn [bind]; [| reflexivity].
    rewrite filter_comm.
    rewrite !firstn_all2; [now apply no_overlap_filter_excluded | exact Hcap |].
    now apply capped_after_filter.
Qed.

Lemma delete_appointment_frees_nine_o_clock :
  delete_appointment clinic "A001"
  = Return (Redirected "appointments"
              (Some ("Appointment deleted successfully", "success")),
            mkdb [anna; ben] [dr_hamutenya; dr_dlamini] [])
  /\ truthy "A001" = true
  /\ is_doctor_available (mkdb [anna; ben] [dr_hamutenya; dr_dlamini] [])
       "D001" "2024-01-05" "09:15" 30 None
     = is_doctor_available clinic "D001" "2024-01-05" "09:15" 30 (Some "A001").
Proof.
  split; [reflexivity |]. split; [reflexivity |].
  apply (delete_appointment_frees_slot clinic _ "A001" _ eq_refl eq_refl).
Defined.

(** X10.  [delete_patient] of a patient that exists removes the patient
    and exactly the appointments of that patient; other patients are
    looked up as before and the doctors are untouched.  For an id that
    is not there it answers that the patient is not found and changes
    nothing.  If every appointment referred to a stored patient and a
    stored doctor before, it does so afterwards. *)
Theorem delete_patient_cascades (db db' : database) (patient_id : string) (r : reply) :
  delete_patient db patient_id = Return (r, db') ->
  (get_patient db patient_id = None ->
   db' = db /\ r = Redirected "patients" (Some ("Patient not found", "error")))
  /\ (get_patient db patient_id <> None ->
      get_patient db' patient_id = None
      /\ forall a, In a (appointments db')
                   <-> In a (appointments db) /\ Appointment.patient_id a <> patient_id)
  /\ (forall other, other <> patient_id -> get_patient db' other = get_patient db other)
  /\ doctors db' = doctors db
  /\ (references_exist db -> references_exist db').
Proof.
  unfold delete_patient.
  destruct (get_patient db patient_id) as [patient |] eqn:Hget; intros [= <- <-].
  - destruct (get_patient_id _ _ _ Hget) as [Hid _]. rewrite Hid.
    assert (Hother : forall other, other <> patient_id ->
              get_patient
                (mkdb (filter (fun p => negb (Patient.id p =? patient_id)%string)
                         (patients db)) (doctors db)
                   (filter (fun a => negb (Appointment.patient_id a =? patient_id)%string)
                      (appointments db))) other
              = get_patient db other).
    { intros other Hne. unfold get_patient. cbn [patients].
      rewrite find_filter_key.
      now rewrite (proj2 (String.eqb_neq other patient_id) Hne). }
    repeat apply conj.
    + discriminate.
    + intros _. split.
      * unfold get_patient. cbn [patients]. rewrite find_filter_key.
        now rewrite String.eqb_refl.
      * intro a. cbn [appointments].
        rewrite filter_In, negb_true_iff, String.eqb_neq. reflexivity.
    + exact Hother.
    + reflexivity.
    + intros Href a Ha. cbn [appointments] in Ha.
      apply filter_In in Ha as [Ha Hne].
      apply negb_true_iff, String.eqb_neq in Hne.
      destruct (Href a Ha) as [Hp Hd]. split.
      * now rewrite Hother.
      * exact Hd.
  - repeat apply conj; trivial.
    + intros _. now split.
    + intro Hn. now contradiction Hn.
Qed.

Lemma delete_patient_at_clinic :
  delete_patient clinic "P001"
  = Return (Redirected "patients"
              (Some ("Patient and their appointments deleted successfully", "success")),
            mkdb [ben] [dr_hamutenya; dr_dlamini] [])
  /\ doctors (mkdb [ben] [dr_hamutenya; dr_dlamini] []) = doctors clinic.
Proof.
  split; [reflexivity |].
  apply (delete_patient_cascades clinic _ "P001" _ eq_refl).
Defined.

(** X11.  The same for [delete_doctor]: it removes the doctor and
    exactly the appointments of that doctor, leaves the patients and the
    other doctors alone, and keeps every appointment referring to a
    stored patient and a stored doctor. *)
Theorem delete_doctor_cascades (db db' : database) (doctor_id : string) (r : reply) :
  delete_doctor db doctor_id = Return (r, db') ->
  (get_doctor db doctor_id = None ->
   db' = db /\ r = Redirected "doctors" (Some ("Doctor not found", "error")))
  /\ (get_doctor db doctor_id <> None ->
      get_doctor db' doctor_id = None
      /\ forall a, In a (appointments db')
                   <-> In a (appointments db) /\ Appointment.doctor_id a <> doctor_id)
  /\ (forall other, other <> doctor_id -> get_doctor db' other = get_doctor db other)
  /\ patients db' = patients db
  /\ (references_exist db -> references_exist db').
Proof.
  unfold delete_doctor.
  destruct (get_doctor db doctor_id) as [doctor |] eqn:Hget; intros [= <- <-].
  - destruct (get_doctor_id _ _ _ Hget) as [Hid _]. rewrite Hid.
    assert (Hother : forall other, other <> doctor_id ->
              get_doctor
                (mkdb (patients db)
                   (filter (fun d => negb (Doctor.id d =? doctor_id)%string) (doctors db))
                   (filter (fun a => negb (Appointment.doctor_id a =? doctor_id)%string)
                      (appointments db))) other
              = get_doctor db other).
    { intros other Hne. unfold get_doctor. cbn [doctors].
      rewrite find_filter_key.
      now rewrite (proj2 (String.eqb_neq other doctor_id) Hne). }
    repeat apply conj.
    + discriminate.
    + intros _. split.
      * unfold get_doctor. cbn [doctors]. rewrite find_filter_key.
        now rewrite String.eqb_refl.
      * intro a. cbn [appointments].
        rewrite filter_In, negb_true_iff, String.eqb_neq. reflexivity.
    + exact Hother.
    + reflexivity.
    + intros Href a Ha. cbn [appointments] in Ha.
      apply filter_In in Ha as [Ha Hne].
      apply negb_true_iff, String.eqb_neq in Hne.
      destruct (Href a Ha) as [Hp Hd]. split.
      * exact Hp.
      * now rewrite Hother.
  - repeat apply conj; trivial.
    + intros _. now split.
    + intro Hn. now contradiction Hn.
Qed.

Lemma delete_doctor_at_clinic :
  delete_doctor clinic "D001"
  = Return (Redirected "doctors"
              (Some ("Doctor and their appointments deleted successfully", "success")),
            mkdb [anna; ben] [dr_dlamini] [])
  /\ patients (mkdb [anna; ben] [dr_dlamini] []) = patients clinic.
Proof.
  split; [reflexivity |].
  apply (delete_doctor_cascades clinic _ "D001" _ eq_refl).
Defined.

(** ** The route guards and the users *)

Lemma is_admin_true (users : list User.t) (session : option Z) :
  is_admin users session = true <->
  exists user_id user,
    session = Some user_id
    /\ find (fun u => User.id u =? user_id) users = Some user
    /\ User.is_admin user = true.
Proof.
  unfold is_admin. destruct session as [user_id |].
  - destruct (find _ users) as [user |] eqn:Hfind.
    + split.
      * intro H. now exists user_id, user.
      * intros (i & u & [= <-] & Hu & Hflag). congruence.
    + split; [discriminate |]. intros (i & u & [= <-] & Hu & _). congruence.
  - split; [discriminate |]. intros (i & u & Hs & _). discriminate Hs.
Qed.

(** X12.  A request whose session does not belong to a stored user
    flagged as administrator cannot delete a patient, a doctor or a
    user: the guarded routes answer with a redirect to the login page
    (no session) or to the index with the message that admin access is
    required, and leave the tables as they are. *)
Theorem admin_required_blocks (users : list User.t) (session : option Z) :
  is_admin users session = false ->
  let refused (r : reply) :=
    r = Redirected "login" None
    \/ r = Redirected "index" (Some ("Admin access required", "error")) in
  (forall db key r db',
      route_delete_patient users session db key = Return (r, db') ->
      db' = db /\ refused r)
  /\ (forall db key r db',
        route_delete_doctor users session db key = Return (r, db') ->
        db' = db /\ refused r)
  /\ (forall key r users',
        route_delete_user session users key = Return (r, users') ->
        users' = users /\ refused r).
Proof.
  intros Hadmin refused. unfold refused.
  unfold route_delete_patient, route_delete_doctor, route_delete_user, admin_required.
  rewrite Hadmin. cbn [negb].
  repeat apply conj; intros; destruct session;
    match goal with H : Return _ = Return _ |- _ => injection H as <- <- end; auto.
Qed.

Lemma admin_required_blocks_plain_user :
  is_admin sample_users (Some 2)
  = false
  /\ forall key r db',
      route_delete_patient sample_users (Some 2) clinic key = Return (r, db') ->
      db' = clinic.
Proof.
  split; [reflexivity |].
  intros key r db' H.
  apply (proj1 (admin_required_blocks sample_users (Some 2) eq_refl) clinic key r db' H).
Defined.

Lemma NoDup_map_injective {A B : Type} (f : A -> B) (l : list A) (x y : A) :
  NoDup (map f l) -> In x l -> In y l -> f x = f y -> x = y.
Proof.
  induction l as [| a l IH]; cbn [map]; intros Hnd Hx Hy E; [destruct Hx |].
  inversion Hnd as [| ? ? Hnotin Hnd']; subst.
  destruct Hx as [<- | Hx], Hy as [<- | Hy].
  - reflexivity.
  - exfalso. apply Hnotin. rewrite E. now apply in_map.
  - exfalso. apply Hnotin. rewrite <- E. now apply in_map.
  - now apply IH.
Qed.

(** X13.  With user ids that are unique, [delete_user] never removes a
    user whose name is [admin]; it removes no user of another id and
    adds none. *)
Theorem delete_user_keeps_admin (users users' : list User.t) (user_id : Z) (r : reply) :
  NoDup (map User.id users) ->
  delete_user users user_id = Return (r, users') ->
  (forall u, In u users -> User.username u = "admin" -> In u users')
  /\ (forall u, In u users -> User.id u <> user_id -> In u users')
  /\ (forall u, In u users' -> In u users).
Proof.
  intros Hnd. unfold delete_user.
  destruct (find (fun u => User.id u =? user_id) users) as [user |] eqn:Hfind.
  - apply find_some in Hfind as [Hin Hid]. apply Z.eqb_eq in Hid.
    destruct (User.username user =? "admin")%string eqn:Hname; intros [= <- <-].
    + repeat split; trivial.
    + apply String.eqb_neq in Hname. repeat split.
      * intros u Hu Hadmin. apply filter_In. split; [exact Hu |].
        apply negb_true_iff, Z.eqb_neq. intro E.
        assert (u = user) by (eapply NoDup_map_injective; eauto).
        subst u. contradiction.
      * intros u Hu Hne. apply filter_In. split; [exact Hu |].
        apply negb_true_iff, Z.eqb_neq. congruence.
      * intros u Hu. now apply filter_In in Hu.
  - intros [= <- <-]. repeat split; trivial.
Qed.

Lemma delete_user_keeps_admin_example :
  NoDup (map User.id sample_users)
  /\ delete_user sample_users 1
     = Return (Redirected "users" (Some ("Cannot delete admin user", "error")),
               sample_users)
  /\ forall u,
      In u sample_users ->
      User.username u = "admin" ->
      In u sample_users.
Proof.
  assert (Hnd : NoDup (map User.id sample_users)).
  { cbn. repeat constructor; cbn; intuition discriminate. }
  split; [exact Hnd |]. split; [reflexivity |].
  apply (delete_user_keeps_admin _ _ 1 _ Hnd eq_refl).
Defined.

(** ** Accepted bookings *)

Lemma add_appointment_accepted_inv (today : Z) (db db' : database) (form : Form.t)
  (message : string) :
  add_appointment today db form = Return (RedirectAppointments message "success", db') ->
  exists duration appointment_id,
    passes_validation today db form duration
    /\ generate_id "A" (option_map Appointment.id (last_appointment db))
       = Return appointment_id
    /\ get_appointment db appointment_id = None
    /\ db' = mkdb (patients db) (doctors db)
               (appointments db
                ++ [Appointment.mk appointment_id (Form.date form) (Form.time form)
                      duration (Form.diagnosis form) (Form.patient_id form)
                      (Form.doctor_id form)])
    /\ message = "Appointment " ++ appointment_id ++ " booked successfully".
Proof.
  unfold add_appointment. intro H.
  destruct (py_int (Form.duration form)) as [duration |] eqn:Hdur;
    cbn [or_value_error bind] in H; [| discriminate H].
  destruct (get_patient db (Form.patient_id form)) eqn:Hp; [| discriminate H].
  destruct (get_doctor db (Form.doctor_id form)) eqn:Hd; [| discriminate H].
  destruct (strptime_ymd (Form.date form)) as [day |] eqn:Hday;
    cbn [or_value_error bind] in H; [| discriminate H].
  destruct (day <? today) eqn:Hpast; [discriminate H |].
  destruct (duration <=? 0) eqn:Hlo; [discriminate H |].
  destruct (duration >? 240) eqn:Hhi; [discriminate H |]. cbn [orb] in H.
  destruct (match_hh_mm (Form.time form)) eqn:Htime; [| discriminate H].
  cbn [negb] in H.
  destruct (is_doctor_available db _ _ _ duration None) as [[|] |] eqn:Hfree;
    cbn [bind negb] in H; try discriminate H.
  destruct (generate_id "A" _) as [appointment_id |] eqn:Hgen; cbn [bind] in H;
    [| discriminate H].
  unfold insert_appointment in H. cbn [Appointment.id] in H.
  destruct (get_appointment db appointment_id) eqn:Hfresh; cbn [bind] in H;
    [discriminate H |].
  injection H as <- <-.
  apply Z.ltb_ge in Hpast. apply Z.leb_gt in Hlo.
  rewrite Z.gtb_ltb in Hhi. apply Z.ltb_ge in Hhi.
  exists duration, appointment_id. unfold passes_validation.
  repeat apply conj; try congruence; try lia; try reflexivity.
  exists day. split; [exact Hday | exact Hpast].
Qed.

(** X14.  [add_appointment] answers with a success exactly when the
    duration is an integer, patient and doctor exist, the date is a date
    not before today, the duration lies between 1 and 240, the time has
    the form HH:MM, the doctor is available, the allocator returns an id
    and that id is not in use.  The table of appointments is then the
    former one with one row added at the end, which holds that id and the
    fields of the form; looking the id up gives the row, and every other
    id is looked up as before. *)
Theorem add_appointment_accepted_iff (today : Z) (db : database) (form : Form.t) :
  ((exists message db',
       add_appointment today db form
       = Return (RedirectAppointments message "success", db'))
   <-> (exists duration appointment_id,
          passes_validation today db form duration
          /\ generate_id "A" (option_map Appointment.id (last_appointment db))
             = Return appointment_id
          /\ get_appointment db appointment_id = None))
  /\ (forall message db',
        add_appointment today db form
        = Return (RedirectAppointments message "success", db') ->
        exists duration appointment_id,
          let row :=
            Appointment.mk appointment_id (Form.date form) (Form.time form) duration
              (Form.diagnosis form) (Form.patient_id form) (Form.doctor_id form) in
          1 <= duration <= 240
          /\ py_int (Form.duration form) = Some duration
          /\ patients db' = patients db
          /\ doctors db' = doctors db
          /\ appointments db' = (appointments db ++ [row])%list
          /\ get_appointment db' appointment_id = Some row
          /\ (forall other, other <> appointment_id ->
                            get_appointment db' other = get_appointment db other)).
Proof.
  split.
  - split.
    + intros (message & db' & H).
      apply add_appointment_accepted_inv in H
        as (duration & appointment_id & Hpass & Hgen & Hfresh & _).
      now exists duration, appointment_id.
    + intros (duration & appointment_id & Hpass & Hgen & Hfresh).
      rewrite (add_appointment_allocates _ _ _ _ Hpass), Hgen. cbn [bind].
      unfold insert_appointment. cbn [Appointment.id]. rewrite Hfresh. cbn [bind].
      eauto.
  - intros message db' H.
    apply add_appointment_accepted_inv in H
      as (duration & appointment_id & Hpass & Hgen & Hfresh & -> & _).
    exists duration, appointment_id. cbn zeta.
    destruct Hpass as (Hdur & _ & _ & _ & Hrange & _).
    repeat apply conj; trivial; try lia.
    + unfold get_appointment in *. cbn [appointments].
      apply find_app_fresh; [exact Hfresh | cbn [Appointment.id]; apply String.eqb_refl].
    + intros other Hother. unfold get_appointment. cbn [appointments].
      apply find_app_old. cbn [Appointment.id]. now apply eqb_neq_sym.
Qed.

Lemma add_appointment_at_half_past_nine :
  add_appointment a_tuesday clinic (Form.mk "2024-01-05" "09:30" "30" "flu" "P002" "D001")
  = Return (RedirectAppointments "Appointment A002 booked successfully" "success",
            mkdb [anna; ben] [dr_hamutenya; dr_dlamini]
              [A001; Appointment.mk "A002" "2024-01-05" "09:30" 30 "flu" "P002" "D001"])
  /\ exists duration appointment_id,
      1 <= duration <= 240
      /\ get_appointment
           (mkdb [anna; ben] [dr_hamutenya; dr_dlamini]
              [A001; Appointment.mk "A002" "2024-01-05" "09:30" 30 "flu" "P002" "D001"])
           appointment_id
         = Some (Appointment.mk appointment_id "2024-01-05" "09:30" duration "flu"
                   "P002" "D001").
Proof.
  split; [reflexivity |].
  destruct (proj2 (add_appointment_accepted_iff a_tuesday clinic
                     (Form.mk "2024-01-05" "09:30" "30" "flu" "P002" "D001"))
              _ _ eq_refl)
    as (duration & appointment_id & Hrange & _ & _ & _ & _ & Hget & _).
  now exists duration, appointment_id.
Defined.

(** ** Accepted reschedulings *)

Lemma update_appointment_rows (db : database) (key : string) (form : Form.t)
  (duration : Z) :
  appointments (update_appointment db key form duration)
  = map (fun a => if (Appointment.id a =? key)%string
                  then Appointment.mk key (Form.date form) (Form.time form) duration
                         (Form.diagnosis form) (Form.patient_id form)
                         (Form.doctor_id form)
                  else a)
        (appointments db).
Proof.
  unfold update_appointment. cbn [appointments]. apply map_ext. intro a.
  destruct (Appointment.id a =? key)%string eqn:E; [| reflexivity].
  apply String.eqb_eq in E. now rewrite E.
Qed.

Lemma edit_appointment_accepted_inv (today : Z) (db db' : database) (key : string)
  (form : Form.t) (message : string) :
  edit_appointment today db key form
  = Return (RedirectAppointments message "success", db') ->
  exists appt duration day,
    get_appointment db key = Some appt
    /\ py_int (Form.duration form) = Some duration
    /\ strptime_ymd (Form.date form) = Some day /\ today <= day
    /\ 1 <= duration <= 240
    /\ is_doctor_available db (Form.doctor_id form) (Form.date form) (Form.time form)
         duration (Some key) = Return true
    /\ is_patient_available db (Form.patient_id form) (Form.date form) (Form.time form)
         duration (Some key) = Return true
    /\ db' = update_appointment db key form duration.
Proof.
  unfold edit_appointment. intro H.
  destruct (get_appointment db key) as [appt |] eqn:Hget; [| discriminate H].
  destruct (py_int (Form.duration form)) as [duration |] eqn:Hdur;
    cbn [or_value_error bind] in H; [| discriminate H].
  destruct (strptime_ymd (Form.date form)) as [day |] eqn:Hday;
    cbn [or_value_error bind] in H; [| discriminate H].
  destruct (day <? today) eqn:Hpast; [discriminate H |].
  destruct (duration <=? 0) eqn:Hlo; [discriminate H |].
  destruct (duration >? 240) eqn:Hhi; [discriminate H |]. cbn [orb] in H.
  destruct (is_doctor_available db _ _ _ duration (Some key)) as [[|] |] eqn:Hdoc;
    cbn [bind negb] in H; try discriminate H.
  destruct (is_patient_available db _ _ _ duration (Some key)) as [[|] |] eqn:Hpat;
    cbn [bind negb] in H; try discriminate H.
  injection H as _ <-.
  apply Z.ltb_ge in Hpast. apply Z.leb_gt in Hlo.
  rewrite Z.gtb_ltb in Hhi. apply Z.ltb_ge in Hhi.
  exists appt, duration, day.
  repeat apply conj; trivial; lia.
Qed.

(** ** The allocator and the order of ids *)

Lemma digits_value_from_shift (s : string) :
  forall acc,
    digits_value_from acc s
    = acc * 10 ^ Z.of_nat (String.length s) + digits_value_from 0 s.
Proof.
  induction s as [| c s IH]; intro acc; cbn [digits_value_from String.length].
  - change (10 ^ Z.of_nat 0) with 1. lia.
  - rewrite IH, (IH (10 * 0 + digit_value c)).
    replace (Z.of_nat (S (String.length s))) with (Z.succ (Z.of_nat (String.length s)))
      by lia.
    rewrite Z.pow_succ_r by lia. ring.
Qed.

Lemma digits_value_bound (s : string) :
  all_digits s = true ->
  0 <= digits_value_from 0 s < 10 ^ Z.of_nat (String.length s).
Proof.
  induction s as [| c s IH]; cbn [all_digits digits_value_from String.length]; intro H.
  - change (10 ^ Z.of_nat 0) with 1. lia.
  - apply andb_true_iff in H as [Hc Hs]. specialize (IH Hs).
    pose proof (digit_value_range c Hc) as Hd.
    rewrite digits_value_from_shift.
    replace (Z.of_nat (S (String.length s))) with (Z.succ (Z.of_nat (String.length s)))
      by lia.
    rewrite Z.pow_succ_r by lia. nia.
Qed.

Lemma ascii_compare_digit_value (c d : ascii) :
  Ascii.compare c d = (digit_value c ?= digit_value d).
Proof.
  unfold Ascii.compare, digit_value.
  destruct (N.compare_spec (N_of_ascii c) (N_of_ascii d)) as [E | L | G]; symmetry.
  - apply Z.compare_eq_iff. now rewrite E.
  - apply Z.compare_lt_iff. lia.
  - apply Z.compare_gt_iff. lia.
Qed.

(** Numerals of the same length are ordered as the numbers they denote. *)
Lemma compare_numerals (s : string) :
  forall t,
    all_digits s = true -> all_digits t = true ->
    String.length s = String.length t ->
    String.compare s t = (digits_value_from 0 s ?= digits_value_from 0 t).
Proof.
  induction s as [| c s IH]; intros [| d t] Hs Ht Hlen; try discriminate Hlen.
  - reflexivity.
  - cbn [all_digits] in Hs, Ht.
    apply andb_true_iff in Hs as [Hc Hs]. apply andb_true_iff in Ht as [Hd Ht].
    cbn [String.length] in Hlen. injection Hlen as Hlen.
    cbn [String.compare digits_value_from].
    rewrite (digits_value_from_shift s), (digits_value_from_shift t), <- Hlen.
    rewrite ascii_compare_digit_value, (IH t Hs Ht Hlen).
    pose proof (digits_value_bound s Hs) as Bs.
    pose proof (digits_value_bound t Ht) as Bt. rewrite <- Hlen in Bt.
    set (P := 10 ^ Z.of_nat (String.length s)) in *.
    set (x := digit_value c). set (y := digit_value d).
    set (a := digits_value_from 0 s) in *. set (b := digits_value_from 0 t) in *.
    destruct (Z.compare_spec x y) as [E | L | G].
    + rewrite E. destruct (Z.compare_spec a b) as [E' | L' | G'];
        symmetry; [apply Z.compare_eq_iff | apply Z.compare_lt_iff | apply Z.compare_gt_iff];
        nia.
    + symmetry. apply Z.compare_lt_iff. nia.
    + symmetry. apply Z.compare_gt_iff. nia.
Qed.

Lemma ltb_short_ids (letter : ascii) (s t : string) :
  short_id letter s -> short_id letter t ->
  (s <? t)%string = (id_number s <? id_number t).
Proof.
  intros (ds & -> & Ls & Hs) (dt & -> & Lt & Ht).
  unfold String.ltb, id_number, digits_value, Z.ltb. cbn [String.compare drop_first].
  unfold Ascii.compare. rewrite N.compare_refl.
  rewrite (compare_numerals ds dt Hs Ht) by congruence. reflexivity.
Qed.

(** Among ids of the documented shape the row that [last_appointment]
    picks carries the greatest number. *)
Lemma last_appointment_greatest (rows : list Appointment.t) :
  forall best a,
    (forall x, In x rows -> short_id "A" (Appointment.id x)) ->
    (forall b, best = Some b -> short_id "A" (Appointment.id b)) ->
    fold_left
      (fun best a =>
         match best with
         | None => Some a
         | Some b => if (Appointment.id b <? Appointment.id a)%string then Some a else best
         end) rows best = Some a ->
    short_id "A" (Appointment.id a)
    /\ (forall b, best = Some b ->
                  id_number (Appointment.id b) <= id_number (Appointment.id a))
    /\ (forall x, In x rows ->
                  id_number (Appointment.id x) <= id_number (Appointment.id a)).
Proof.
  induction rows as [| x rows IH]; intros best a Hrows Hbest; cbn [fold_left].
  - intros ->. repeat split.
    + now apply Hbest.
    + intros b [= <-]. lia.
    + intros x [].
  - intro Hfold.
    assert (Hx : short_id "A" (Appointment.id x)) by (apply Hrows; now left).
    assert (Hrest : forall y, In y rows -> short_id "A" (Appointment.id y))
      by (intros y Hy; apply Hrows; now right).
    destruct best as [b |].
    + assert (Hb : short_id "A" (Appointment.id b)) by now apply Hbest.
      rewrite (ltb_short_ids _ _ _ Hb Hx) in Hfold.
      destruct (Z.ltb_spec (id_number (Appointment.id b)) (id_number (Appointment.id x)))
        as [Hlt | Hge].
      * destruct (IH (Some x) a Hrest) as (Ha & Hmax & Hall);
          [intros ? [= <-]; exact Hx | exact Hfold |].
        specialize (Hmax x eq_refl).
        repeat split; [exact Ha | intros ? [= <-]; lia |].
        intros y [<- | Hy]; [exact Hmax | now apply Hall].
      * destruct (IH (Some b) a Hrest) as (Ha & Hmax & Hall);
          [intros ? [= <-]; exact Hb | exact Hfold |].
        specialize (Hmax b eq_refl).
        repeat split; [exact Ha | intros ? [= <-]; lia |].
        intros y [<- | Hy]; [lia | now apply Hall].
    + destruct (IH (Some x) a Hrest) as (Ha & Hmax & Hall);
        [intros ? [= <-]; exact Hx | exact Hfold |].
      specialize (Hmax x eq_refl).
      repeat split; [exact Ha | discriminate |].
      intros y [<- | Hy]; [exact Hmax | now apply Hall].
Qed.

(** X17.  While every stored appointment id is the letter A followed by
    three digits, a booking that passes validation is always accepted:
    the id that the allocator returns is in use by no stored
    appointment, so that the insertion cannot fail. *)
Theorem add_appointment_never_collides (today : Z) (db : database) (form : Form.t)
  (duration : Z) :
  (forall x, In x (appointments db) -> short_id "A" (Appointment.id x)) ->
  passes_validation today db form duration ->
  exists appointment_id db',
    get_appointment db appointment_id = None
    /\ add_appointment today db form
       = Return (RedirectAppointments
                   ("Appointment " ++ appointment_id ++ " booked successfully")
                   "success", db').
Proof.
  intros Hshort Hpass.
  assert (Hgen : exists appointment_id,
             generate_id "A" (option_map Appointment.id (last_appointment db))
             = Return appointment_id
             /\ get_appointment db appointment_id = None).
  { unfold last_appointment.
    destruct (fold_left _ (appointments db) None) as [a |] eqn:Hlast.
    - assert (Hnone : forall b : Appointment.t,
                 None = Some b -> short_id "A" (Appointment.id b))
        by (intros b Hb; discriminate Hb).
      destruct (last_appointment_greatest _ _ _ Hshort Hnone Hlast)
        as ((ds & Ea & La & Da) & _ & Hall).
      cbn [option_map]. rewrite Ea.
      assert (Hnum : decimal_numeral ds = true).
      { unfold decimal_numeral. rewrite Da. destruct ds; [discriminate La | reflexivity]. }
      rewrite (generate_id_numeral "A" "A" ds Hnum).
      eexists. split; [reflexivity |].
      destruct (get_appointment db _) as [x |] eqn:Hx; [| reflexivity].
      exfalso. apply get_appointment_id in Hx as [Hid Hin].
      pose proof (Hall x Hin) as Hle.
      rewrite Ea in Hle. unfold id_number in Hle. cbn [drop_first] in Hle.
      rewrite Hid in Hle. cbn [append drop_first] in Hle.
      assert (Hn : 0 <= digits_value ds + 1)
        by (pose proof (digits_value_nonneg ds Da); lia).
      destruct (format_03d_spec _ Hn) as (_ & Hv & _).
      cbn zeta in Hv. lia.
    - cbn [option_map]. eexists. split; [reflexivity |].
      destruct (appointments db) as [| x rows] eqn:Erows.
      + unfold get_appointment. now rewrite Erows.
      + exfalso. cbn [fold_left] in Hlast.
        assert (Hsome : forall l b,
                   fold_left
                     (fun best a =>
                        match best with
                        | None => Some a
                        | Some b =>
                            if (Appointment.id b <? Appointment.id a)%string
                            then Some a else best
                        end) l (Some b) <> None).
        { induction l as [| y l IHl]; intro b; cbn [fold_left]; [discriminate |].
          destruct (Appointment.id b <? Appointment.id y)%string; apply IHl. }
        now apply (Hsome rows x). }
  destruct Hgen as (appointment_id & Hgen & Hfresh).
  rewrite (add_appointment_allocates _ _ _ _ Hpass), Hgen. cbn [bind].
  unfold insert_appointment. cbn [Appointment.id]. rewrite Hfresh. cbn [bind].
  eauto.
Qed.

Lemma add_appointment_never_collides_at_clinic :
  (forall x, In x (appointments clinic) -> short_id "A" (Appointment.id x))
  /\ passes_validation a_tuesday clinic
       (Form.mk "2024-01-05" "09:30" "30" "flu" "P002" "D001") 30
  /\ exists appointment_id db',
      get_appointment clinic appointment_id = None
      /\ add_appointment a_tuesday clinic
           (Form.mk "2024-01-05" "09:30" "30" "flu" "P002" "D001")
         = Return (RedirectAppointments
                     ("Appointment " ++ appointment_id ++ " booked successfully")
                     "success", db').
Proof.
  assert (Hshort : forall x, In x (appointments clinic) ->
                             short_id "A" (Appointment.id x)).
  { intros x [<- | []]. exists "001". repeat split. }
  assert (Hpass : passes_validation a_tuesday clinic
                    (Form.mk "2024-01-05" "09:30" "30" "flu" "P002" "D001") 30).
  { repeat apply conj; try reflexivity; try discriminate.
    exists 738890. split; [reflexivity | vm_compute; discriminate]. }
  split; [exact Hshort |]. split; [exact Hpass |].
  exact (add_appointment_never_collides a_tuesday clinic _ 30 Hshort Hpass).
Defined.

(** X18.  Once the greatest id in the order of strings is A999, the
    allocator answers A1000 for ever: the first booking stores A1000,
    after which A999 is still the greatest id (strings are compared, not
    numbers), and every later booking that passes validation raises
    [IntegrityError]. *)
Theorem ids_stop_at_A1000 (today : Z) (db : database) (form : Form.t) (duration : Z)
  (a : Appointment.t) :
  last_appointment db = Some a ->
  Appointment.id a = "A999" ->
  passes_validation today db form duration ->
  (get_appointment db "A1000" = None ->
   exists db',
     add_appointment today db form
     = Return (RedirectAppointments "Appointment A1000 booked successfully" "success",
               db')
     /\ get_appointment db' "A1000" <> None
     /\ option_map Appointment.id (last_appointment db') = Some "A999")
  /\ (get_appointment db "A1000" <> None ->
      add_appointment today db form = Raise IntegrityError).
Proof.
  intros Hlast Ha Hpass.
  rewrite (add_appointment_allocates _ _ _ _ Hpass), Hlast.
  cbn [option_map]. rewrite Ha.
  change (generate_id "A" (Some "A999")) with (@Return string "A1000").
  cbn [bind]. unfold insert_appointment. cbn [Appointment.id].
  split; intro Hfree.
  - rewrite Hfree. cbn [bind]. eexists. split; [reflexivity |]. split.
    + unfold get_appointment in *. cbn [appointments].
      rewrite (find_app_fresh _ _ _ Hfree); [discriminate | reflexivity].
    + unfold last_appointment in *. cbn [appointments].
      rewrite fold_left_app, Hlast. cbn [fold_left Appointment.id].
      rewrite Ha. cbn. now rewrite Ha.
  - destruct (get_appointment db "A1000"); [reflexivity | now contradiction Hfree].
Qed.

Lemma ids_stop_at_A1000_example :
  let db := mkdb [anna; ben] [dr_hamutenya; dr_dlamini]
              [Appointment.mk "A999" "2024-01-04" "09:00" 30 "" "P001" "D001";
               Appointment.mk "A1000" "2024-01-04" "10:00" 30 "" "P001" "D001"] in
  let form := Form.mk "2024-01-05" "09:30" "30" "flu" "P002" "D001" in
  last_appointment db
  = Some (Appointment.mk "A999" "2024-01-04" "09:00" 30 "" "P001" "D001")
  /\ passes_validation a_tuesday db form 30
  /\ add_appointment a_tuesday db form = Raise IntegrityError.
Proof.
  cbn zeta.
  assert (Hpass : passes_validation a_tuesday
                    (mkdb [anna; ben] [dr_hamutenya; dr_dlamini]
                       [Appointment.mk "A999" "2024-01-04" "09:00" 30 "" "P001" "D001";
                        Appointment.mk "A1000" "2024-01-04" "10:00" 30 "" "P001" "D001"])
                    (Form.mk "2024-01-05" "09:30" "30" "flu" "P002" "D001") 30).
  { repeat apply conj; try reflexivity; try discriminate.
    exists 738890. split; [reflexivity | vm_compute; discriminate]. }
  split; [reflexivity |]. split; [exact Hpass |].
  apply (ids_stop_at_A1000 a_tuesday
           (mkdb [anna; ben] [dr_hamutenya; dr_dlamini]
              [Appointment.mk "A999" "2024-01-04" "09:00" 30 "" "P001" "D001";
               Appointment.mk "A1000" "2024-01-04" "10:00" 30 "" "P001" "D001"])
           (Form.mk "2024-01-05" "09:30" "30" "flu" "P002" "D001") 30
           (Appointment.mk "A999" "2024-01-04" "09:00" 30 "" "P001" "D001")
           eq_refl eq_refl Hpass).
  discriminate.
Defined.

(** ** More on the availability check *)

Lemma no_overlap_contained (cs ce cs' ce' : Z) (exclude_appt_id : option string)
  (fetched : list Appointment.t) :
  cs <= cs' -> ce' <= ce ->
  no_overlap cs ce exclude_appt_id fetched = Return true ->
  no_overlap cs' ce' exclude_appt_id fetched = Return true.
Proof.
  intros Hs He. induction fetched as [| a rest IH]; cbn [no_overlap]; [trivial |].
  destruct (excluded exclude_appt_id a); [exact IH |].
  destruct (existing_interval a) as [[es ee] |]; cbn [bind]; [| discriminate].
  destruct ((cs <? ee) && (ce >? es)) eqn:Hout; [discriminate |].
  intro Hrest.
  assert (Hin : (cs' <? ee) && (ce' >? es) = false).
  { apply andb_false_iff in Hout. rewrite Z.gtb_ltb in *.
    apply andb_false_iff.
    destruct Hout as [H | H]; apply Z.ltb_ge in H; [left | right]; apply Z.ltb_ge; lia. }
  rewrite Hin. now apply IH.
Qed.

(** X19.  Availability is monotone: if a candidate is available for a
    doctor or a patient on a date, every candidate on that date whose
    interval lies within its interval is available too. *)
Theorem availability_of_contained_interval (db : database)
  (doctor_id patient_id appt_date time1 time2 : string) (duration1 duration2 : Z)
  (exclude_appt_id : option string) (outer inner : Z * Z) :
  candidate_interval appt_date time1 duration1 = Return outer ->
  candidate_interval appt_date time2 duration2 = Return inner ->
  fst outer <= fst inner -> snd inner <= snd outer ->
  (is_doctor_available db doctor_id appt_date time1 duration1 exclude_appt_id
   = Return true ->
   is_doctor_available db doctor_id appt_date time2 duration2 exclude_appt_id
   = Return true)
  /\ (is_patient_available db patient_id appt_date time1 duration1 exclude_appt_id
      = Return true ->
      is_patient_available db patient_id appt_date time2 duration2 exclude_appt_id
      = Return true).
Proof.
  intros Ho Hi Hs He. unfold is_doctor_available, is_patient_available.
  rewrite Ho, Hi. destruct outer as [cs ce], inner as [cs' ce'].
  cbn [bind fst snd] in *.
  split; now apply no_overlap_contained.
Qed.

Lemma availability_of_contained_interval_at_clinic :
  candidate_interval "2024-01-05" "09:30" 60 = Return (1064002170, 1064002230)
  /\ candidate_interval "2024-01-05" "09:45" 30 = Return (1064002185, 1064002215)
  /\ is_doctor_available clinic "D001" "2024-01-05" "09:30" 60 None = Return true
  /\ is_doctor_available clinic "D001" "2024-01-05" "09:45" 30 None = Return true.
Proof.
  split; [reflexivity |]. split; [reflexivity |]. split; [reflexivity |].
  apply (proj1 (availability_of_contained_interval clinic "D001" "P001" "2024-01-05"
                  "09:30" "09:45" 60 30 None (1064002170, 1064002230)
                  (1064002185, 1064002215) eq_refl eq_refl
                  ltac:(cbn; lia) ltac:(cbn; lia))).
  reflexivity.
Defined.

(** X20.  The checks see the rows of the date given, compared as text,
    and nothing else: a row of another doctor (for the doctor check), of
    another patient (for the patient check) or of another date does not
    change the answer, wherever it stands in the table and even if its
    interval overlaps the candidate, as an appointment that runs past
    midnight does. *)
Theorem availability_ignores_other_rows (ps : list Patient.t) (ds : list Doctor.t)
  (before after : list Appointment.t) (row : Appointment.t)
  (appt_date appt_time : string) (duration : Z) (exclude_appt_id : option string) :
  (forall doctor_id,
      Appointment.doctor_id row <> doctor_id \/ Appointment.date row <> appt_date ->
      is_doctor_available (mkdb ps ds (before ++ row :: after)) doctor_id appt_date
        appt_time duration exclude_appt_id
      = is_doctor_available (mkdb ps ds (before ++ after)) doctor_id appt_date
          appt_time duration exclude_appt_id)
  /\ (forall patient_id,
        Appointment.patient_id row <> patient_id \/ Appointment.date row <> appt_date ->
        is_patient_available (mkdb ps ds (before ++ row :: after)) patient_id appt_date
          appt_time duration exclude_appt_id
        = is_patient_available (mkdb ps ds (before ++ after)) patient_id appt_date
            appt_time duration exclude_appt_id).
Proof.
  split.
  - intros doctor_id Hother.
    unfold is_doctor_available, doctor_appointments_on. cbn [appointments].
    rewrite !filter_app. cbn [filter].
    replace ((Appointment.doctor_id row =? doctor_id)%string
             && (Appointment.date row =? appt_date)%string) with false; [reflexivity |].
    symmetry. apply andb_false_iff.
    destruct Hother as [H | H]; [left | right]; now apply String.eqb_neq.
  - intros patient_id Hother.
    unfold is_patient_available, patient_appointments_on, patient_rows_on.
    cbn [appointments].
    rewrite !filter_app. cbn [filter].
    replace ((Appointment.patient_id row =? patient_id)%string
             && (Appointment.date row =? appt_date)%string) with false; [reflexivity |].
    symmetry. apply andb_false_iff.
    destruct Hother as [H | H]; [left | right]; now apply String.eqb_neq.
Qed.

Lemma availability_ignores_past_midnight :
  let late := Appointment.mk "A002" "2024-01-04" "23:50" 30 "" "P002" "D001" in
  existing_interval late = Return (1064001590, 1064001620)
  /\ candidate_interval "2024-01-05" "00:00" 30 = Return (1064001600, 1064001630)
  /\ overlaps (1064001600, 1064001630) (1064001590, 1064001620)
  /\ is_doctor_available (mkdb [anna; ben] [dr_hamutenya; dr_dlamini] [A001; late])
       "D001" "2024-01-05" "00:00" 30 None
     = is_doctor_available clinic "D001" "2024-01-05" "00:00" 30 None.
Proof.
  cbn zeta. split; [reflexivity |]. split; [reflexivity |].
  split; [split; reflexivity |].
  apply (proj1 (availability_ignores_other_rows [anna; ben] [dr_hamutenya; dr_dlamini]
                  [A001] [] (Appointment.mk "A002" "2024-01-04" "23:50" 30 "" "P002" "D001")
                  "2024-01-05" "00:00" 30 None) "D001").
  right. discriminate.
Defined.

(** X21.  The advisory endpoint and the booking agree on the doctor:
    when [check_availability] reports the doctor unavailable for a date,
    time and duration, no booking with them is accepted; when it reports
    the doctor available, no booking with them is rejected for the
    doctor being unavailable. *)
Theorem check_availability_agrees_with_booking (today : Z) (db : database)
  (doctor_id : string) (patient_id : option string) (date_str time_str : string)
  (dur : Z) (doctor_available patient_available : bool) (form : Form.t) :
  check_availability db (Some doctor_id) patient_id (Some date_str) (Some time_str)
    (Some (PyInt dur))
  = Return (AvailabilityReply doctor_available patient_available) ->
  truthy doctor_id = true ->
  Form.doctor_id form = doctor_id ->
  Form.date form = date_str ->
  Form.time form = time_str ->
  py_int (Form.duration form) = Some dur ->
  (doctor_available = false ->
   forall db', ~ accepted db' (add_appointment today db form))
  /\ (doctor_available = true ->
      ~ rejected_with DoctorUnavailable db (add_appointment today db form)).
Proof.
  intros Hcheck Hdoc <- <- <- Hdur.
  unfold check_availability in Hcheck.
  destruct (negb (truthy (Form.date form)) || negb (truthy (Form.time form)));
    [discriminate Hcheck |].
  cbn [duration_or_default int_of] in Hcheck.
  injection Hcheck as Hd _. unfold doctor_ok in Hd. rewrite Hdoc in Hd.
  split.
  - intros -> db' (message & H).
    apply add_appointment_accepted_inv in H as (d & i & Hpass & _).
    destruct Hpass as (Hd' & _ & _ & _ & _ & _ & Hfree).
    assert (d = dur) by congruence. subst d.
    rewrite Hfree in Hd. discriminate Hd.
  - intros -> (message & H & Hr).
    unfold add_appointment in H. rewrite Hdur in H. cbn [or_value_error bind] in H.
    destruct (is_doctor_available db (Form.doctor_id form) (Form.date form)
                (Form.time form) dur None) as [[|] |] eqn:Hfree;
      cbn [unavailable_on_error] in Hd; try discriminate Hd.
    cbn [bind negb] in H.
    repeat handler_step H; try discriminate H;
      injection H as <-; vm_compute in Hr; discriminate Hr.
Qed.

Lemma check_availability_agrees_at_clinic :
  check_availability clinic (Some "D001") None (Some "2024-01-05") (Some "09:15")
    (Some (PyInt 30))
  = Return (AvailabilityReply false true)
  /\ forall db',
      ~ accepted db'
          (add_appointment a_tuesday clinic
             (Form.mk "2024-01-05" "09:15" "30" "flu" "P002" "D001")).
Proof.
  split; [reflexivity |].
  apply (proj1 (check_availability_agrees_with_booking a_tuesday clinic "D001" None
                  "2024-01-05" "09:15" 30 false true
                  (Form.mk "2024-01-05" "09:15" "30" "flu" "P002" "D001")
                  eq_refl eq_refl eq_refl eq_refl eq_refl eq_refl)).
  reflexivity.
Defined.

(** ** Invariants of the tables *)

Lemma find_app_some {A : Type} (f : A -> bool) (l : list A) (x y : A) :
  find f l = Some y -> find f (l ++ [x]) = Some y.
Proof.
  induction l as [| a l IH]; cbn [find app]; [discriminate |].
  now destruct (f a).
Qed.

Lemma references_kept (db db' : database) :
  (forall k, get_patient db k <> None -> get_patient db' k <> None) ->
  (forall k, get_doctor db k <> None -> get_doctor db' k <> None) ->
  (forall a, In a (appointments db') ->
             In a (appointments db)
             \/ (get_patient db' (Appointment.patient_id a) <> None
                 /\ get_doctor db' (Appointment.doctor_id a) <> None)) ->
  references_exist db -> references_exist db'.
Proof.
  intros Hp Hd Hrows Href a Ha.
  destruct (Hrows a Ha) as [Hold | Hnew]; [| exact Hnew].
  destruct (Href a Hold). split; [now apply Hp | now apply Hd].
Qed.

Lemma add_patient_result (today : Z) (db db' : database) (form : PatientForm.t)
  (r : reply) :
  add_patient today db form = Return (r, db') ->
  db' = db
  \/ exists row, db' = mkdb (patients db ++ [row]) (doctors db) (appointments db).
Proof.
  unfold add_patient. intro H.
  repeat handler_step H; injection H as _ <-; try (now left).
  right. unfold insert_patient in *.
  match goal with
  | E : match ?g with _ => _ end = Return _ |- _ =>
      destruct g; [discriminate E | injection E as <-]
  end.
  eauto.
Qed.

Lemma add_doctor_result (db db' : database) (form : DoctorForm.t) (r : reply) :
  add_doctor db form = Return (r, db') ->
  db' = db
  \/ exists row, db' = mkdb (patients db) (doctors db ++ [row]) (appointments db).
Proof.
  unfold add_doctor. intro H.
  repeat handler_step H; injection H as _ <-; try (now left).
  right. unfold insert_doctor in *.
  match goal with
  | E : match ?g with _ => _ end = Return _ |- _ =>
      destruct g; [discriminate E | injection E as <-]
  end.
  eauto.
Qed.

Lemma edit_patient_result (today : Z) (db db' : database) (key : string)
  (form : PatientForm.t) (r : reply) :
  edit_patient today db key form = Return (r, db') ->
  db' = db
  \/ exists patient updated,
      get_patient db key = Some patient
      /\ Patient.id updated = Patient.id patient
      /\ db' = mkdb (map (fun p => if (Patient.id p =? Patient.id patient)%string
                                   then updated else p) (patients db))
                 (doctors db) (appointments db).
Proof.
  unfold edit_patient. intro H.
  destruct (get_patient db key) as [patient |] eqn:Hget;
    [| injection H as _ <-; now left].
  repeat handler_step H; injection H as _ <-; [now left | now left |].
  right. eexists patient, _. split; [reflexivity |]. split; [| reflexivity]. reflexivity.
Qed.

Lemma edit_doctor_result (db db' : database) (key : string) (form : DoctorForm.t)
  (r : reply) :
  edit_doctor db key form = Return (r, db') ->
  db' = db
  \/ exists doctor updated,
      get_doctor db key = Some doctor
      /\ Doctor.id updated = Doctor.id doctor
      /\ db' = mkdb (patients db)
                 (map (fun d => if (Doctor.id d =? Doctor.id doctor)%string
                                then updated else d) (doctors db))
                 (appointments db).
Proof.
  unfold edit_doctor. intro H.
  destruct (get_doctor db key) as [doctor |] eqn:Hget;
    [| injection H as _ <-; now left].
  repeat handler_step H; injection H as _ <-; [now left |].
  right. eexists doctor, _. split; [reflexivity |]. split; [| reflexivity]. reflexivity.
Qed.

(** Replacing rows by a row of the same key keeps every key found. *)
Lemma find_map_same_key {A : Type} (key : A -> string) (k old_key : string)
  (updated : A) (l : list A) :
  key updated = old_key ->
  find (fun a => (key a =? k)%string) l <> None ->
  find (fun a => (key a =? k)%string)
       (map (fun a => if (key a =? old_key)%string then updated else a) l) <> None.
Proof.
  intro Hkey. induction l as [| a l IH]; cbn [find map]; [trivial |].
  destruct (key a =? k)%string eqn:Hak.
  - intros _. destruct (key a =? old_key)%string eqn:Hao.
    + apply String.eqb_eq in Hak, Hao.
      replace (key updated =? k)%string with true; [discriminate |].
      symmetry. apply String.eqb_eq. congruence.
    + rewrite Hak. discriminate.
  - intro H. specialize (IH H).
    destruct (key a =? old_key)%string.
    + destruct (key updated =? k)%string; [discriminate | exact IH].
    + rewrite Hak. exact IH.
Qed.

(** X22.  Booking, deleting an appointment, and adding or editing a
    patient or a doctor keep the references of the appointments intact:
    if every appointment referred to a stored patient and a stored
    doctor before the request, it does so after it, whatever the
    answer. *)
Theorem handlers_keep_references (db : database) :
  references_exist db ->
  (forall today form r db',
      add_appointment today db form = Return (r, db') -> references_exist db')
  /\ (forall key r db',
        delete_appointment db key = Return (r, db') -> references_exist db')
  /\ (forall today form r db',
        add_patient today db form = Return (r, db') -> references_exist db')
  /\ (forall form r db',
        add_doctor db form = Return (r, db') -> references_exist db')
  /\ (forall today key form r db',
        edit_patient today db key form = Return (r, db') -> references_exist db')
  /\ (forall key form r db',
        edit_doctor db key form = Return (r, db') -> references_exist db').
Proof.
  intro Href. repeat apply conj.
  - intros today form r db' H.
    pose proof H as H0.
    apply add_appointment_inv in H0 as [(m & E) | (d & i & db'' & _ & _ & _ & E)];
      injection E as -> ->; [exact Href |].
    apply add_appointment_accepted_inv in H
      as (d' & i' & Hpass & _ & _ & -> & _).
    destruct Hpass as (_ & Hp & Hd & _).
    apply (references_kept db); trivial.
    intros a Ha. cbn [appointments] in Ha.
    apply in_app_or in Ha as [Ha | [<- | []]]; [now left | right].
    now split.
  - intros key r db' H. apply delete_appointment_table in H. subst db'.
    apply (references_kept db); trivial.
    intros a Ha. cbn [appointments] in Ha. apply filter_In in Ha. now left.
  - intros today form r db' H.
    apply add_patient_result in H as [-> | (row & ->)]; [exact Href |].
    apply (references_kept db); trivial; [| now left].
    intros k Hk. unfold get_patient in *. cbn [patients].
    destruct (find _ (patients db)) as [y |] eqn:Hy; [| contradiction].
    now rewrite (find_app_some _ _ row y Hy).
  - intros form r db' H.
    apply add_doctor_result in H as [-> | (row & ->)]; [exact Href |].
    apply (references_kept db); trivial; [| now left].
    intros k Hk. unfold get_doctor in *. cbn [doctors].
    destruct (find _ (doctors db)) as [y |] eqn:Hy; [| contradiction].
    now rewrite (find_app_some _ _ row y Hy).
  - intros today key form r db' H.
    apply edit_patient_result in H as [-> | (patient & updated & _ & Hid & ->)];
      [exact Href |].
    apply (references_kept db); trivial; [| now left].
    intros k Hk. unfold get_patient in *. cbn [patients].
    now apply find_map_same_key.
  - intros key form r db' H.
    apply edit_doctor_result in H as [-> | (doctor & updated & _ & Hid & ->)];
      [exact Href |].
    apply (references_kept db); trivial; [| now left].
    intros k Hk. unfold get_doctor in *. cbn [doctors].
    now apply find_map_same_key.
Qed.

Lemma clinic_references_exist : references_exist clinic.
Proof.
  intros a [<- | []]. split; discriminate.
Qed.

Lemma handlers_keep_references_at_clinic :
  references_exist clinic
  /\ forall key r db',
      delete_appointment clinic key = Return (r, db') -> references_exist db'.
Proof.
  split; [exact clinic_references_exist |].
  apply (handlers_keep_references clinic clinic_references_exist).
Defined.

(** Removing rows keeps the ids of the appointments different. *)
Lemma unique_ids_after_filter (keep : Appointment.t -> bool) (rows : list Appointment.t) :
  NoDup (map Appointment.id rows) ->
  NoDup (map Appointment.id (filter keep rows)).
Proof.
  induction rows as [| row rows IH]; cbn [map filter]; [trivial |].
  intro Hnd. apply NoDup_cons_iff in Hnd as [Hfresh Hnd].
  destruct (keep row); cbn [map]; [| now apply IH].
  apply NoDup_cons; [| now apply IH].
  rewrite in_map_iff. intros (other & Hid & Hother).
  apply filter_In in Hother as [Hother _].
  apply Hfresh. rewrite <- Hid. now apply in_map.
Qed.

Lemma validate_phone_number_examples :
  validate_phone_number "812345678" = true
  /\ (7 <= count_digits "+264 81 234 5678" <= 15)%nat.
Proof.
  split.
  - apply (proj2 (proj1 (validate_phone_number_iff "812345678"))). cbn. lia.
  - apply (proj1 (proj1 (validate_phone_number_iff "+264 81 234 5678"))). reflexivity.
Defined.

Lemma edit_patient_accepts_at_clinic :
  exists endpoint message db',
    edit_patient a_tuesday clinic "P002"
      (PatientForm.mk "Ben" "Moyo" "1984-11-02" "Male" "ben@example.org" "no code"
         "077-123-4567")
    = Return (Redirected endpoint (Some (message, "success")), db').
Proof.
  apply (proj2 (edit_patient_accepts_iff a_tuesday clinic "P002"
                  (PatientForm.mk "Ben" "Moyo" "1984-11-02" "Male" "ben@example.org"
                     "no code" "077-123-4567"))).
  split; [discriminate |]. split; [cbn; lia |].
  exists 724582. split; [reflexivity | vm_compute; discriminate].
Defined.

(** ** The lists of a patient and of a doctor *)

Lemma comes_before_total (a b : Appointment.t) :
  comes_before a b = false -> comes_before b a = true.
Proof.
  unfold comes_before, String.leb.
  rewrite (String.compare_antisym (Appointment.date a) (Appointment.date b)).
  rewrite (String.compare_antisym (Appointment.time a) (Appointment.time b)).
  destruct (String.compare (Appointment.date b) (Appointment.date a));
    destruct (String.compare (Appointment.time b) (Appointment.time a));
    cbn; congruence.
Qed.

Lemma insert_row_perm (a : Appointment.t) (l : list Appointment.t) :
  Permutation (a :: l) (insert_row a l).
Proof.
  induction l as [| b l IH]; cbn [insert_row]; [reflexivity |].
  destruct (comes_before a b); [reflexivity |].
  rewrite perm_swap. now constructor.
Qed.

Lemma newest_first_perm (l : list Appointment.t) : Permutation l (newest_first l).
Proof.
  induction l as [| a l IH]; cbn [newest_first fold_right]; [reflexivity |].
  rewrite <- insert_row_perm. now constructor.
Qed.

Lemma insert_row_sorted (a : Appointment.t) (l : list Appointment.t) :
  Sorted (fun x y => comes_before x y = true) l ->
  Sorted (fun x y => comes_before x y = true) (insert_row a l).
Proof.
  induction l as [| b l IH]; cbn [insert_row]; intro Hs.
  - repeat constructor.
  - destruct (comes_before a b) eqn:Hab.
    + constructor; [exact Hs | now constructor].
    + apply Sorted_inv in Hs as [Hs Hhd]. constructor; [now apply IH |].
      destruct l as [| c l]; cbn [insert_row].
      * constructor. now apply comes_before_total.
      * destruct (comes_before a c); constructor.
        -- now apply comes_before_total.
        -- now apply HdRel_inv in Hhd.
Qed.

Lemma newest_first_sorted (l : list Appointment.t) :
  Sorted (fun x y => comes_before x y = true) (newest_first l).
Proof.
  induction l as [| a l IH]; cbn [newest_first fold_right]; [constructor |].
  now apply insert_row_sorted.
Qed.

Lemma ltb_not_leb (s t : string) : (s <? t)%string = negb (t <=? s)%string.
Proof.
  unfold String.ltb, String.leb. rewrite (String.compare_antisym s t).
  now destruct (String.compare t s).
Qed.

Lemma filter_split_perm {A : Type} (p q : A -> bool) (l : list A) :
  Permutation (filter (fun a => p a && q a) l ++ filter (fun a => p a && negb (q a)) l)
    (filter p l).
Proof.
  induction l as [| a l IH]; cbn [filter]; [reflexivity |].
  destruct (p a), (q a); cbn [andb negb app]; trivial.
  - now constructor.
  - rewrite <- Permutation_middle. now constructor.
Qed.

(** The lists that both pages show. *)
Lemma appointment_lists_spec (today : string) (mine : Appointment.t -> bool)
  (rows : list Appointment.t) :
  let lists := appointment_lists today mine rows in
  (forall a, In a (all_appointments lists) <-> In a rows /\ mine a = true)
  /\ (forall a, In a (upcoming_appointments lists)
                <-> In a rows /\ mine a = true
                    /\ (today <=? Appointment.date a)%string = true)
  /\ (forall a, In a (past_appointments lists)
                <-> In a rows /\ mine a = true
                    /\ (Appointment.date a <? today)%string = true)
  /\ Permutation (upcoming_appointments lists ++ past_appointments lists)
       (all_appointments lists)
  /\ Sorted (fun x y => comes_before x y = true) (all_appointments lists)
  /\ Sorted (fun x y => comes_before x y = true) (upcoming_appointments lists)
  /\ Sorted (fun x y => comes_before x y = true) (past_appointments lists).
Proof.
  cbn zeta. unfold appointment_lists.
  cbn [all_appointments upcoming_appointments past_appointments].
  repeat apply conj; try apply newest_first_sorted.
  - intro a. rewrite <- (Permutation_in' eq_refl (newest_first_perm _)).
    apply filter_In.
  - intro a. rewrite <- (Permutation_in' eq_refl (newest_first_perm _)).
    rewrite filter_In, andb_true_iff. reflexivity.
  - intro a. rewrite <- (Permutation_in' eq_refl (newest_first_perm _)).
    rewrite filter_In, andb_true_iff. reflexivity.
  - rewrite <- !newest_first_perm.
    erewrite (filter_ext (fun a => mine a && (Appointment.date a <? today)%string));
      [apply (filter_split_perm mine (fun a => (today <=? Appointment.date a)%string)) |].
    intro a. now rewrite ltb_not_leb.
Qed.

(** X24.  The pages of a patient and of a doctor list, for an id that
    exists, all the appointments of that id, split into the upcoming
    ones (date not before today, as text) and the past ones (date before
    today, as text): each appointment of the id is in exactly one of the
    two, and each list is ordered by date and then time, newest first.
    For an id that does not exist they answer with a redirect. *)
Theorem view_lists_partition (today : string) (db : database) (key : string) :
  (get_patient db key = None ->
   view_patient today db key
   = inl (Redirected "patients" (Some ("Patient not found", "error"))))
  /\ (get_doctor db key = None ->
      view_doctor today db key
      = inl (Redirected "doctors" (Some ("Doctor not found", "error"))))
  /\ (forall lists,
        view_patient today db key = inr lists \/ view_doctor today db key = inr lists ->
        (forall a, In a (all_appointments lists) ->
                   In a (appointments db)
                   /\ (In a (upcoming_appointments lists)
                       <-> ~ In a (past_appointments lists)))
        /\ (forall a, In a (upcoming_appointments lists)
                      <-> In a (all_appointments lists)
                          /\ (today <=? Appointment.date a)%string = true)
        /\ (forall a, In a (past_appointments lists)
                      <-> In a (all_appointments lists)
                          /\ (Appointment.date a <? today)%string = true)
        /\ Permutation (upcoming_appointments lists ++ past_appointments lists)
             (all_appointments lists)
        /\ Sorted (fun x y => comes_before x y = true) (all_appointments lists)
        /\ Sorted (fun x y => comes_before x y = true) (upcoming_appointments lists)
        /\ Sorted (fun x y => comes_before x y = true) (past_appointments lists))
  /\ (forall lists a,
        view_patient today db key = inr lists ->
        In a (all_appointments lists)
        <-> In a (appointments db) /\ Appointment.patient_id a = key)
  /\ (forall lists a,
        view_doctor today db key = inr lists ->
        In a (all_appointments lists)
        <-> In a (appointments db) /\ Appointment.doctor_id a = key).
Proof.
  repeat apply conj.
  - intro H. unfold view_patient. now rewrite H.
  - intro H. unfold view_doctor. now rewrite H.
  - intros lists Hview.
    assert (Hlists : exists mine, lists = appointment_lists today mine (appointments db)).
    { destruct Hview as [H | H]; [unfold view_patient in H | unfold view_doctor in H].
      - destruct (get_patient db key); [| discriminate H].
        injection H as <-. eauto.
      - destruct (get_doctor db key); [| discriminate H].
        injection H as <-. eauto. }
    destruct Hlists as (mine & ->).
    destruct (appointment_lists_spec today mine (appointments db))
      as (Hall & Hup & Hpast & Hperm & Hs1 & Hs2 & Hs3).
    repeat apply conj; trivial.
    + intros a Ha. apply Hall in Ha as [Hin Hmine]. split; [exact Hin |].
      rewrite Hup, Hpast, ltb_not_leb.
      destruct (today <=? Appointment.date a)%string; cbn [negb]; intuition congruence.
    + intro a. rewrite Hup, Hall. tauto.
    + intro a. rewrite Hpast, Hall. tauto.
  - intros lists a H. unfold view_patient in H.
    destruct (get_patient db key); [| discriminate H]. injection H as <-.
    destruct (appointment_lists_spec today
                (fun a => (Appointment.patient_id a =? key)%string) (appointments db))
      as (Hall & _).
    rewrite Hall, String.eqb_eq. reflexivity.
  - intros lists a H. unfold view_doctor in H.
    destruct (get_doctor db key); [| discriminate H]. injection H as <-.
    destruct (appointment_lists_spec today
                (fun a => (Appointment.doctor_id a =? key)%string) (appointments db))
      as (Hall & _).
    rewrite Hall, String.eqb_eq. reflexivity.
Qed.

Lemma view_patient_at_clinic :
  view_patient "2024-01-02" clinic "P001" = inr (mk_listing [A001] [A001] [])
  /\ (In A001 (all_appointments (mk_listing [A001] [A001] []))
      <-> In A001 (appointments clinic) /\ Appointment.patient_id A001 = "P001").
Proof.
  split; [reflexivity |].
  apply (proj1 (proj2 (proj2 (proj2 (view_lists_partition "2024-01-02" clinic "P001"))))).
  reflexivity.
Defined.

(** ** Dates as text and dates as days *)

Lemma re_Y_digits (y1 y2 y3 y4 : ascii) (rest : string) :
  is_digit y1 = true -> is_digit y2 = true ->
  is_digit y3 = true -> is_digit y4 = true ->
  re_Y (String y1 (String y2 (String y3 (String y4 rest))))
  = [(100 * (10 * digit_value y1 + digit_value y2)
      + (10 * digit_value y3 + digit_value y4), rest)].
Proof.
  intros H1 H2 H3 H4. unfold re_Y, two, mbind, one, mret.
  cbn [flat_map app]. rewrite H1. cbn [flat_map app]. rewrite H2.
  cbn [flat_map app]. rewrite H3. cbn [flat_map app]. rewrite H4.
  reflexivity.
Qed.

(** The month of two digits, followed by the hyphen. *)
Lemma re_m_two_digits {B : Type} (k : Z -> matcher B) (m1 m2 : ascii) (rest : string) :
  is_digit m1 = true -> is_digit m2 = true ->
  mbind re_m (fun m => mbind (lit "-") (fun _ => k m))
    (String m1 (String m2 (String "-" rest)))
  = if (1 <=? 10 * digit_value m1 + digit_value m2)
       && (10 * digit_value m1 + digit_value m2 <=? 12)
    then k (10 * digit_value m1 + digit_value m2) rest
    else [].
Proof.
  intros H1 H2. apply is_digit_cases in H1, H2. cbn [In] in H1, H2.
  repeat (destruct H1 as [<- | H1]; [| try contradiction]);
    repeat (destruct H2 as [<- | H2]; [| try contradiction]);
    cbn; rewrite ?app_nil_r; reflexivity.
Qed.

(** The day of two digits at the end of the text. *)
Lemma re_d_two_digits {B : Type} (f : Z -> B) (d1 d2 : ascii) :
  is_digit d1 = true -> is_digit d2 = true ->
  hd_error (mbind re_d (fun d => mret (f d)) (String d1 (String d2 "")))
  = if (1 <=? 10 * digit_value d1 + digit_value d2)
       && (10 * digit_value d1 + digit_value d2 <=? 31)
    then Some (f (10 * digit_value d1 + digit_value d2), "")
    else if 1 <=? digit_value d1 then Some (f (digit_value d1), String d2 "")
    else None.
Proof.
  intros H1 H2. apply is_digit_cases in H1, H2. cbn [In] in H1, H2.
  repeat (destruct H1 as [<- | H1]; [| try contradiction]);
    repeat (destruct H2 as [<- | H2]; [| try contradiction]);
    reflexivity.
Qed.

(** The numbers that a date in canonical form writes. *)
Lemma strptime_ymd_canonical (y1 y2 y3 y4 m1 m2 d1 d2 : ascii) :
  is_digit y1 = true -> is_digit y2 = true ->
  is_digit y3 = true -> is_digit y4 = true ->
  is_digit m1 = true -> is_digit m2 = true ->
  is_digit d1 = true -> is_digit d2 = true ->
  strptime_ymd
    (String y1 (String y2 (String y3 (String y4 (String "-"
      (String m1 (String m2 (String "-" (String d1 (String d2 ""))))))))))
  = date_of (100 * (10 * digit_value y1 + digit_value y2)
             + (10 * digit_value y3 + digit_value y4))
            (10 * digit_value m1 + digit_value m2)
            (10 * digit_value d1 + digit_value d2).
Proof.
  intros Hy1 Hy2 Hy3 Hy4 Hm1 Hm2 Hd1 Hd2.
  unfold strptime_ymd, first_match.
  set (Y := 100 * (10 * digit_value y1 + digit_value y2)
            + (10 * digit_value y3 + digit_value y4)).
  set (M := 10 * digit_value m1 + digit_value m2).
  set (D := 10 * digit_value d1 + digit_value d2).
  unfold mbind at 1. rewrite (re_Y_digits y1 y2 y3 y4 _ Hy1 Hy2 Hy3 Hy4).
  fold Y. cbn [flat_map]. rewrite app_nil_r.
  unfold mbind at 1. cbn [lit Ascii.eqb Bool.eqb flat_map]. rewrite app_nil_r.
  rewrite (re_m_two_digits (fun m => mbind re_d (fun d => mret (Y, m, d))) m1 m2 _ Hm1 Hm2).
  fold M.
  destruct ((1 <=? M) && (M <=? 12)) eqn:HM.
  - rewrite (re_d_two_digits (fun d => (Y, M, d)) d1 d2 Hd1 Hd2). fold D.
    destruct ((1 <=? D) && (D <=? 31)) eqn:HD; [reflexivity |].
    assert (Hnone : date_of Y M D = None).
    { unfold date_of.
      assert (Hdim : days_in_month Y M <= 31)
        by (unfold days_in_month; repeat match goal with
                                         | |- context [if ?b then _ else _] => destruct b
                                         end; lia).
      apply andb_false_iff in HD.
      destruct HD as [HD | HD];
        [apply Z.leb_gt in HD | apply Z.leb_gt in HD];
        match goal with
        | |- (if ?c then _ else _) = None =>
            replace c with false; [reflexivity |]
        end; symmetry; rewrite !andb_false_iff, !Z.leb_gt; lia. }
    rewrite Hnone. now destruct (1 <=? digit_value d1).
  - cbn [hd_error]. unfold date_of.
    apply andb_false_iff in HM.
    match goal with
    | |- None = (if ?c then _ else _) => replace c with false; [reflexivity |]
    end.
    symmetry. rewrite !andb_false_iff, !Z.leb_gt.
    destruct HM as [HM | HM]; apply Z.leb_gt in HM; lia.
Qed.

Lemma days_before_year_succ (y : Z) :
  days_before_year (y + 1) = days_before_year y + 365 + (if is_leap y then 1 else 0).
Proof.
  unfold days_before_year, is_leap. replace (y + 1 - 1) with y by lia.
  destruct (Z.eqb_spec (y mod 4) 0), (Z.eqb_spec (y mod 100) 0),
    (Z.eqb_spec (y mod 400) 0); cbn [andb orb negb];
    Z.div_mod_to_equations; lia.
Qed.

Lemma days_before_year_mono (y y' : Z) :
  y <= y' -> days_before_year y <= days_before_year y'.
Proof.
  intro H. unfold days_before_year. Z.div_mod_to_equations. lia.
Qed.

Lemma month_cases (m : Z) :
  1 <= m <= 12 ->
  m = 1 \/ m = 2 \/ m = 3 \/ m = 4 \/ m = 5 \/ m = 6 \/ m = 7 \/ m = 8 \/ m = 9
  \/ m = 10 \/ m = 11 \/ m = 12.
Proof. lia. Qed.

(** Unfolds the table of the months for a month that is a numeral. *)
Ltac month_table y :=
  unfold days_before_month;
  repeat match goal with
         | |- context [Z.to_nat ?e] =>
             let v := eval vm_compute in (Z.to_nat e) in
             change (Z.to_nat e) with v
         end;
  cbn [days_before_month_aux]; unfold days_in_month;
  destruct (is_leap y); cbn -[Z.add]; lia.

(** The days of a year before a month, and with that month. *)
Lemma days_before_month_bounds (y m : Z) :
  1 <= m <= 12 ->
  0 <= days_before_month y m
  /\ days_before_month y m + days_in_month y m
     <= 365 + (if is_leap y then 1 else 0).
Proof.
  intro H. apply month_cases in H.
  repeat (destruct H as [-> | H]); try subst m; month_table y.
Qed.

Lemma days_before_month_mono (y m m' : Z) :
  1 <= m -> m < m' -> m' <= 12 ->
  days_before_month y m + days_in_month y m <= days_before_month y m'.
Proof.
  intros H1 Hlt H2.
  assert (Hm : 1 <= m <= 12) by lia. assert (Hm' : 1 <= m' <= 12) by lia.
  apply month_cases in Hm, Hm'.
  repeat (destruct Hm as [-> | Hm]); try subst m;
    repeat (destruct Hm' as [-> | Hm']); try subst m'; try lia;
    month_table y.
Qed.

Lemma date_of_inv (y m d o : Z) :
  date_of y m d = Some o ->
  1 <= y <= 9999 /\ 1 <= m <= 12 /\ 1 <= d <= days_in_month y m /\ o = ymd2ord y m d.
Proof.
  unfold date_of.
  destruct ((1 <=? y) && (y <=? 9999) && (1 <=? m) && (m <=? 12) && (1 <=? d)
            && (d <=? days_in_month y m)) eqn:E; [| discriminate].
  intros [= <-]. rewrite !andb_true_iff, !Z.leb_le in E. repeat split; lia.
Qed.

(** Valid dates are ordered as their days are. *)
Lemma date_of_order (y m d o y' m' d' o' : Z) :
  date_of y m d = Some o -> date_of y' m' d' = Some o' ->
  match y ?= y' with
  | Eq => match m ?= m' with
          | Eq => d ?= d'
          | r => r
          end
  | r => r
  end = (o ?= o').
Proof.
  intros H H'.
  apply date_of_inv in H as (Hy & Hm & Hd & ->).
  apply date_of_inv in H' as (Hy' & Hm' & Hd' & ->).
  unfold ymd2ord.
  pose proof (days_before_month_bounds y m Hm) as [B0 B1].
  pose proof (days_before_month_bounds y' m' Hm') as [B0' B1'].
  destruct (Z.compare_spec y y') as [-> | Hlt | Hgt].
  - destruct (Z.compare_spec m m') as [-> | Hmlt | Hmgt].
    + destruct (Z.compare_spec d d') as [-> | Hdlt | Hdgt]; symmetry.
      * apply Z.compare_eq_iff. reflexivity.
      * apply Z.compare_lt_iff. lia.
      * apply Z.compare_gt_iff. lia.
    + symmetry. apply Z.compare_lt_iff.
      pose proof (days_before_month_mono y' m m' ltac:(lia) Hmlt ltac:(lia)). lia.
    + symmetry. apply Z.compare_gt_iff.
      pose proof (days_before_month_mono y' m' m ltac:(lia) Hmgt ltac:(lia)). lia.
  - symmetry. apply Z.compare_lt_iff.
    pose proof (days_before_year_succ y).
    pose proof (days_before_year_mono (y + 1) y' ltac:(lia)). lia.
  - symmetry. apply Z.compare_gt_iff.
    pose proof (days_before_year_succ y').
    pose proof (days_before_year_mono (y' + 1) y ltac:(lia)). lia.
Qed.

Lemma compare_app_same_length (a a' s s' : string) :
  String.length a = String.length a' ->
  String.compare (a ++ s) (a' ++ s')
  = match String.compare a a' with
    | Eq => String.compare s s'
    | r => r
    end.
Proof.
  revert a'. induction a as [| c a IH]; intros [| c' a'] Hlen; try discriminate Hlen.
  - reflexivity.
  - cbn [append String.compare]. injection Hlen as Hlen.
    destruct (Ascii.compare c c'); [now apply IH | reflexivity | reflexivity].
Qed.

Lemma compare_two_digits (a1 a2 b1 b2 : ascii) :
  is_digit a1 = true -> is_digit a2 = true ->
  is_digit b1 = true -> is_digit b2 = true ->
  String.compare (String a1 (String a2 "")) (String b1 (String b2 ""))
  = (10 * digit_value a1 + digit_value a2 ?= 10 * digit_value b1 + digit_value b2).
Proof.
  intros Ha1 Ha2 Hb1 Hb2.
  rewrite compare_numerals; cbn [all_digits String.length digits_value_from];
    rewrite ?Ha1, ?Ha2, ?Hb1, ?Hb2; reflexivity.
Qed.

Lemma compare_four_digits (a1 a2 a3 a4 b1 b2 b3 b4 : ascii) :
  is_digit a1 = true -> is_digit a2 = true -> is_digit a3 = true -> is_digit a4 = true ->
  is_digit b1 = true -> is_digit b2 = true -> is_digit b3 = true -> is_digit b4 = true ->
  String.compare (String a1 (String a2 (String a3 (String a4 ""))))
                 (String b1 (String b2 (String b3 (String b4 ""))))
  = (100 * (10 * digit_value a1 + digit_value a2)
     + (10 * digit_value a3 + digit_value a4)
     ?= 100 * (10 * digit_value b1 + digit_value b2)
        + (10 * digit_value b3 + digit_value b4)).
Proof.
  intros Ha1 Ha2 Ha3 Ha4 Hb1 Hb2 Hb3 Hb4.
  rewrite compare_numerals; cbn [all_digits String.length digits_value_from];
    rewrite ?Ha1, ?Ha2, ?Ha3, ?Ha4, ?Hb1, ?Hb2, ?Hb3, ?Hb4; try reflexivity.
  f_equal; lia.
Qed.

(** Two dates in canonical form that [strptime] accepts are ordered as
    texts the way their days are ordered. *)
Lemma compare_after_hyphen (s t : string) :
  String.compare (String "-" s) (String "-" t) = String.compare s t.
Proof. reflexivity. Qed.

Lemma canonical_dates_order (s t : string) (o o' : Z) :
  canonical_date s = true -> canonical_date t = true ->
  strptime_ymd s = Some o -> strptime_ymd t = Some o' ->
  String.compare s t = (o ?= o').
Proof.
  intros Hs Ht.
  destruct s as [| y1 [| y2 [| y3 [| y4 [| h1 [| m1 [| m2 [| h2 [| d1 [| d2 [| ? ?]]]]]]]]]]];
    try discriminate Hs.
  destruct t as [| z1 [| z2 [| z3 [| z4 [| g1 [| n1 [| n2 [| g2 [| e1 [| e2 [| ? ?]]]]]]]]]]];
    try discriminate Ht.
  cbn [canonical_date] in Hs, Ht.
  rewrite !andb_true_iff, !Ascii.eqb_eq in Hs, Ht.
  destruct Hs as (((((((((Hy1 & Hy2) & Hy3) & Hy4) & ->) & Hm1) & Hm2) & ->) & Hd1) & Hd2).
  destruct Ht as (((((((((Hz1 & Hz2) & Hz3) & Hz4) & ->) & Hn1) & Hn2) & ->) & He1) & He2).
  rewrite (strptime_ymd_canonical y1 y2 y3 y4 m1 m2 d1 d2) by assumption.
  rewrite (strptime_ymd_canonical z1 z2 z3 z4 n1 n2 e1 e2) by assumption.
  intros Ho Ho'. rewrite <- (date_of_order _ _ _ _ _ _ _ _ Ho Ho').
  change (String y1 (String y2 (String y3 (String y4 (String "-"
            (String m1 (String m2 (String "-" (String d1 (String d2 ""))))))))))
    with (String y1 (String y2 (String y3 (String y4 ""))) ++
          String "-" (String m1 (String m2 "") ++ String "-" (String d1 (String d2 "")))).
  change (String z1 (String z2 (String z3 (String z4 (String "-"
            (String n1 (String n2 (String "-" (String e1 (String e2 ""))))))))))
    with (String z1 (String z2 (String z3 (String z4 ""))) ++
          String "-" (String n1 (String n2 "") ++ String "-" (String e1 (String e2 "")))).
  rewrite compare_app_same_length by reflexivity.
  rewrite compare_four_digits by assumption.
  destruct (_ ?= _); try reflexivity.
  rewrite compare_after_hyphen.
  rewrite compare_app_same_length by reflexivity.
  rewrite compare_two_digits by assumption.
  destruct (_ ?= _); try reflexivity.
  rewrite compare_after_hyphen.
  now rewrite compare_two_digits.
Qed.

(** Text order of two dates in the form YYYY-MM-DD, read as the tests of
    the queries. *)
Lemma canonical_dates_leb (s t : string) (o o' : Z) :
  canonical_date s = true -> canonical_date t = true ->
  strptime_ymd s = Some o -> strptime_ymd t = Some o' ->
  ((s <=? t)%string = true <-> o <= o')
  /\ ((t <? s)%string = true <-> o' < o).
Proof.
  intros Hs Ht Ho Ho'.
  pose proof (canonical_dates_order s t o o' Hs Ht Ho Ho') as Hst.
  pose proof (canonical_dates_order t s o' o Ht Hs Ho' Ho) as Hts.
  unfold String.leb, String.ltb. rewrite Hst, Hts.
  destruct (Z.compare_spec o o'), (Z.compare_spec o' o);
    split; split; intro; try discriminate; try reflexivity; lia.
Qed.

(** X25.  When today's date and the date of an appointment are both
    written as YYYY-MM-DD and name days of the calendar, the pages of a
    patient and of a doctor file the appointment by the calendar: it is
    upcoming exactly when its day is today or later, and past exactly
    when its day is before today; and an appointment listed before
    another one of such a date is not on an earlier day. *)
Theorem view_lists_follow_calendar (today : string) (db : database) (key : string)
  (lists : listing) (a : Appointment.t) (day_today day : Z) :
  canonical_date today = true -> strptime_ymd today = Some day_today ->
  canonical_date (Appointment.date a) = true ->
  strptime_ymd (Appointment.date a) = Some day ->
  view_patient today db key = inr lists \/ view_doctor today db key = inr lists ->
  In a (all_appointments lists) ->
  (In a (upcoming_appointments lists) <-> day_today <= day)
  /\ (In a (past_appointments lists) <-> day < day_today)
  /\ (forall b day_b,
        canonical_date (Appointment.date b) = true ->
        strptime_ymd (Appointment.date b) = Some day_b ->
        comes_before a b = true -> day_b <= day).
Proof.
  intros Hct Ht Hca Ha Hview Hin.
  assert (Hlists : exists mine, lists = appointment_lists today mine (appointments db)).
  { destruct Hview as [H | H]; [unfold view_patient in H | unfold view_doctor in H].
    - destruct (get_patient db key); [| discriminate H].
      injection H as <-. eauto.
    - destruct (get_doctor db key); [| discriminate H].
      injection H as <-. eauto. }
  destruct Hlists as (mine & ->).
  destruct (appointment_lists_spec today mine (appointments db))
    as (Hall & Hup & Hpast & _).
  apply Hall in Hin as [Hrow Hmine].
  destruct (canonical_dates_leb today (Appointment.date a) day_today day Hct Hca Ht Ha)
    as [Hle Hlt].
  split; [| split].
  - rewrite Hup, <- Hle. tauto.
  - rewrite Hpast, <- Hlt. tauto.
  - intros b day_b Hcb Hb Hbefore. unfold comes_before in Hbefore.
    rewrite (canonical_dates_order _ _ _ _ Hcb Hca Hb Ha) in Hbefore.
    destruct (Z.compare_spec day_b day); [lia | lia | discriminate Hbefore].
Qed.

Lemma view_lists_follow_calendar_at_clinic :
  (In A001 (upcoming_appointments (mk_listing [A001] [A001] [])) <-> 738887 <= 738890)
  /\ (In A001 (past_appointments (mk_listing [A001] [A001] [])) <-> 738890 < 738887).
Proof.
  destruct (view_lists_follow_calendar "2024-01-02" clinic "P001"
              (mk_listing [A001] [A001] []) A001 738887 738890) as (H1 & H2 & _);
    try reflexivity.
  - left. reflexivity.
  - left. reflexivity.
  - split; assumption.
Defined.

(** ** Dates with a time of day *)

Lemma digit_is_no_space (c : ascii) : is_digit c = true -> is_re_space c = false.
Proof.
  intro H. apply is_digit_cases in H. cbn [In] in H.
  repeat (destruct H as [<- | H]; [reflexivity |]). contradiction.
Qed.

(** The day of two digits, followed by one space and a digit. *)
Lemma re_d_then_space {B : Type} (k : Z -> matcher B) (d1 d2 h : ascii) (rest : string) :
  is_digit d1 = true -> is_digit d2 = true -> is_digit h = true ->
  mbind re_d (fun d => mbind spaces_plus (fun _ => k d))
    (String d1 (String d2 (String " " (String h rest))))
  = if (1 <=? 10 * digit_value d1 + digit_value d2)
       && (10 * digit_value d1 + digit_value d2 <=? 31)
    then k (10 * digit_value d1 + digit_value d2) (String h rest)
    else [].
Proof.
  intros H1 H2 Hh. apply is_digit_cases in H1, H2. cbn [In] in H1, H2.
  apply digit_is_no_space in Hh.
  repeat (destruct H1 as [<- | H1]; [| try contradiction]);
    repeat (destruct H2 as [<- | H2]; [| try contradiction]);
    cbn; rewrite ?Hh; cbn; rewrite ?app_nil_r; reflexivity.
Qed.

(** The hour of two digits, followed by the colon. *)
Lemma re_H_two_digits {B : Type} (k : Z -> matcher B) (h1 h2 : ascii) (rest : string) :
  is_digit h1 = true -> is_digit h2 = true ->
  mbind re_H (fun hh => mbind (lit ":") (fun _ => k hh))
    (String h1 (String h2 (String ":" rest)))
  = if 10 * digit_value h1 + digit_value h2 <=? 23
    then k (10 * digit_value h1 + digit_value h2) rest
    else [].
Proof.
  intros H1 H2. apply is_digit_cases in H1, H2. cbn [In] in H1, H2.
  repeat (destruct H1 as [<- | H1]; [| try contradiction]);
    repeat (destruct H2 as [<- | H2]; [| try contradiction]);
    cbn; rewrite ?app_nil_r; reflexivity.
Qed.

(** The minute of two digits: the first match. *)
Lemma re_M_two_digits {B : Type} (f : Z -> B) (m1 m2 : ascii) (rest : string) :
  is_digit m1 = true -> is_digit m2 = true ->
  hd_error (mbind re_M (fun mm => mret (f mm)) (String m1 (String m2 rest)))
  = if 10 * digit_value m1 + digit_value m2 <=? 59
    then Some (f (10 * digit_value m1 + digit_value m2), rest)
    else Some (f (digit_value m1), String m2 rest).
Proof.
  intros H1 H2. apply is_digit_cases in H1, H2. cbn [In] in H1, H2.
  repeat (destruct H1 as [<- | H1]; [| try contradiction]);
    repeat (destruct H2 as [<- | H2]; [| try contradiction]);
    reflexivity.
Qed.

Lemma days_in_month_le_31 (y m : Z) : days_in_month y m <= 31.
Proof.
  unfold days_in_month.
  repeat match goal with
         | |- context [if ?b then _ else _] => destruct b
         end; lia.
Qed.

(** The days of the calendar are numbered from 1 to [MAXORDINAL]. *)
Lemma date_of_range (y m d day : Z) :
  date_of y m d = Some day -> 1 <= day <= MAXORDINAL.
Proof.
  intro H. apply date_of_inv in H as (Hy & Hm & Hd & ->).
  unfold ymd2ord, MAXORDINAL.
  pose proof (days_before_month_bounds y m Hm) as [Hlo Hhi].
  pose proof (days_before_year_mono 1 y (proj1 Hy)) as H1.
  pose proof (days_before_year_mono (y + 1) 10000 ltac:(lia)) as H2.
  rewrite days_before_year_succ in H2.
  change (days_before_year 1) with 0 in H1.
  change (days_before_year 10000) with 3652059 in H2.
  lia.
Qed.

(** A date in canonical form that names a day, a space, and a text that
    starts with two digits, a colon and two digits. *)
Lemma strptime_ymd_hm_canonical (date_str : string) (h1 h2 m1 m2 : ascii)
  (rest : string) (day : Z) :
  canonical_date date_str = true ->
  strptime_ymd date_str = Some day ->
  is_digit h1 = true -> is_digit h2 = true ->
  is_digit m1 = true -> is_digit m2 = true ->
  strptime_ymd_hm
    (date_str ++ " " ++ String h1 (String h2 (String ":" (String m1 (String m2 rest)))))
  = if (10 * digit_value h1 + digit_value h2 <=? 23)
       && (10 * digit_value m1 + digit_value m2 <=? 59)
       && negb (truthy rest)
    then Some (day * 1440 + (10 * digit_value h1 + digit_value h2) * 60
               + (10 * digit_value m1 + digit_value m2))
    else None.
Proof.
  intros Hs.
  destruct date_str
    as [| y1 [| y2 [| y3 [| y4 [| g1 [| n1 [| n2 [| g2 [| d1 [| d2 [| ? ?]]]]]]]]]]];
    try discriminate Hs.
  cbn [canonical_date] in Hs.
  rewrite !andb_true_iff, !Ascii.eqb_eq in Hs.
  destruct Hs as (((((((((Hy1 & Hy2) & Hy3) & Hy4) & ->) & Hn1) & Hn2) & ->) & Hd1) & Hd2).
  rewrite (strptime_ymd_canonical y1 y2 y3 y4 n1 n2 d1 d2) by assumption.
  intros Hday Hh1 Hh2 Hm1 Hm2.
  cbn [append].
  unfold strptime_ymd_hm, first_match.
  set (Y := 100 * (10 * digit_value y1 + digit_value y2)
            + (10 * digit_value y3 + digit_value y4)) in *.
  set (M := 10 * digit_value n1 + digit_value n2) in *.
  set (D := 10 * digit_value d1 + digit_value d2) in *.
  set (HH := 10 * digit_value h1 + digit_value h2).
  set (MM := 10 * digit_value m1 + digit_value m2).
  destruct (date_of_inv _ _ _ _ Hday) as (_ & HM & HD & _).
  pose proof (days_in_month_le_31 Y M) as H31.
  unfold mbind at 1. rewrite (re_Y_digits y1 y2 y3 y4 _ Hy1 Hy2 Hy3 Hy4).
  fold Y. cbn [flat_map]. rewrite app_nil_r.
  unfold mbind at 1. cbn [lit Ascii.eqb Bool.eqb flat_map]. rewrite app_nil_r.
  rewrite (re_m_two_digits
             (fun m => mbind re_d (fun d => mbind spaces_plus (fun _ =>
                       mbind re_H (fun hh => mbind (lit ":") (fun _ =>
                       mbind re_M (fun mm => mret (Y, m, d, hh, mm)))))))
             n1 n2 _ Hn1 Hn2).
  fold M.
  replace ((1 <=? M) && (M <=? 12)) with true
    by (symmetry; rewrite andb_true_iff, !Z.leb_le; lia).
  rewrite (re_d_then_space
             (fun d => mbind re_H (fun hh => mbind (lit ":") (fun _ =>
                       mbind re_M (fun mm => mret (Y, M, d, hh, mm)))))
             d1 d2 h1 _ Hd1 Hd2 Hh1).
  fold D.
  replace ((1 <=? D) && (D <=? 31)) with true
    by (symmetry; rewrite andb_true_iff, !Z.leb_le; lia).
  rewrite (re_H_two_digits
             (fun hh => mbind re_M (fun mm => mret (Y, M, D, hh, mm)))
             h1 h2 _ Hh1 Hh2).
  fold HH.
  destruct (HH <=? 23); [| reflexivity].
  rewrite (re_M_two_digits (fun mm => (Y, M, D, HH, mm)) m1 m2 rest Hm1 Hm2). fold MM.
  destruct (MM <=? 59); [| reflexivity].
  cbn [andb]. destruct rest; cbn [truthy negb]; [| reflexivity].
  unfold datetime_of. now rewrite Hday.
Qed.

(** What the format check of the handlers lets through. *)
Lemma match_hh_mm_inv (time_str : string) :
  match_hh_mm time_str = true ->
  exists h1 h2 m1 m2 rest,
    time_str = String h1 (String h2 (String ":" (String m1 (String m2 rest))))
    /\ is_digit h1 = true /\ is_digit h2 = true
    /\ is_digit m1 = true /\ is_digit m2 = true
    /\ (rest = "" \/ rest = String "010" "").
Proof.
  destruct time_str as [| h1 [| h2 [| c [| m1 [| m2 rest]]]]];
    try (destruct c as [[] [] [] [] [] [] [] []]); try discriminate.
  cbn [match_hh_mm]. rewrite !andb_true_iff.
  intros [[[[H1 H2] H3] H4] Hrest].
  exists h1, h2, m1, m2, rest. repeat apply conj; trivial.
  destruct rest as [| c [| ? ?]]; [now left | | discriminate Hrest].
  apply Ascii.eqb_eq in Hrest. subst c. now right.
Qed.

(** A date in canonical form that names a day, with a time that passes
    the format check: the text is read exactly when the time is a time
    of the clock. *)
Lemma strptime_ymd_hm_clock (date_str time_str : string) (day : Z) :
  canonical_date date_str = true ->
  strptime_ymd date_str = Some day ->
  match_hh_mm time_str = true ->
  strptime_ymd_hm (date_str ++ " " ++ time_str)
  = option_map (fun minute => day * 1440 + minute) (clock_time time_str).
Proof.
  intros Hc Hday Ht.
  apply match_hh_mm_inv in Ht
    as (h1 & h2 & m1 & m2 & rest & -> & Hh1 & Hh2 & Hm1 & Hm2 & Hrest).
  rewrite (strptime_ymd_hm_canonical _ _ _ _ _ _ _ Hc Hday Hh1 Hh2 Hm1 Hm2).
  destruct Hrest as [-> | ->]; cbn [clock_time truthy negb].
  - rewrite Hh1, Hh2, Hm1, Hm2. cbn [andb Ascii.eqb Bool.eqb].
    rewrite andb_true_r.
    destruct ((_ <=? 23) && (_ <=? 59)); cbn [option_map]; [f_equal; lia | reflexivity].
  - rewrite andb_false_r. reflexivity.
Qed.

Lemma clock_time_range (time_str : string) (minute : Z) :
  clock_time time_str = Some minute ->
  match_hh_mm time_str = true /\ 0 <= minute < 1440.
Proof.
  destruct time_str as [| h1 [| h2 [| c [| m1 [| m2 [| ? ?]]]]]]; try discriminate.
  unfold clock_time. cbv beta iota zeta.
  destruct (is_digit h1 && is_digit h2 && (c =? ":")%char && is_digit m1 && is_digit m2
            && (10 * digit_value h1 + digit_value h2 <=? 23)
            && (10 * digit_value m1 + digit_value m2 <=? 59)) eqn:E; [| discriminate].
  intro Heq.
  replace minute with ((10 * digit_value h1 + digit_value h2) * 60
                       + (10 * digit_value m1 + digit_value m2)) by congruence.
  clear Heq.
  rewrite !andb_true_iff, !Z.leb_le, Ascii.eqb_eq in E.
  destruct E as [[[[[[H1 H2] ->] H3] H4] Hh] Hm].
  split.
  - cbn [match_hh_mm]. now rewrite H1, H2, H3, H4.
  - pose proof (digit_value_range h1 H1). pose proof (digit_value_range h2 H2).
    pose proof (digit_value_range m1 H3). pose proof (digit_value_range m2 H4). lia.
Qed.

(** The candidate interval of a time of the clock on a day of the
    calendar, for a duration that ends within the day. *)
Lemma candidate_interval_clock (date_str time_str : string) (day minute duration : Z) :
  canonical_date date_str = true ->
  strptime_ymd date_str = Some day ->
  clock_time time_str = Some minute ->
  0 <= duration -> minute + duration < 1440 ->
  candidate_interval date_str time_str duration
  = Return (day * 1440 + minute, day * 1440 + minute + duration).
Proof.
  intros Hc Hday Ht Hd Hend.
  destruct (clock_time_range _ _ Ht) as [Hform Hmin].
  unfold candidate_interval.
  rewrite (strptime_ymd_hm_clock _ _ _ Hc Hday Hform), Ht.
  cbn [option_map or_value_error bind]. unfold add_minutes.
  assert (Hrange : 1 <= day <= MAXORDINAL).
  { destruct date_str
      as [| y1 [| y2 [| y3 [| y4 [| g1 [| n1 [| n2 [| g2 [| d1 [| d2 [| ? ?]]]]]]]]]]];
      try discriminate Hc.
    cbn [canonical_date] in Hc.
    rewrite !andb_true_iff, !Ascii.eqb_eq in Hc.
    destruct Hc as (((((((((Hy1 & Hy2) & Hy3) & Hy4) & ->) & Hn1) & Hn2) & ->) & Hd1) & Hd2).
    rewrite (strptime_ymd_canonical y1 y2 y3 y4 n1 n2 d1 d2) in Hday by assumption.
    now apply date_of_range in Hday. }
  assert (Hq : duration / 1440 = 0) by (apply Z.div_small; lia).
  rewrite Hq. cbn [Z.abs Z.ltb Z.compare].
  assert (Hday' : (day * 1440 + minute + duration) / 1440 = day)
    by (Z.div_mod_to_equations; lia).
  rewrite Hday'.
  replace ((1 <=? day) && (day <=? MAXORDINAL)) with true
    by (symmetry; rewrite andb_true_iff, !Z.leb_le; lia).
  reflexivity.
Qed.

(** X26.  For a booking with a date in the form YYYY-MM-DD that names a
    day not before today, a duration between 1 and 240 and a known
    patient and doctor, whose time is ASCII text that passes the format
    check of the handler (two of the digits 0 to 9, a colon, two of these
    digits, and possibly a line feed): when the time is no time of the
    clock (an hour above 23, a minute above 59, or a line feed after the
    minutes) the handler ends with an uncaught [ValueError]; when it is
    one and the appointment ends within the day, the check of the doctor
    compares the interval that starts at that minute of that day with
    the stored ones. *)
Theorem booking_needs_a_clock_time (today : Z) (db : database) (form : Form.t)
  (day duration : Z) :
  canonical_date (Form.date form) = true ->
  strptime_ymd (Form.date form) = Some day ->
  today <= day ->
  py_int (Form.duration form) = Some duration ->
  1 <= duration <= 240 ->
  get_patient db (Form.patient_id form) <> None ->
  get_doctor db (Form.doctor_id form) <> None ->
  ascii_text (Form.time form) = true ->
  match_hh_mm (Form.time form) = true ->
  (clock_time (Form.time form) = None ->
   add_appointment today db form = Raise ValueError)
  /\ (forall minute,
        clock_time (Form.time form) = Some minute ->
        minute + duration < 1440 ->
        is_doctor_available db (Form.doctor_id form) (Form.date form) (Form.time form)
          duration None
        = no_overlap (day * 1440 + minute) (day * 1440 + minute + duration) None
            (doctor_appointments_on db (Form.doctor_id form) (Form.date form))).
Proof.
  intros Hc Hday Htoday Hdur Hrange Hp Hd _ Hform. split.
  - intro Hclock. unfold add_appointment. cbv zeta.
    rewrite Hdur. cbn [or_value_error bind].
    destruct (get_patient db (Form.patient_id form)); [| contradiction].
    destruct (get_doctor db (Form.doctor_id form)); [| contradiction].
    rewrite Hday. cbn [or_value_error bind].
    replace (day <? today) with false by (symmetry; apply Z.ltb_ge; lia).
    replace (duration <=? 0) with false by (symmetry; apply Z.leb_gt; lia).
    replace (duration >? 240) with false
      by (symmetry; rewrite Z.gtb_ltb; apply Z.ltb_ge; lia).
    cbn [orb]. rewrite Hform. cbn [negb].
    unfold is_doctor_available, candidate_interval.
    rewrite (strptime_ymd_hm_clock _ _ _ Hc Hday Hform), Hclock.
    reflexivity.
  - intros minute Hclock Hend. unfold is_doctor_available.
    rewrite (candidate_interval_clock _ _ _ _ _ Hc Hday Hclock) by lia.
    reflexivity.
Qed.

Lemma booking_at_twenty_four_o_clock :
  add_appointment a_tuesday clinic (Form.mk "2024-01-05" "24:00" "30" "flu" "P002" "D001")
  = Raise ValueError.
Proof.
  refine (proj1 (booking_needs_a_clock_time a_tuesday clinic
                   (Form.mk "2024-01-05" "24:00" "30" "flu" "P002" "D001") 738890 30
                   eq_refl eq_refl _ eq_refl _ _ _ eq_refl eq_refl) eq_refl).
  - vm_compute. discriminate.
  - lia.
  - vm_compute. discriminate.
  - vm_compute. discriminate.
Defined.

(** X27.  The form offers twenty different times, from 08:00 to 17:30
    in steps of thirty minutes.  Each of them passes the format check of
    the handlers, and with a date in the form YYYY-MM-DD that names a day
    and a duration between 1 and 240 it gives a candidate interval that
    starts at that minute of the day and ends within the same day. *)
Theorem time_slots_are_bookable (date_str slot : string) (day duration : Z) :
  canonical_date date_str = true ->
  strptime_ymd date_str = Some day ->
  1 <= duration <= 240 ->
  In slot get_time_slots ->
  List.length get_time_slots = 20%nat
  /\ NoDup get_time_slots
  /\ match_hh_mm slot = true
  /\ exists minute,
      clock_time slot = Some minute
      /\ 8 * 60 <= minute <= 17 * 60 + 30
      /\ minute mod 30 = 0
      /\ candidate_interval date_str slot duration
         = Return (day * 1440 + minute, day * 1440 + minute + duration)
      /\ day * 1440 + minute + duration < (day + 1) * 1440.
Proof.
  intros Hc Hday Hrange Hin.
  split; [reflexivity |].
  split.
  { unfold get_time_slots. cbn.
    repeat (constructor; [cbn [In]; intuition discriminate |]). constructor. }
  assert (Hslot : exists minute,
             clock_time slot = Some minute
             /\ 8 * 60 <= minute <= 17 * 60 + 30 /\ minute mod 30 = 0).
  { unfold get_time_slots in Hin. cbn in Hin.
    repeat (destruct Hin as [<- | Hin];
            [eexists; split; [vm_compute; reflexivity | split; [lia | reflexivity]] |]).
    contradiction. }
  destruct Hslot as (minute & Hclock & Hbounds & Hstep).
  split; [exact (proj1 (clock_time_range _ _ Hclock)) |].
  exists minute. repeat apply conj; trivial; try lia.
  apply candidate_interval_clock; trivial; lia.
Qed.

Lemma time_slots_are_bookable_at_half_past_five :
  In "17:30" get_time_slots
  /\ exists minute,
      clock_time "17:30" = Some minute
      /\ candidate_interval "2024-01-05" "17:30" 240
         = Return (738890 * 1440 + minute, 738890 * 1440 + minute + 240).
Proof.
  assert (Hin : In "17:30" get_time_slots) by (vm_compute; tauto).
  split; [exact Hin |].
  destruct (time_slots_are_bookable "2024-01-05" "17:30" 738890 240
              eq_refl eq_refl ltac:(lia) Hin)
    as (_ & _ & _ & minute & Hclock & _ & _ & Hcand & _).
  exists minute. split; assumption.
Defined.

(** ** Every stored appointment stays well formed *)

(** X28.  When every stored appointment is well formed (its id is not
    empty, its date and time parse and its end is a date of the
    calendar), the checks of the doctor and of the patient return an
    answer exactly when the candidate interval can be computed, and every
    stored appointment is still well formed after a booking, a
    rescheduling and a deletion, whatever the answer. *)
Theorem appointments_stay_well_formed (db : database) :
  (forall a, In a (appointments db) -> well_formed_row a) ->
  (forall key appt_date appt_time duration exclude_appt_id,
      ((exists b, is_doctor_available db key appt_date appt_time duration exclude_appt_id
                  = Return b)
       <-> (exists i, candidate_interval appt_date appt_time duration = Return i))
      /\ ((exists b, is_patient_available db key appt_date appt_time duration
                       exclude_appt_id = Return b)
          <-> (exists i, candidate_interval appt_date appt_time duration = Return i)))
  /\ (forall today form r db',
        add_appointment today db form = Return (r, db') ->
        forall a, In a (appointments db') -> well_formed_row a)
  /\ (forall today key form r db',
        edit_appointment today db key form = Return (r, db') ->
        forall a, In a (appointments db') -> well_formed_row a)
  /\ (forall key r db',
        delete_appointment db key = Return (r, db') ->
        forall a, In a (appointments db') -> well_formed_row a).
Proof.
  intro Hwf. repeat apply conj.
  - intros key appt_date appt_time duration exclude_appt_id.
    unfold is_doctor_available, is_patient_available.
    destruct (candidate_interval appt_date appt_time duration) as [[s e] | err];
      cbn [bind].
    + split; (split; [eauto |]); intros _; apply no_overlap_returns; intros a Ha.
      * apply doctor_appointments_on_In in Ha. apply Hwf, Ha.
      * apply In_firstn in Ha. apply patient_rows_on_In in Ha. apply Hwf, Ha.
    + split; split; intros [x Hx]; discriminate Hx.
  - intros today form r db' H.
    pose proof H as H0.
    apply add_appointment_inv in H0 as [(m & E) | (d & i & db'' & _ & _ & _ & E)];
      injection E as -> ->; [exact Hwf |].
    apply add_appointment_accepted_inv in H
      as (duration & new_id & Hpass & Hgen & _ & -> & _).
    destruct Hpass as (_ & _ & _ & _ & _ & _ & Havail).
    intros a Ha. cbn [appointments] in Ha.
    apply in_app_or in Ha as [Ha | [<- | []]]; [now apply Hwf |].
    split.
    + cbn [Appointment.id]. now apply generate_id_nonempty in Hgen.
    + eapply available_gives_interval. exact Havail.
  - intros today key form r db' H.
    apply edit_appointment_inv in H as [E | [(m & E) | (duration & Hdoc & _ & E)]];
      injection E as -> ->; try exact Hwf.
    intros a Ha. rewrite update_appointment_rows in Ha.
    apply in_map_iff in Ha as (y & <- & Hy).
    destruct (Appointment.id y =? key)%string eqn:E; [| now apply Hwf].
    apply String.eqb_eq in E. split.
    + cbn [Appointment.id]. rewrite <- E. now apply (Hwf y).
    + eapply available_gives_interval. exact Hdoc.
  - intros key r db' H. apply delete_appointment_table in H. subst db'.
    intros a Ha. cbn [appointments] in Ha. apply filter_In in Ha as [Ha _].
    now apply Hwf.
Qed.

Lemma clinic_rows_well_formed : forall a, In a (appointments clinic) -> well_formed_row a.
Proof.
  intros a [<- | []]. split; [reflexivity |]. eexists. reflexivity.
Qed.

Lemma appointments_stay_well_formed_at_clinic :
  (forall a, In a (appointments clinic) -> well_formed_row a)
  /\ exists b, is_doctor_available clinic "D001" "2024-01-05" "09:15" 30 None = Return b.
Proof.
  split; [exact clinic_rows_well_formed |].
  apply (proj1 (appointments_stay_well_formed clinic clinic_rows_well_formed)).
  eexists. reflexivity.
Defined.

(** ** The dashboard *)

Lemma insert_ascending_In (a x : Appointment.t) (l : list Appointment.t) :
  In x (insert_ascending a l) <-> x = a \/ In x l.
Proof.
  induction l as [| b l IH]; cbn [insert_ascending].
  - cbn [In]. intuition congruence.
  - destruct (comes_first a b); cbn [In]; [intuition congruence |].
    rewrite IH. cbn [In]. intuition congruence.
Qed.

Lemma oldest_first_In (x : Appointment.t) (l : list Appointment.t) :
  In x (oldest_first l) <-> In x l.
Proof.
  induction l as [| a l IH]; cbn [oldest_first fold_right]; [reflexivity |].
  fold (oldest_first l). rewrite insert_ascending_In, IH. cbn [In]. intuition congruence.
Qed.

Lemma insert_ascending_count (p : Appointment.t -> bool) (a : Appointment.t)
  (l : list Appointment.t) :
  List.length (filter p (insert_ascending a l)) = List.length (filter p (a :: l)).
Proof.
  induction l as [| b l IH]; cbn [insert_ascending]; [reflexivity |].
  destruct (comes_first a b); [reflexivity |].
  cbn [filter] in *. destruct (p b), (p a); cbn [List.length] in *; lia.
Qed.

Lemma oldest_first_count (p : Appointment.t -> bool) (l : list Appointment.t) :
  List.length (filter p (oldest_first l)) = List.length (filter p l).
Proof.
  induction l as [| a l IH]; cbn [oldest_first fold_right]; [reflexivity |].
  fold (oldest_first l). rewrite insert_ascending_count.
  cbn [filter]. destruct (p a); cbn [List.length]; lia.
Qed.

Lemma comes_first_total (a b : Appointment.t) :
  comes_first a b = false -> comes_first b a = true.
Proof.
  unfold comes_first, String.leb.
  rewrite (String.compare_antisym (Appointment.date b) (Appointment.date a)).
  rewrite (String.compare_antisym (Appointment.time b) (Appointment.time a)).
  destruct (String.compare (Appointment.date a) (Appointment.date b));
    destruct (String.compare (Appointment.time a) (Appointment.time b));
    cbn; congruence.
Qed.

Lemma insert_ascending_sorted (a : Appointment.t) (l : list Appointment.t) :
  Sorted (fun x y => comes_first x y = true) l ->
  Sorted (fun x y => comes_first x y = true) (insert_ascending a l).
Proof.
  induction l as [| b l IH]; cbn [insert_ascending]; intro Hs.
  - repeat constructor.
  - destruct (comes_first a b) eqn:Hab.
    + constructor; [exact Hs | now constructor].
    + apply Sorted_inv in Hs as [Hs Hhd]. constructor; [now apply IH |].
      destruct l as [| c l]; cbn [insert_ascending].
      * constructor. now apply comes_first_total.
      * destruct (comes_first a c); constructor.
        -- now apply comes_first_total.
        -- now inversion Hhd.
Qed.

Lemma oldest_first_sorted (l : list Appointment.t) :
  Sorted (fun x y => comes_first x y = true) (oldest_first l).
Proof.
  induction l as [| a l IH]; cbn [oldest_first fold_right]; [constructor |].
  now apply insert_ascending_sorted.
Qed.

Section Today.

Variable today : string.

Lemma on_today_not_past (a : Appointment.t) :
  on_today today a = true -> not_past today a = true.
Proof.
  unfold on_today, not_past, String.leb. intro H. apply String.eqb_eq in H. rewrite H.
  pose proof (String.compare_antisym today today) as Hrefl.
  destruct (String.compare today today); trivial; discriminate Hrefl.
Qed.

Lemma today_before_later (a b : Appointment.t) :
  on_today today a = true -> on_today today b = false -> not_past today b = true ->
  comes_first a b = true.
Proof.
  unfold on_today, not_past, comes_first, String.leb. intros Ha Hb Hge.
  apply String.eqb_eq in Ha. rewrite Ha.
  destruct (String.compare today (Appointment.date b)) eqn:E;
    [| reflexivity | discriminate Hge].
  apply String.compare_eq_iff in E. rewrite E, String.eqb_refl in Hb. discriminate Hb.
Qed.

Lemma later_after_today (a b : Appointment.t) :
  on_today today a = false -> not_past today a = true -> on_today today b = true ->
  comes_first a b = false.
Proof.
  intros Ha Hge Hb.
  pose proof (today_before_later b a Hb Ha Hge) as H.
  unfold comes_first in *. unfold String.leb in *.
  rewrite (String.compare_antisym (Appointment.date a) (Appointment.date b)).
  unfold on_today in Ha, Hb. apply String.eqb_eq in Hb.
  destruct (String.compare (Appointment.date b) (Appointment.date a)) eqn:E;
    cbn [CompOpp]; [| reflexivity | discriminate H].
  apply String.compare_eq_iff in E. rewrite <- E, Hb, String.eqb_refl in Ha.
  discriminate Ha.
Qed.

Lemma no_row_today (l : list Appointment.t) :
  (forall x, In x l -> on_today today x = false) ->
  filter (on_today today) l = [] /\ filter (later today) l = l.
Proof.
  induction l as [| b l IH]; intro H; [now split |].
  cbn [filter]. unfold later at 1. rewrite (H b (or_introl eq_refl)). cbn [negb].
  destruct IH as [-> ->]; [intros x Hx; apply H; now right | now split].
Qed.

Lemma today_first_cons_today (b : Appointment.t) (l : list Appointment.t) :
  on_today today b = true -> today_first today l -> today_first today (b :: l).
Proof.
  unfold today_first. intros Hb Hl. cbn [filter]. unfold later at 1.
  rewrite Hb. cbn [negb app]. now rewrite <- Hl.
Qed.

Lemma today_first_cons_later (b : Appointment.t) (l : list Appointment.t) :
  on_today today b = false -> (forall x, In x l -> on_today today x = false) ->
  today_first today (b :: l).
Proof.
  intros Hb Hl. unfold today_first.
  destruct (no_row_today (b :: l)) as [-> ->]; [| reflexivity].
  intros x [<- | Hx]; [exact Hb | now apply Hl].
Qed.

Lemma today_first_after_later (b : Appointment.t) (l : list Appointment.t) :
  today_first today (b :: l) -> on_today today b = false ->
  forall x, In x l -> on_today today x = false.
Proof.
  unfold today_first. cbn [filter]. unfold later at 1. intros H Hb. rewrite Hb in H.
  cbn [negb] in H.
  destruct (filter (on_today today) l) as [| y ys] eqn:E.
  - intros x Hx. destruct (on_today today x) eqn:Hx'; [| reflexivity].
    assert (Hin : In x (filter (on_today today) l)) by (apply filter_In; now split).
    rewrite E in Hin. contradiction Hin.
  - cbn [app] in H. injection H as Hy _.
    assert (Hin : In y (filter (on_today today) l)) by (rewrite E; now left).
    apply filter_In in Hin as [_ Hin]. congruence.
Qed.

Lemma today_first_tail (b : Appointment.t) (l : list Appointment.t) :
  today_first today (b :: l) -> today_first today l.
Proof.
  intro H. destruct (on_today today b) eqn:Hb.
  - unfold today_first in *. cbn [filter] in H. unfold later at 1 in H.
    rewrite Hb in H. cbn [negb app] in H. now injection H.
  - pose proof (today_first_after_later b l H Hb) as Hl.
    unfold today_first. now destruct (no_row_today l Hl) as [-> ->].
Qed.

Lemma insert_ascending_today_first (a : Appointment.t) (l : list Appointment.t) :
  not_past today a = true -> (forall x, In x l -> not_past today x = true) ->
  today_first today l -> today_first today (insert_ascending a l).
Proof.
  intro Ha. induction l as [| b l IH]; intros Hl Hfirst; cbn [insert_ascending].
  - destruct (on_today today a) eqn:Hta.
    + now apply today_first_cons_today.
    + apply today_first_cons_later; [exact Hta | intros x []].
  - assert (Hb : not_past today b = true) by (apply Hl; now left).
    assert (Hl' : forall x, In x l -> not_past today x = true)
      by (intros x Hx; apply Hl; now right).
    destruct (comes_first a b) eqn:Hab.
    + destruct (on_today today a) eqn:Hta; [now apply today_first_cons_today |].
      apply today_first_cons_later; [exact Hta |].
      destruct (on_today today b) eqn:Htb.
      * rewrite (later_after_today a b Hta Ha Htb) in Hab. discriminate Hab.
      * intros x [<- | Hx]; [exact Htb |].
        now apply (today_first_after_later b l Hfirst Htb).
    + pose proof (IH Hl' (today_first_tail b l Hfirst)) as Hrest.
      destruct (on_today today b) eqn:Htb; [now apply today_first_cons_today |].
      apply today_first_cons_later; [exact Htb |].
      intros x Hx. apply insert_ascending_In in Hx as [-> | Hx].
      * destruct (on_today today a) eqn:Hta; [| reflexivity].
        rewrite (today_before_later a b Hta Htb Hb) in Hab. discriminate Hab.
      * now apply (today_first_after_later b l Hfirst Htb).
Qed.

Lemma oldest_first_today_first (l : list Appointment.t) :
  (forall x, In x l -> not_past today x = true) -> today_first today (oldest_first l).
Proof.
  induction l as [| a l IH]; intro Hl; cbn [oldest_first fold_right]; [reflexivity |].
  fold (oldest_first l). apply insert_ascending_today_first.
  - apply Hl. now left.
  - intros x Hx. apply (proj1 (oldest_first_In x l)) in Hx. apply Hl. now right.
  - apply IH. intros x Hx. apply Hl. now right.
Qed.

Lemma today_rows_not_past (rows : list Appointment.t) :
  filter (on_today today) (filter (not_past today) rows) = filter (on_today today) rows.
Proof.
  induction rows as [| a rows IH]; [reflexivity |]. cbn [filter].
  destruct (on_today today a) eqn:Hta.
  - rewrite (on_today_not_past a Hta). cbn [filter]. now rewrite Hta, IH.
  - destruct (not_past today a); [cbn [filter]; now rewrite Hta, IH | exact IH].
Qed.

(** The first ten of the upcoming rows, against the rows of today. *)
Lemma first_ten_upcoming (rows : list Appointment.t) :
  let shown := firstn 10 (oldest_first (filter (not_past today) rows)) in
  (List.length shown <= 10)%nat
  /\ (forall a, In a shown -> In a rows /\ not_past today a = true)
  /\ ((List.length (filter (on_today today) rows) <= 10)%nat ->
      forall a, In a (filter (on_today today) rows) -> In a shown)
  /\ ((10 <= List.length (filter (on_today today) rows))%nat ->
      forall a, In a shown -> on_today today a = true).
Proof.
  cbv zeta.
  set (sorted := oldest_first (filter (not_past today) rows)).
  assert (Hfirst : today_first today sorted).
  { apply oldest_first_today_first. intros x Hx. now apply filter_In in Hx. }
  assert (Hcount : List.length (filter (on_today today) sorted)
                   = List.length (filter (on_today today) rows)).
  { unfold sorted. now rewrite oldest_first_count, today_rows_not_past. }
  repeat apply conj.
  - apply firstn_le_length.
  - intros a Ha. apply In_firstn in Ha.
    apply (proj1 (oldest_first_In a _)) in Ha. now apply filter_In in Ha.
  - intros Hfew a Ha. rewrite Hfirst, firstn_app.
    apply in_or_app. left. rewrite firstn_all2 by lia.
    apply filter_In in Ha as [Ha Hta]. apply filter_In. split; [| exact Hta].
    apply oldest_first_In. apply filter_In. split; [exact Ha |].
    now apply on_today_not_past.
  - intros Hmany a Ha. rewrite Hfirst, firstn_app in Ha.
    replace (10 - List.length (filter (on_today today) sorted))%nat with 0%nat in Ha by lia.
    rewrite firstn_O, app_nil_r in Ha.
    apply In_firstn in Ha. now apply filter_In in Ha.
Qed.

End Today.

Lemma first_rows_sorted (n : nat) (l : list Appointment.t) :
  Sorted (fun x y => comes_first x y = true) l ->
  Sorted (fun x y => comes_first x y = true) (firstn n l).
Proof.
  revert l. induction n as [| n IH]; intros l Hs; [constructor |].
  destruct l as [| a l]; cbn [firstn]; [constructor |].
  apply Sorted_inv in Hs as [Hs Hhd]. constructor; [now apply IH |].
  destruct n, l; cbn [firstn]; constructor. now inversion Hhd.
Qed.

(** X29.  The front page sends a visitor without a session to the login
    page, and one whose user is gone to the login page with the session
    cleared.  For a user it shows the numbers of patients and of doctors,
    the appointments whose date is today's, and at most ten upcoming
    appointments, none dated before today (as text), ordered by date and
    then time.  Today's appointments come first among them: when there
    are at most ten of them they are all shown, and when there are ten or
    more the upcoming list shows nothing else. *)
Theorem dashboard_shows_today (today : string) (users : list User.t)
  (session : option Z) (db : database) :
  (session = None ->
   index today users session db = (inl (Redirected "login" None), None))
  /\ (forall user_id,
        session = Some user_id ->
        find (fun u => User.id u =? user_id) users = None ->
        index today users session db
        = (inl (Redirected "login"
                  (Some ("User not found. Please login again.", "error"))), None))
  /\ (forall board session',
        index today users session db = (inr board, session') ->
        session' = session
        /\ Dashboard.patients_count board = List.length (patients db)
        /\ Dashboard.doctors_count board = List.length (doctors db)
        /\ (forall a, In a (Dashboard.today_appointments board)
                      <-> In a (appointments db) /\ Appointment.date a = today)
        /\ (List.length (Dashboard.upcoming_appointments board) <= 10)%nat
        /\ (forall a, In a (Dashboard.upcoming_appointments board) ->
                      In a (appointments db)
                      /\ (today <=? Appointment.date a)%string = true)
        /\ Sorted (fun x y => comes_first x y = true)
             (Dashboard.upcoming_appointments board)
        /\ ((List.length (Dashboard.today_appointments board) <= 10)%nat ->
            forall a, In a (Dashboard.today_appointments board) ->
                      In a (Dashboard.upcoming_appointments board))
        /\ ((10 <= List.length (Dashboard.today_appointments board))%nat ->
            forall a, In a (Dashboard.upcoming_appointments board) ->
                      Appointment.date a = today)).
Proof.
  split; [| split].
  - intros ->. reflexivity.
  - intros user_id -> Hfind. unfold index. now rewrite Hfind.
  - intros board session' H. unfold index in H.
    destruct session as [user_id |]; [| discriminate H].
    destruct (find (fun u => User.id u =? user_id) users) as [user |];
      [| discriminate H].
    remember (firstn 10 _) as shown eqn:Eshown in H.
    injection H as <- <-. subst shown.
    cbv beta iota delta
      [Dashboard.patients_count Dashboard.doctors_count Dashboard.today_appointments
       Dashboard.upcoming_appointments].
    pose proof (first_ten_upcoming today (appointments db)) as Hten.
    cbv zeta in Hten. unfold on_today, not_past in Hten.
    destruct Hten as (Hlen & Hin & Hfew & Hmany).
    refine (conj eq_refl (conj eq_refl (conj eq_refl
              (conj _ (conj Hlen (conj Hin (conj _ (conj Hfew _)))))))).
    + intro a. rewrite filter_In, String.eqb_eq. reflexivity.
    + apply first_rows_sorted, oldest_first_sorted.
    + intros Hm a Ha. apply String.eqb_eq. now apply (Hmany Hm).
Qed.

Lemma dashboard_at_clinic :
  In A001 (Dashboard.upcoming_appointments
             (Dashboard.mk "admin" 2 2 [A001] [A001] true)).
Proof.
  destruct (proj2 (proj2 (dashboard_shows_today "2024-01-05" sample_users (Some 1) clinic))
              (Dashboard.mk "admin" 2 2 [A001] [A001] true) (Some 1) eq_refl)
    as (_ & _ & _ & _ & _ & _ & _ & Hfew & _).
  apply Hfew; [cbn; lia | now left].
Defined.

(** ** Double booking and the calendar *)

(** Two dates in the form YYYY-MM-DD that name the same day are the same
    text. *)
Lemma canonical_same_day (s t : string) (day : Z) :
  canonical_date s = true -> canonical_date t = true ->
  strptime_ymd s = Some day -> strptime_ymd t = Some day -> s = t.
Proof.
  intros Hs Ht Hds Hdt. apply String.compare_eq_iff.
  rewrite (canonical_dates_order s t day day Hs Ht Hds Hdt). apply Z.compare_refl.
Qed.

Lemma candidate_interval_inv (appt_date appt_time : string) (duration cs ce : Z) :
  candidate_interval appt_date appt_time duration = Return (cs, ce) ->
  strptime_ymd_hm (appt_date ++ " " ++ appt_time) = Some cs /\ ce = cs + duration.
Proof.
  unfold candidate_interval.
  destruct (strptime_ymd_hm _) as [start |]; cbn [or_value_error bind]; [| discriminate].
  destruct (add_minutes start duration) as [stop |] eqn:E; cbn [bind]; [| discriminate].
  intros [= <- <-]. apply add_minutes_value in E. now split.
Qed.

(** When the loop returns [True], the candidate overlaps none of the rows
    that it went through and did not skip. *)
Lemma no_overlap_true_rows (cs ce : Z) (exclude_appt_id : option string)
  (fetched : list Appointment.t) :
  no_overlap cs ce exclude_appt_id fetched = Return true ->
  forall a, In a fetched -> Some (Appointment.id a) <> exclude_appt_id ->
            ~ overlaps_row cs ce a.
Proof.
  induction fetched as [| b rest IH]; cbn [no_overlap]; intros H a Ha Hne; [contradiction Ha |].
  destruct (excluded exclude_appt_id b) eqn:Hx.
  - destruct Ha as [<- | Ha]; [| now apply IH].
    apply excluded_id in Hx. now contradiction Hne.
  - destruct (existing_interval b) as [[es ee] |] eqn:E; cbn [bind] in H;
      [| discriminate H].
    destruct ((cs <? ee) && (ce >? es)) eqn:T; [discriminate H |].
    destruct Ha as [<- | Ha]; [| now apply IH].
    intros (es' & Hs & Hlt & Hgt).
    apply existing_interval_inv in E as [Hs' He]. cbn [fst snd] in Hs', He.
    rewrite Hs in Hs'. injection Hs' as ->.
    apply add_minutes_value in He. subst ee.
    assert (Hov : overlaps (cs, ce) (es, es + Appointment.duration b))
      by (unfold overlaps; cbn [fst snd]; lia).
    apply overlaps_test in Hov. congruence.
Qed.

Lemma rows_overlap_sym (a b : Appointment.t) : rows_overlap a b -> rows_overlap b a.
Proof.
  intros (sa & Ha & sb & Hb & Hlt & Hgt).
  exists sb. split; [exact Hb |]. exists sa. split; [exact Ha |]. lia.
Qed.

(** X15.  A booking that is accepted overlaps no stored appointment of
    the same doctor that is stored with the same date text.  When the
    date of the form is written YYYY-MM-DD, this covers every appointment
    of the doctor on that day of the calendar whose date is written in
    that form. *)
Theorem add_appointment_no_double_booking (today : Z) (db db' : database)
  (form : Form.t) (message : string) :
  add_appointment today db form = Return (RedirectAppointments message "success", db') ->
  exists new_row start,
    appointments db' = (appointments db ++ [new_row])%list
    /\ Appointment.doctor_id new_row = Form.doctor_id form
    /\ Appointment.date new_row = Form.date form
    /\ Appointment.time new_row = Form.time form
    /\ 1 <= Appointment.duration new_row <= 240
    /\ strptime_ymd_hm (Form.date form ++ " " ++ Form.time form) = Some start
    /\ (forall a,
          In a (appointments db) ->
          Appointment.doctor_id a = Form.doctor_id form ->
          Appointment.date a = Form.date form ->
          ~ rows_overlap new_row a /\ ~ rows_overlap a new_row)
    /\ (canonical_date (Form.date form) = true ->
        forall a day,
          In a (appointments db) ->
          Appointment.doctor_id a = Form.doctor_id form ->
          canonical_date (Appointment.date a) = true ->
          strptime_ymd (Appointment.date a) = Some day ->
          strptime_ymd (Form.date form) = Some day ->
          ~ rows_overlap new_row a /\ ~ rows_overlap a new_row).
Proof.
  intro H.
  apply add_appointment_accepted_inv in H
    as (duration & appointment_id & Hpass & Hgen & Hfresh & -> & _).
  destruct Hpass as (_ & _ & _ & _ & Hrange & _ & Hfree).
  unfold is_doctor_available in Hfree.
  destruct (candidate_interval (Form.date form) (Form.time form) duration)
    as [[cs ce] |] eqn:Hcand; cbn [bind] in Hfree; [| discriminate Hfree].
  apply candidate_interval_inv in Hcand as [Hstart ->].
  set (row := Appointment.mk appointment_id (Form.date form) (Form.time form) duration
                (Form.diagnosis form) (Form.patient_id form) (Form.doctor_id form)).
  assert (Htext : forall a,
             In a (appointments db) ->
             Appointment.doctor_id a = Form.doctor_id form ->
             Appointment.date a = Form.date form ->
             ~ rows_overlap row a /\ ~ rows_overlap a row).
  { intros a Hin Hdoc Hdate.
    assert (Hno : ~ rows_overlap row a).
    { intros (s & Hs & Hov). cbn [row Appointment.date Appointment.time
                                   Appointment.duration] in Hs, Hov.
      rewrite Hstart in Hs. injection Hs as <-. revert Hov.
      apply (no_overlap_true_rows _ _ _ _ Hfree); [| discriminate].
      apply doctor_appointments_on_In. now repeat split. }
    split; [exact Hno |]. intro Hov. apply Hno. now apply rows_overlap_sym. }
  exists row, cs. cbn [appointments].
  split; [reflexivity |]. split; [reflexivity |]. split; [reflexivity |].
  split; [reflexivity |]. split; [exact Hrange |]. split; [exact Hstart |].
  split; [exact Htext |].
  intros Hcanon a day Hin Hdoc Hca Hday Hform.
  apply Htext; trivial.
  now apply (canonical_same_day _ _ day).
Qed.

(** Anna is seen on 2024-01-05 at 09:00; a booking for Dr Hamutenya at
    09:30 of that day does not overlap it, and a booking at 09:00 with
    the date written 2024-1-5 is accepted although it does. *)
Lemma add_appointment_no_double_booking_at_clinic :
  (exists new_row,
      In new_row [Appointment.mk "A002" "2024-01-05" "09:30" 30 "flu" "P002" "D001"]
      /\ ~ rows_overlap new_row A001)
  /\ add_appointment a_tuesday clinic (Form.mk "2024-1-5" "09:00" "30" "flu" "P002" "D001")
     = Return (RedirectAppointments "Appointment A002 booked successfully" "success",
               mkdb [anna; ben] [dr_hamutenya; dr_dlamini]
                 [A001; Appointment.mk "A002" "2024-1-5" "09:00" 30 "flu" "P002" "D001"])
  /\ strptime_ymd "2024-1-5" = strptime_ymd "2024-01-05"
  /\ rows_overlap (Appointment.mk "A002" "2024-1-5" "09:00" 30 "flu" "P002" "D001") A001.
Proof.
  split; [| split; [reflexivity | split; [reflexivity |]]].
  - destruct (add_appointment_no_double_booking a_tuesday clinic
                (mkdb [anna; ben] [dr_hamutenya; dr_dlamini]
                   [A001; Appointment.mk "A002" "2024-01-05" "09:30" 30 "flu" "P002" "D001"])
                (Form.mk "2024-01-05" "09:30" "30" "flu" "P002" "D001")
                "Appointment A002 booked successfully" eq_refl)
      as (new_row & start & Hrows & _ & _ & _ & _ & _ & Htext & _).
    exists new_row. split.
    + cbn [appointments clinic app] in Hrows. injection Hrows as <-. now left.
    + apply (Htext A001); [now left | reflexivity | reflexivity].
  - exists 1064002140. split; [reflexivity |].
    exists 1064002140. split; [reflexivity |].
    cbn [Appointment.duration A001]. lia.
Defined.

(** X16.  After a rescheduling that is accepted, the appointment of that
    id holds the fields of the form with a duration between 1 and 240;
    every other id is looked up as before and no row is added or
    removed.  The rescheduled appointment overlaps no other appointment
    of the doctor that is stored with the same date text, and none of the
    first hundred appointments of the patient stored with that date text.
    When the date of the form is written YYYY-MM-DD, the first covers
    every other appointment of the doctor on that day of the calendar
    whose date is written in that form. *)
Theorem edit_appointment_reschedules (today : Z) (db db' : database) (key : string)
  (form : Form.t) (message : string) :
  edit_appointment today db key form
  = Return (RedirectAppointments message "success", db') ->
  exists duration start,
    let row :=
      Appointment.mk key (Form.date form) (Form.time form) duration
        (Form.diagnosis form) (Form.patient_id form) (Form.doctor_id form) in
    1 <= duration <= 240
    /\ get_appointment db' key = Some row
    /\ (forall other, other <> key -> get_appointment db' other = get_appointment db other)
    /\ List.length (appointments db') = List.length (appointments db)
    /\ patients db' = patients db
    /\ doctors db' = doctors db
    /\ strptime_ymd_hm (Form.date form ++ " " ++ Form.time form) = Some start
    /\ (forall a,
          In a (appointments db) -> Appointment.id a <> key ->
          Appointment.doctor_id a = Form.doctor_id form ->
          Appointment.date a = Form.date form ->
          ~ rows_overlap row a /\ ~ rows_overlap a row)
    /\ (forall a,
          In a (firstn 100
                  (filter (fun a => (Appointment.patient_id a =? Form.patient_id form)%string
                                    && (Appointment.date a =? Form.date form)%string)
                     (appointments db))) ->
          Appointment.id a <> key ->
          ~ rows_overlap row a /\ ~ rows_overlap a row)
    /\ (canonical_date (Form.date form) = true ->
        forall a day,
          In a (appointments db) -> Appointment.id a <> key ->
          Appointment.doctor_id a = Form.doctor_id form ->
          canonical_date (Appointment.date a) = true ->
          strptime_ymd (Appointment.date a) = Some day ->
          strptime_ymd (Form.date form) = Some day ->
          ~ rows_overlap row a /\ ~ rows_overlap a row).
Proof.
  intro H.
  apply edit_appointment_accepted_inv in H
    as (appt & duration & day & Hget & Hdur & Hday & Htoday & Hrange & Hdoc & Hpat & ->).
  unfold is_doctor_available in Hdoc. unfold is_patient_available in Hpat.
  destruct (candidate_interval (Form.date form) (Form.time form) duration)
    as [[cs ce] |] eqn:Hcand; cbn [bind] in Hdoc, Hpat; [| discriminate Hdoc].
  apply candidate_interval_inv in Hcand as [Hstart ->].
  exists duration, cs. cbv zeta.
  set (row := Appointment.mk key (Form.date form) (Form.time form) duration
                (Form.diagnosis form) (Form.patient_id form) (Form.doctor_id form)).
  assert (Hrow : forall a, ~ overlaps_row cs (cs + duration) a ->
                           ~ rows_overlap row a /\ ~ rows_overlap a row).
  { intros a Hno.
    assert (Hno' : ~ rows_overlap row a).
    { intros (s & Hs & Hov). cbn [row Appointment.date Appointment.time
                                   Appointment.duration] in Hs, Hov.
      rewrite Hstart in Hs. injection Hs as <-. now apply Hno. }
    split; [exact Hno' |]. intro Hov. apply Hno'. now apply rows_overlap_sym. }
  assert (Hdoctor : forall a,
             In a (appointments db) -> Appointment.id a <> key ->
             Appointment.doctor_id a = Form.doctor_id form ->
             Appointment.date a = Form.date form ->
             ~ rows_overlap row a /\ ~ rows_overlap a row).
  { intros a Hin Hid Hd Hdate. apply Hrow.
    apply (no_overlap_true_rows _ _ _ _ Hdoc).
    - apply doctor_appointments_on_In. now repeat split.
    - congruence. }
  split; [lia |]. split.
  { unfold get_appointment in *. rewrite update_appointment_rows.
    apply (find_map_replace _ _ _ appt).
    + intros y Hy. apply String.eqb_eq in Hy. cbn [Appointment.id]. now rewrite Hy.
    + cbn [Appointment.id]. apply String.eqb_refl.
    + exact Hget.
    + apply find_some in Hget. apply Hget. }
  split.
  { intros other Hother. unfold get_appointment. rewrite update_appointment_rows.
    apply find_map_other.
    + intros y Hy. apply String.eqb_eq in Hy. rewrite Hy. now apply eqb_neq_sym.
    + cbn [Appointment.id]. now apply eqb_neq_sym. }
  split; [rewrite update_appointment_rows; apply length_map |].
  split; [reflexivity |]. split; [reflexivity |]. split; [exact Hstart |].
  split; [exact Hdoctor |]. split.
  { intros a Hin Hid. apply Hrow.
    apply (no_overlap_true_rows _ _ _ _ Hpat); [exact Hin | congruence]. }
  intros Hcanon a day' Hin Hid Hd Hca Hda Hform.
  apply Hdoctor; trivial.
  now apply (canonical_same_day _ _ day').
Qed.

(** Ben is moved from 10:00 to 09:30, next to Anna at 09:00. *)
Lemma edit_appointment_reschedules_at_clinic :
  edit_appointment a_tuesday
    (mkdb [anna; ben] [dr_hamutenya; dr_dlamini]
       [A001; Appointment.mk "A002" "2024-01-05" "10:00" 30 "flu" "P002" "D001"])
    "A002" (Form.mk "2024-01-05" "09:30" "45" "flu" "P002" "D001")
  = Return (RedirectAppointments "Appointment A002 updated successfully" "success",
            mkdb [anna; ben] [dr_hamutenya; dr_dlamini]
              [A001; Appointment.mk "A002" "2024-01-05" "09:30" 45 "flu" "P002" "D001"])
  /\ exists duration,
      1 <= duration <= 240
      /\ ~ rows_overlap
            (Appointment.mk "A002" "2024-01-05" "09:30" duration "flu" "P002" "D001") A001.
Proof.
  split; [reflexivity |].
  destruct (edit_appointment_reschedules a_tuesday
              (mkdb [anna; ben] [dr_hamutenya; dr_dlamini]
                 [A001; Appointment.mk "A002" "2024-01-05" "10:00" 30 "flu" "P002" "D001"])
              _ "A002" (Form.mk "2024-01-05" "09:30" "45" "flu" "P002" "D001") _ eq_refl)
    as (duration & start & Hrange & _ & _ & _ & _ & _ & _ & Hdoctor & _).
  exists duration. split; [exact Hrange |].
  apply (Hdoctor A001); [now left | discriminate | reflexivity | reflexivity].
Defined.

(** ** The schedule of a doctor *)

Lemma consistent_days (db : database) :
  dates_canonical db -> doctor_schedule_consistent db -> doctor_days_consistent db.
Proof.
  intros Hcanon [_ Hfree] a b day Ha Hb Hid Hdoc Hda Hdb.
  apply Hfree; trivial.
  apply (canonical_same_day _ _ day); trivial; now apply Hcanon.
Qed.

Lemma add_appointment_consistent (today : Z) (db db' : database) (form : Form.t)
  (r : response) :
  doctor_schedule_consistent db ->
  add_appointment today db form = Return (r, db') ->
  doctor_schedule_consistent db'
  /\ (dates_canonical db -> canonical_date (Form.date form) = true ->
      dates_canonical db').
Proof.
  intros [Hnd Hfree] H.
  pose proof H as H0.
  apply add_appointment_inv in H0 as [(m & E) | (d & i & db'' & _ & _ & _ & E)];
    injection E as -> ->; [split; [now split | trivial] |].
  apply add_appointment_accepted_inv in H
    as (duration & new_id & Hpass & _ & Hnew & -> & _).
  destruct Hpass as (_ & _ & _ & _ & _ & _ & Havail).
  unfold is_doctor_available in Havail.
  destruct (candidate_interval (Form.date form) (Form.time form) duration)
    as [[cs ce] |] eqn:Hcand; cbn [bind] in Havail; [| discriminate Havail].
  apply candidate_interval_inv in Hcand as [Hstart ->].
  pose proof (find_none_key Appointment.id new_id _ Hnew) as Hfresh.
  set (row := Appointment.mk new_id (Form.date form) (Form.time form) duration
                (Form.diagnosis form) (Form.patient_id form) (Form.doctor_id form)).
  assert (Hclear : forall a,
             In a (appointments db) ->
             Appointment.doctor_id a = Form.doctor_id form ->
             Appointment.date a = Form.date form ->
             ~ rows_overlap row a).
  { intros a Ha Hd Hdate (s & Hs & Hov).
    cbn [row Appointment.date Appointment.time Appointment.duration] in Hs, Hov.
    rewrite Hstart in Hs. injection Hs as <-. revert Hov.
    apply (no_overlap_true_rows _ _ _ _ Havail); [| discriminate].
    apply doctor_appointments_on_In. now repeat split. }
  split; [split |]; cbn [appointments].
  - rewrite map_app. apply NoDup_app; [exact Hnd | repeat constructor; intros [] |].
    intros k Hk [<- | []]. apply in_map_iff in Hk as (x & Hx & Hin).
    now apply (Hfresh x Hin).
  - intros a b Ha Hb Hid Hd Hdate.
    apply in_app_or in Ha as [Ha | [<- | []]];
      apply in_app_or in Hb as [Hb | [<- | []]].
    + now apply (Hfree a b).
    + intro Hov. apply rows_overlap_sym in Hov. revert Hov. now apply (Hclear a).
    + apply (Hclear b); [exact Hb | now symmetry | now symmetry].
    + now contradiction Hid.
  - intros Hcanon Hform a Ha. cbn [appointments] in Ha.
    apply in_app_or in Ha as [Ha | [<- | []]]; [now apply Hcanon | exact Hform].
Qed.

Lemma edit_appointment_consistent (today : Z) (db db' : database) (key : string)
  (form : Form.t) (r : response) :
  doctor_schedule_consistent db ->
  edit_appointment today db key form = Return (r, db') ->
  doctor_schedule_consistent db'
  /\ (dates_canonical db -> canonical_date (Form.date form) = true ->
      dates_canonical db').
Proof.
  intros [Hnd Hfree] H.
  apply edit_appointment_inv in H as [E | [(m & E) | (duration & Hdoc & _ & E)]];
    injection E as -> ->; try (split; [now split | trivial]).
  unfold is_doctor_available in Hdoc.
  destruct (candidate_interval (Form.date form) (Form.time form) duration)
    as [[cs ce] |] eqn:Hcand; cbn [bind] in Hdoc; [| discriminate Hdoc].
  apply candidate_interval_inv in Hcand as [Hstart ->].
  set (row := Appointment.mk key (Form.date form) (Form.time form) duration
                (Form.diagnosis form) (Form.patient_id form) (Form.doctor_id form)).
  assert (Hclear : forall a,
             In a (appointments db) -> Appointment.id a <> key ->
             Appointment.doctor_id a = Form.doctor_id form ->
             Appointment.date a = Form.date form ->
             ~ rows_overlap row a).
  { intros a Ha Hid Hd Hdate (s & Hs & Hov).
    cbn [row Appointment.date Appointment.time Appointment.duration] in Hs, Hov.
    rewrite Hstart in Hs. injection Hs as <-. revert Hov.
    apply (no_overlap_true_rows _ _ _ _ Hdoc).
    - apply doctor_appointments_on_In. now repeat split.
    - congruence. }
  assert (Hmapped : forall x,
             In x (appointments (update_appointment db key form duration)) ->
             (x = row /\ Appointment.id x = key)
             \/ (In x (appointments db) /\ Appointment.id x <> key)).
  { intros x Hx. rewrite update_appointment_rows in Hx.
    apply in_map_iff in Hx as (y & <- & Hy).
    destruct (Appointment.id y =? key)%string eqn:E.
    - left. now split.
    - right. apply String.eqb_neq in E. now split. }
  split; [split |].
  - rewrite update_appointment_rows, map_map.
    erewrite map_ext; [exact Hnd |].
    intro a. cbn beta.
    destruct (Appointment.id a =? key)%string eqn:E; [| reflexivity].
    apply String.eqb_eq in E. now rewrite E.
  - intros a b Ha Hb Hid Hd Hdate.
    apply Hmapped in Ha as [[-> Ka] | [Ha Ka]];
      apply Hmapped in Hb as [[-> Kb] | [Hb Kb]].
    + now contradiction Hid.
    + apply (Hclear b); [exact Hb | exact Kb | now symmetry | now symmetry].
    + intro Hov. apply rows_overlap_sym in Hov. revert Hov. now apply (Hclear a).
    + now apply (Hfree a b).
  - intros Hcanon Hform a Ha. apply Hmapped in Ha as [[-> _] | [Ha _]];
      [exact Hform | now apply Hcanon].
Qed.

Lemma delete_appointment_consistent (db db' : database) (key : string) (r : reply) :
  doctor_schedule_consistent db ->
  delete_appointment db key = Return (r, db') ->
  doctor_schedule_consistent db' /\ (dates_canonical db -> dates_canonical db').
Proof.
  intros [Hnd Hfree] H. apply delete_appointment_table in H. subst db'.
  split; [split |]; cbn [appointments].
  - now apply unique_ids_after_filter.
  - intros a b Ha Hb. apply filter_In in Ha as [Ha _], Hb as [Hb _].
    now apply Hfree.
  - intros Hcanon a Ha. cbn [appointments] in Ha. apply filter_In in Ha as [Ha _].
    now apply Hcanon.
Qed.

(** X23.  If appointment ids are unique and no two appointments of one
    doctor that are stored with the same date text overlap, the same
    holds after a booking, after a rescheduling and after the deletion of
    an appointment, whatever the answer.  When in addition every stored
    date and the date of the form are written YYYY-MM-DD, no two
    appointments of one doctor on the same day of the calendar overlap,
    before and after. *)
Theorem doctor_schedule_stays_consistent (db : database) :
  doctor_schedule_consistent db ->
  (forall today form r db',
      add_appointment today db form = Return (r, db') ->
      doctor_schedule_consistent db'
      /\ (dates_canonical db -> canonical_date (Form.date form) = true ->
          dates_canonical db' /\ doctor_days_consistent db'))
  /\ (forall today key form r db',
        edit_appointment today db key form = Return (r, db') ->
        doctor_schedule_consistent db'
        /\ (dates_canonical db -> canonical_date (Form.date form) = true ->
            dates_canonical db' /\ doctor_days_consistent db'))
  /\ (forall key r db',
        delete_appointment db key = Return (r, db') ->
        doctor_schedule_consistent db'
        /\ (dates_canonical db -> dates_canonical db' /\ doctor_days_consistent db'))
  /\ (dates_canonical db -> doctor_days_consistent db).
Proof.
  intro Hcons. repeat apply conj.
  - intros today form r db' H.
    destruct (add_appointment_consistent _ _ _ _ _ Hcons H) as [Hcons' Hcanon'].
    split; [exact Hcons' |]. intros Hc Hf. split; [now apply Hcanon' |].
    apply consistent_days; [now apply Hcanon' | exact Hcons'].
  - intros today key form r db' H.
    destruct (edit_appointment_consistent _ _ _ _ _ _ Hcons H) as [Hcons' Hcanon'].
    split; [exact Hcons' |]. intros Hc Hf. split; [now apply Hcanon' |].
    apply consistent_days; [now apply Hcanon' | exact Hcons'].
  - intros key r db' H.
    destruct (delete_appointment_consistent _ _ _ _ Hcons H) as [Hcons' Hcanon'].
    split; [exact Hcons' |]. intros Hc. split; [now apply Hcanon' |].
    apply consistent_days; [now apply Hcanon' | exact Hcons'].
  - intro Hc. now apply consistent_days.
Qed.

Lemma clinic_schedule_consistent : doctor_schedule_consistent clinic.
Proof.
  split.
  - cbn. repeat constructor. intros [].
  - intros a b [<- | []] [<- | []] Hid. now contradiction Hid.
Qed.

Lemma clinic_dates_canonical : dates_canonical clinic.
Proof. intros a [<- | []]. reflexivity. Qed.

(** At the clinic the schedule is consistent and stays so.  A booking
    with the date written 2024-1-5 keeps the schedule consistent by date
    text, but not by day: it is stored over the appointment of 09:00. *)
Lemma doctor_schedule_stays_consistent_at_clinic :
  (forall today form r db',
      add_appointment today clinic form = Return (r, db') ->
      canonical_date (Form.date form) = true ->
      doctor_days_consistent db')
  /\ doctor_schedule_consistent
       (mkdb [anna; ben] [dr_hamutenya; dr_dlamini]
          [A001; Appointment.mk "A002" "2024-1-5" "09:00" 30 "flu" "P002" "D001"])
  /\ ~ doctor_days_consistent
         (mkdb [anna; ben] [dr_hamutenya; dr_dlamini]
            [A001; Appointment.mk "A002" "2024-1-5" "09:00" 30 "flu" "P002" "D001"]).
Proof.
  pose proof (doctor_schedule_stays_consistent clinic clinic_schedule_consistent)
    as (Hadd & _).
  split; [| split].
  - intros today form r db' H Hform.
    apply (Hadd today form r db' H); [exact clinic_dates_canonical | exact Hform].
  - apply (Hadd a_tuesday (Form.mk "2024-1-5" "09:00" "30" "flu" "P002" "D001")
             (RedirectAppointments "Appointment A002 booked successfully" "success")).
    reflexivity.
  - intro Hdays.
    apply (Hdays (Appointment.mk "A002" "2024-1-5" "09:00" 30 "flu" "P002" "D001") A001
             738890); cbn [appointments In]; auto; try discriminate.
    exists 1064002140. split; [reflexivity |].
    exists 1064002140. split; [reflexivity |].
    cbn [Appointment.duration A001]. lia.
Defined.
